(** * InstaCordChat: the real-time connection / presence / broadcast layer

    A shallow embedding of the WebSocket part of [server/routes.ts]
    ([broadcastToChannel], [broadcastToAll], the ["message"] and ["close"]
    handlers registered in [registerRoutes]) and of the methods of
    [server/storage.ts] those handlers call.

    - ECMAScript [Map] and [Set] are insertion-ordered association lists
      ([JsMap]); the three process-wide maps [clients], [userChannels] and
      [wsUserMap] live in one record [Hub], together with what each
      connection's closure holds ([userId], [authenticatedUserId]) and the
      [readyState] of its socket.
    - An [async] handler is a [Task]: synchronous operations on the [Hub]
      separated by [Await] nodes, one per [await storage.m(...)].  [run]
      executes a task without letting any other handler in; [advance] and
      the event loop [exec] stop at every [await], so that other handlers
      interleave there as they do on the Node.js event loop.
    - The storage layer is the interface [IStorage]; [DatabaseStorage] is
      its implementation over the tables of [shared/schema.ts].
    - Of the [ws] library the model keeps what the handlers rely on: a
      socket has a [readyState], [send] on a socket that is not open drops
      the frame, [close] on an open socket makes it [CLOSING], and the
      ["close"] event finds it [CLOSED].
    - Beside the socket handlers the development covers the HTTP routes
      that post messages and reactions (they share the hub and the storage
      layer with the socket handlers), the update of the routing index when
      a channel is created, further methods of [DatabaseStorage] and the
      friendship operations. *)

From Stdlib Require Import String List Bool Arith Lia DecimalString.
From Stdlib Require Import Sorted.
Import ListNotations.
Open Scope string_scope.
Open Scope list_scope.

Set Implicit Arguments.

(* ================================================================== *)
(** ** Keys of ECMAScript maps *)

Class Key (K : Type) := {
  keqb : K -> K -> bool;
  keqb_spec : forall x y, reflect (x = y) (keqb x y)
}.

#[export] Instance Key_string : Key string :=
  {| keqb := String.eqb; keqb_spec := String.eqb_spec |}.

#[export] Instance Key_nat : Key nat :=
  {| keqb := Nat.eqb; keqb_spec := Nat.eqb_spec |}.

(* ================================================================== *)
(** ** [Map<K, V>]: entries in insertion order, one per key *)

Module JsMap.
Abbreviation t K V := (list (K * V)).

Section Ops.
Context {K V : Type} `{Key K}.

(** [m.get(k)]; [None] is [undefined]. *)
Fixpoint get (k : K) (m : t K V) : option V :=
  match m with
  | [] => None
  | (k', v) :: m' => if keqb k k' then Some v else get k m'
  end.

Definition has (k : K) (m : t K V) : bool :=
  match get k m with Some _ => true | None => false end.

(** [m.set(k, v)]: an existing key keeps its position, a new key goes
    last. *)
Fixpoint set (k : K) (v : V) (m : t K V) : t K V :=
  match m with
  | [] => [(k, v)]
  | (k', v') :: m' =>
      if keqb k k' then (k, v) :: m' else (k', v') :: set k v m'
  end.

(** [m.delete(k)]. *)
Definition delete (k : K) (m : t K V) : t K V :=
  filter (fun e => negb (keqb k (fst e))) m.

(** [Array.from(m.keys())] and [m.entries()]. *)
Definition keys (m : t K V) : list K := map fst m.
Definition entries (m : t K V) : list (K * V) := m.

(** How many entries the map holds for [k]. *)
Definition count (k : K) (m : t K V) : nat :=
  length (filter (fun e => keqb k (fst e)) m).
End Ops.
End JsMap.

(* ================================================================== *)
(** ** JavaScript values that reach the handlers

    A field read from a client frame is either absent ([undefined]) or a
    string; [truthy] is the test of [if (x)] and of [x && y]. *)

Definition truthy (x : option string) : bool :=
  match x with
  | Some s => negb (String.eqb s "")
  | None => false
  end.

Arguments truthy : simpl never.

(** [x === y] on such values. *)
Definition strict_eq (x y : option string) : bool :=
  match x, y with
  | Some a, Some b => String.eqb a b
  | None, None => true
  | _, _ => false
  end.

(** [Set<string>], in insertion order. *)
Module JsSet.
Abbreviation t := (list string).

Definition has (x : string) (s : t) : bool :=
  existsb (String.eqb x) s.

Definition add (x : string) (s : t) : t :=
  if has x s then s else s ++ [x].

(** [new Set(array)]. *)
Definition of_list (l : list string) : t :=
  fold_left (fun s x => add x s) l [].
End JsSet.

(* ================================================================== *)
(** ** Rows of [shared/schema.ts] *)

Abbreviation UserId := string.
Abbreviation ChannelId := string.
Abbreviation MessageId := string.

(** [typeof users.$inferSelect] (the nullable profile columns that the
    socket layer never reads are carried as one opaque value). *)
Record User := {
  user_id : UserId;
  user_username : option string;
  user_firstName : option string;
  user_lastName : option string;
  user_profile : list (string * string)
}.

Record Channel := {
  channel_id : ChannelId;
  channel_name : string;
  channel_type : string
}.

Record ChannelMember := {
  member_id : string;
  member_channelId : ChannelId;
  member_userId : UserId;
  member_role : string
}.

Record Message := {
  message_id : MessageId;
  message_channelId : ChannelId;
  message_senderId : UserId;
  message_content : option string;
  message_replyToId : option string;
  message_isEdited : bool;
  message_createdAt : nat
}.

Record Reaction := {
  reaction_id : string;
  reaction_messageId : MessageId;
  reaction_userId : UserId;
  reaction_emoji : string
}.

(** [Message & { sender: User; reactions?: ... }]. *)
Record MessageWithSender := {
  mws_message : Message;
  mws_sender : User;
  mws_reactions : list (Reaction * User)
}.

(** [ChannelWithMembers]; the handlers read [id] only. *)
Record ChannelWithMembers := {
  cwm_channel : Channel;
  cwm_members : list (ChannelMember * User);
  cwm_lastMessage : option MessageWithSender
}.

(** What [createMessage] and [addReaction] receive from the socket
    handlers: [channelId] and [messageId] were tested non-empty, [senderId]
    and [userId] are the connection's [userId] variable as read after the
    preceding [await], the other fields come from the client's payload as
    they are. *)
Record InsertMessage := {
  im_channelId : ChannelId;
  im_senderId : option UserId;
  im_content : option string;
  im_replyToId : option string
}.

Record InsertReaction := {
  ir_messageId : MessageId;
  ir_userId : option UserId;
  ir_emoji : option string
}.

(** What [addChannelMember] receives; [role] has a default. *)
Record InsertChannelMember := {
  icm_channelId : ChannelId;
  icm_userId : UserId;
  icm_role : option string
}.

(** [typeof friendships.$inferSelect]. *)
Record Friendship := {
  friendship_id : string;
  friendship_requesterId : UserId;
  friendship_addresseeId : UserId;
  friendship_status : string;
  friendship_createdAt : nat;
  friendship_updatedAt : nat
}.

(** What [createFriendship] receives from the route that sends a friend
    request: [requesterId] is the session's user, [addresseeId] comes from
    the request body as it is, [status] has a default. *)
Record InsertFriendship := {
  if_requesterId : UserId;
  if_addresseeId : option UserId;
  if_status : option string
}.

(* ================================================================== *)
(** ** Exceptions and results *)

Inductive Exn :=
  | SyntaxError            (* JSON.parse on a frame that is not JSON *)
  | TypeError              (* property read on undefined or null *)
  | StorageError (msg : string).

Inductive Result (A : Type) :=
  | Ok (a : A)
  | Err (e : Exn).
Arguments Ok {A} a.
Arguments Err {A} e.

(* ================================================================== *)
(** ** The storage interface ([IStorage], the methods the socket handlers
    call) *)

Inductive Request :=
  | getUser (id : option string)
  | getUserChannels (userId : UserId)
  | isChannelMember (channelId : ChannelId) (userId : UserId)
  | createMessage (message : InsertMessage)
  | getMessage (id : MessageId)
  | addReaction (reaction : InsertReaction)
  | removeReaction (messageId : MessageId) (userId : option UserId)
                   (emoji : option string).

(** The type a method's promise resolves to. *)
Definition Reply (r : Request) : Type :=
  match r with
  | getUser _ => option User
  | getUserChannels _ => list ChannelWithMembers
  | isChannelMember _ _ => bool
  | createMessage _ => MessageWithSender
  | getMessage _ => option Message
  | addReaction _ => Reaction
  | removeReaction _ _ _ => bool
  end.

(** An implementation answers each call on its database: the promise is
    fulfilled ([Ok]) or rejected ([Err]), and the database may change. *)
Class IStorage (DB : Type) :=
  storage : forall r : Request, DB -> Result (Reply r) * DB.

(* ================================================================== *)
(** ** Sockets, frames and the hub *)

Abbreviation WebSocket := nat.   (* identity of a [ws] object *)

Inductive ReadyState := CONNECTING | OPEN | CLOSING | CLOSED.

Definition is_open (s : ReadyState) : bool :=
  match s with OPEN => true | _ => false end.

(** The [payload] object of an inbound frame. *)
Record Payload := {
  p_userId : option string;
  p_channelId : option string;
  p_content : option string;
  p_replyToId : option string;
  p_messageId : option string;
  p_emoji : option string
}.

(** [JSON.parse(data.toString())]: it throws, or yields [null], or a value
    whose [type] and [payload] properties are read ([None]: the property is
    undefined or null). *)
Inductive RawData :=
  | NotJson
  | JsonNull
  | Json (type : option string) (payload : option Payload).

(** Outbound frames [{ type, payload }]. *)
Inductive OutFrame :=
  | online_users (payload : list UserId)
  | user_online (payload : option UserId)
  | user_offline (payload : UserId)
  | typing_start (userId : option UserId) (channelId : option ChannelId)
                 (firstName : option string)
  | typing_stop (userId : option UserId) (channelId : option ChannelId)
  | new_message (payload : MessageWithSender)
  | message_reaction (messageId : option MessageId) (emoji : option string)
                     (userId : option UserId) (action : string).

(** What a handler does to the outside world, in order. *)
Inductive Effect :=
  | Send (client : WebSocket) (frame : OutFrame)   (* client.send(JSON.stringify(frame)) *)
  | Close (ws : WebSocket) (code : nat) (reason : string)
  | Warn (msg : string)                            (* console.warn *)
  | LogError (msg : string) (e : Exn)              (* console.error *)
  | Call (r : Request).                            (* storage.m(...) invoked *)

(** The variables one connection's closure holds, and its socket's
    [readyState]. *)
Record Connection := {
  readyState : ReadyState;
  authenticatedUserId : option UserId;
  userId : option UserId
}.

(** A socket the server never accepted. *)
Definition no_connection : Connection :=
  {| readyState := CLOSED; authenticatedUserId := None; userId := None |}.

Record Hub := {
  clients : JsMap.t UserId WebSocket;
  userChannels : JsMap.t UserId JsSet.t;
  wsUserMap : JsMap.t WebSocket UserId;
  connections : JsMap.t WebSocket Connection
}.

Definition empty_hub : Hub :=
  {| clients := []; userChannels := []; wsUserMap := []; connections := [] |}.

Definition connection (h : Hub) (ws : WebSocket) : Connection :=
  match JsMap.get ws (connections h) with
  | Some c => c
  | None => no_connection
  end.

Definition with_clients (h : Hub) (m : JsMap.t UserId WebSocket) : Hub :=
  {| clients := m; userChannels := userChannels h;
     wsUserMap := wsUserMap h; connections := connections h |}.

Definition with_userChannels (h : Hub) (m : JsMap.t UserId JsSet.t) : Hub :=
  {| clients := clients h; userChannels := m;
     wsUserMap := wsUserMap h; connections := connections h |}.

Definition with_wsUserMap (h : Hub) (m : JsMap.t WebSocket UserId) : Hub :=
  {| clients := clients h; userChannels := userChannels h;
     wsUserMap := m; connections := connections h |}.

Definition with_connection (h : Hub) (ws : WebSocket) (c : Connection) : Hub :=
  {| clients := clients h; userChannels := userChannels h;
     wsUserMap := wsUserMap h;
     connections := JsMap.set ws c (connections h) |}.

(** [if (!userChannels.has(u)) userChannels.set(u, new Set());
    userChannels.get(u)!.add(c)], as the route that creates a channel does
    for its creator and for each member. *)
Definition userChannels_add (h : Hub) (u : UserId) (c : ChannelId) : Hub :=
  let m := if JsMap.has u (userChannels h) then userChannels h
           else JsMap.set u [] (userChannels h) in
  match JsMap.get u m with
  | Some s => with_userChannels h (JsMap.set u (JsSet.add c s) m)
  | None => with_userChannels h m
  end.

(** Assignment to the closure variable [userId] of the connection of [ws],
    and a change of the [readyState] of [ws]. *)
Definition with_userId (h : Hub) (ws : WebSocket) (v : option UserId) : Hub :=
  let c := connection h ws in
  with_connection h ws
    {| readyState := readyState c;
       authenticatedUserId := authenticatedUserId c;
       userId := v |}.

Definition with_readyState (h : Hub) (ws : WebSocket) (s : ReadyState) : Hub :=
  let c := connection h ws in
  with_connection h ws
    {| readyState := s;
       authenticatedUserId := authenticatedUserId c;
       userId := userId c |}.

(* ================================================================== *)
(** ** [broadcastToChannel] and [broadcastToAll] *)

(** [client.readyState === WebSocket.OPEN]. *)
Definition client_open (h : Hub) (client : WebSocket) : bool :=
  is_open (readyState (connection h client)).

(** [userId === excludeUserId], [excludeUserId] being optional. *)
Definition excluded (userId : UserId) (excludeUserId : option UserId) : bool :=
  match excludeUserId with
  | Some x => String.eqb userId x
  | None => false
  end.

(** The [channelUsers] array of [broadcastToChannel]; a [channelId] that is
    [undefined] is in no set. *)
Definition channelUsers (h : Hub) (channelId : option ChannelId) : list UserId :=
  map fst
    (filter (fun e => match channelId with
                      | Some c => JsSet.has c (snd e)
                      | None => false
                      end)
            (JsMap.entries (userChannels h))).

(** One iteration of the loop of [broadcastToChannel]. *)
Definition deliver (h : Hub) (message : OutFrame) (excludeUserId : option UserId)
    (userId : UserId) : list Effect :=
  if excluded userId excludeUserId then []
  else match JsMap.get userId (clients h) with
       | Some client =>
           if client_open h client then [Send client message] else []
       | None => []
       end.

Definition broadcastToChannel (h : Hub) (channelId : option ChannelId)
    (message : OutFrame) (excludeUserId : option UserId) : list Effect :=
  flat_map (deliver h message excludeUserId) (channelUsers h channelId).

Definition broadcastToAll (h : Hub) (message : OutFrame)
    (excludeUserId : option UserId) : list Effect :=
  flat_map
    (fun e : UserId * WebSocket =>
       let (userId, client) := e in
       if excluded userId excludeUserId then []
       else if client_open h client then [Send client message] else [])
    (JsMap.entries (clients h)).

(* ================================================================== *)
(** ** Asynchronous handlers

    A [Task] is the body of an [async] function: [Sync] nodes run on the
    hub without interruption, an [Await] node hands a request to the
    storage layer and suspends the handler until the promise settles. *)

Inductive Task (A : Type) : Type :=
  | Ret (a : A)
  | Throw (e : Exn)
  | Sync (B : Type) (f : Hub -> B * Hub * list Effect) (k : B -> Task A)
  | Await (r : Request) (k : Result (Reply r) -> Task A).
Arguments Ret {A} a.
Arguments Throw {A} e.
Arguments Sync {A B} f k.
Arguments Await {A} r k.

Fixpoint bind {A B} (t : Task A) (g : A -> Task B) : Task B :=
  match t with
  | Ret a => g a
  | Throw e => Throw e
  | Sync f k => Sync f (fun b => bind (k b) g)
  | Await r k => Await r (fun x => bind (k x) g)
  end.

(** [try { t } catch (e) { handler e }]; a rejected promise throws at its
    [await], inside the [try]. *)
Fixpoint try_catch {A} (t : Task A) (handler : Exn -> Task A) : Task A :=
  match t with
  | Ret a => Ret a
  | Throw e => handler e
  | Sync f k => Sync f (fun b => try_catch (k b) handler)
  | Await r k => Await r (fun x => try_catch (k x) handler)
  end.

Declare Scope task_scope.
Delimit Scope task_scope with task.
Notation "x <- t ;; k" := (bind t (fun x => k))
  (at level 61, t at next level, right associativity) : task_scope.
Notation "t ;; k" := (bind t (fun _ => k))
  (at level 61, right associativity) : task_scope.
Open Scope task_scope.

(** [await storage.m(...)]. *)
Definition await (r : Request) : Task (Reply r) :=
  Await r (fun x => match x with Ok b => Ret b | Err e => Throw e end).

Definition read {B} (f : Hub -> B) : Task B :=
  Sync (fun h => (f h, h, [])) Ret.

Definition modify (f : Hub -> Hub) : Task unit :=
  Sync (fun h => (tt, f h, [])) Ret.

Definition emit (f : Hub -> list Effect) : Task unit :=
  Sync (fun h => (tt, h, f h)) Ret.

Definition skip : Task unit := Ret tt.

(** *** The operations the handlers are written with *)

(** The closure variable [userId] of the connection of [ws]. *)
Definition get_userId (ws : WebSocket) : Task (option UserId) :=
  read (fun h => userId (connection h ws)).

Definition set_userId (ws : WebSocket) (v : option UserId) : Task unit :=
  modify (fun h => with_userId h ws v).

Definition get_authenticatedUserId (ws : WebSocket) : Task (option UserId) :=
  read (fun h => authenticatedUserId (connection h ws)).

Definition clients_set (u : UserId) (ws : WebSocket) : Task unit :=
  modify (fun h => with_clients h (JsMap.set u ws (clients h))).

Definition clients_delete (u : UserId) : Task unit :=
  modify (fun h => with_clients h (JsMap.delete u (clients h))).

Definition clients_keys : Task (list UserId) :=
  read (fun h => JsMap.keys (clients h)).

Definition wsUserMap_set (ws : WebSocket) (u : UserId) : Task unit :=
  modify (fun h => with_wsUserMap h (JsMap.set ws u (wsUserMap h))).

Definition wsUserMap_delete (ws : WebSocket) : Task unit :=
  modify (fun h => with_wsUserMap h (JsMap.delete ws (wsUserMap h))).

(** [userChannels.set(userId, channelIds)].  The key is the closure variable
    read again after an [await]; were it [undefined] by then, the entry
    would sit under a key that no lookup of this module uses ([clients]
    only ever holds string keys, so routing skips it), and it is left
    out. *)
Definition userChannels_set (u : option UserId) (s : JsSet.t) : Task unit :=
  match u with
  | Some u => modify (fun h => with_userChannels h (JsMap.set u s (userChannels h)))
  | None => skip
  end.

Definition userChannels_delete (u : UserId) : Task unit :=
  modify (fun h => with_userChannels h (JsMap.delete u (userChannels h))).

(** [ws.send(JSON.stringify(frame))]: on a socket that is no longer open
    the frame is dropped. *)
Definition ws_send (ws : WebSocket) (frame : OutFrame) : Task unit :=
  emit (fun h => if client_open h ws then [Send ws frame] else []).

(** [ws.close(code, reason)]: an open socket starts closing; on a socket
    already closing or closed the call does nothing. *)
Definition ws_close (ws : WebSocket) (code : nat) (reason : string) : Task unit :=
  Sync (fun h =>
          if is_open (readyState (connection h ws))
          then (tt, with_readyState h ws CLOSING, [Close ws code reason])
          else (tt, h, []))
       Ret.

Definition console_warn (msg : string) : Task unit :=
  emit (fun _ => [Warn msg]).

Definition console_error (msg : string) (e : Exn) : Task unit :=
  emit (fun _ => [LogError msg e]).

Definition do_broadcastToChannel (channelId : option ChannelId)
    (message : OutFrame) (excludeUserId : option UserId) : Task unit :=
  emit (fun h => broadcastToChannel h channelId message excludeUserId).

Definition do_broadcastToAll (message : OutFrame)
    (excludeUserId : option UserId) : Task unit :=
  emit (fun h => broadcastToAll h message excludeUserId).

(** [message.payload.f]: a [TypeError] when [payload] is undefined or
    null. *)
Definition field (payload : option Payload) (f : Payload -> option string)
    : Task (option string) :=
  match payload with
  | Some p => Ret (f p)
  | None => Throw TypeError
  end.

(* ================================================================== *)
(** ** The ["message"] handler *)

(** The block [if (userId) { clients.set(userId, ws); ... }] that ends the
    ["auth"] case. *)
Definition auth_bind (ws : WebSocket) : Task unit :=
  u <- get_userId ws ;;
  match u with
  | Some u0 =>
      if truthy u then
        clients_set u0 ws ;;
        wsUserMap_set ws u0 ;;
        (* Load user's channels *)
        channels <- await (getUserChannels u0) ;;
        let channelIds :=
          JsSet.of_list (map (fun c => channel_id (cwm_channel c)) channels) in
        u1 <- get_userId ws ;;
        userChannels_set u1 channelIds ;;
        (* Send online users list *)
        onlineUserIds <- clients_keys ;;
        ws_send ws (online_users onlineUserIds) ;;
        (* Notify others that user is online *)
        u2 <- get_userId ws ;;
        do_broadcastToAll (user_online u2) u2
      else skip
  | None => skip
  end.

Definition case_auth (ws : WebSocket) (payload : option Payload) : Task unit :=
  clientUserId <- field payload p_userId ;;
  authenticatedUserId <- get_authenticatedUserId ws ;;
  if truthy authenticatedUserId then
    if negb (strict_eq clientUserId authenticatedUserId) then
      console_warn "WebSocket auth mismatch: client sent different userId than session" ;;
      ws_close ws 4001 "Authentication mismatch"
    else
      set_userId ws authenticatedUserId ;;
      auth_bind ws
  else
    (* Fallback: verify user exists in database *)
    user <- await (getUser clientUserId) ;;
    match user with
    | None =>
        console_warn "WebSocket auth failed: user not found" ;;
        ws_close ws 4002 "User not found"
    | Some _ =>
        set_userId ws clientUserId ;;
        auth_bind ws
    end.

Definition case_typing_start (ws : WebSocket) (payload : option Payload) : Task unit :=
  u <- get_userId ws ;;
  if truthy u then
    channelId <- field payload p_channelId ;;
    if truthy channelId then
      user <- await (getUser u) ;;
      u' <- get_userId ws ;;
      do_broadcastToChannel channelId
        (typing_start u' channelId
           (match user with Some x => user_firstName x | None => None end))
        u'
    else skip
  else skip.

Definition case_typing_stop (ws : WebSocket) (payload : option Payload) : Task unit :=
  u <- get_userId ws ;;
  if truthy u then
    channelId <- field payload p_channelId ;;
    if truthy channelId then
      do_broadcastToChannel channelId (typing_stop u channelId) u
    else skip
  else skip.

Definition case_send_message (ws : WebSocket) (payload : option Payload) : Task unit :=
  u <- get_userId ws ;;
  match u with
  | Some u0 =>
      if truthy u then
        channelId <- field payload p_channelId ;;
        match channelId with
        | Some c =>
            if truthy channelId then
              content <- field payload p_content ;;
              replyToId <- field payload p_replyToId ;;
              isMember <- await (isChannelMember c u0) ;;
              if negb isMember then skip
              else
                u' <- get_userId ws ;;
                newMessage <- await (createMessage
                                {| im_channelId := c;
                                   im_senderId := u';
                                   im_content := content;
                                   im_replyToId := replyToId |}) ;;
                do_broadcastToChannel channelId (new_message newMessage) None
            else skip
        | None => skip
        end
      else skip
  | None => skip
  end.

Definition case_add_reaction (ws : WebSocket) (payload : option Payload) : Task unit :=
  u <- get_userId ws ;;
  if truthy u then
    messageId <- field payload p_messageId ;;
    match messageId with
    | Some mid =>
        if truthy messageId then
          emoji <- field payload p_emoji ;;
          msg <- await (getMessage mid) ;;
          match msg with
          | None => skip
          | Some m =>
              u' <- get_userId ws ;;
              _ <- await (addReaction
                     {| ir_messageId := mid; ir_userId := u'; ir_emoji := emoji |}) ;;
              u'' <- get_userId ws ;;
              do_broadcastToChannel (Some (message_channelId m))
                (message_reaction messageId emoji u'' "add") None
          end
        else skip
    | None => skip
    end
  else skip.

Definition case_remove_reaction (ws : WebSocket) (payload : option Payload) : Task unit :=
  u <- get_userId ws ;;
  if truthy u then
    messageId <- field payload p_messageId ;;
    match messageId with
    | Some mid =>
        if truthy messageId then
          emoji <- field payload p_emoji ;;
          msg <- await (getMessage mid) ;;
          match msg with
          | None => skip
          | Some m =>
              u' <- get_userId ws ;;
              _ <- await (removeReaction mid u' emoji) ;;
              u'' <- get_userId ws ;;
              do_broadcastToChannel (Some (message_channelId m))
                (message_reaction messageId emoji u'' "remove") None
          end
        else skip
    | None => skip
    end
  else skip.

(** [message.type === tag], the test of one [case] of the [switch]. *)
Definition type_is (type : option string) (tag : string) : bool :=
  strict_eq type (Some tag).

(** The body of the [try] block. *)
Definition handle_message (ws : WebSocket) (data : RawData) : Task unit :=
  match data with
  | NotJson => Throw SyntaxError
  | JsonNull => Throw TypeError
  | Json type payload =>
      if type_is type "auth" then case_auth ws payload
      else if type_is type "typing_start" then case_typing_start ws payload
      else if type_is type "typing_stop" then case_typing_stop ws payload
      else if type_is type "send_message" then case_send_message ws payload
      else if type_is type "add_reaction" then case_add_reaction ws payload
      else if type_is type "remove_reaction" then case_remove_reaction ws payload
      else skip
  end.

(** [ws.on("message", async (data) => { try { ... } catch (error) { ... } })]. *)
Definition on_message (ws : WebSocket) (data : RawData) : Task unit :=
  try_catch (handle_message ws data)
    (fun error => console_error "WebSocket message error:" error).

(* ================================================================== *)
(** ** The ["close"] handler *)

(** [wsUserMap.get(ws) || userId]. *)
Definition closingUserId (h : Hub) (ws : WebSocket) : option UserId :=
  let mapped := JsMap.get ws (wsUserMap h) in
  if truthy mapped then mapped else userId (connection h ws).

Definition on_close (ws : WebSocket) : Task unit :=
  closing <- read (fun h => closingUserId h ws) ;;
  match closing with
  | Some u =>
      if truthy closing then
        clients_delete u ;;
        userChannels_delete u ;;
        wsUserMap_delete ws ;;
        (* Notify others that user is offline *)
        do_broadcastToAll (user_offline u) None
      else skip
  | None => skip
  end.

(* ================================================================== *)
(** ** Running handlers *)

(** The synchronous stretch of a task, up to its next [await]: what the
    event loop runs without interruption.  The storage method is invoked
    ([Call]) as the task suspends. *)
Fixpoint advance {A} (t : Task A) (h : Hub) : Task A * Hub * list Effect :=
  match t with
  | Sync f k =>
      let '(b, h1, o1) := f h in
      let '(t2, h2, o2) := advance (k b) h1 in
      (t2, h2, o1 ++ o2)
  | Await r k => (Await r k, h, [Call r])
  | _ => (t, h, [])
  end.

Section WithStorage.
Context {DB : Type} `{IStorage DB}.

Record World := { hub : Hub; db : DB }.

(** A handler run from start to end with no other handler in between. *)
Fixpoint run {A} (t : Task A) (w : World) : Result A * World * list Effect :=
  match t with
  | Ret a => (Ok a, w, [])
  | Throw e => (Err e, w, [])
  | Sync f k =>
      let '(b, h1, o1) := f (hub w) in
      let '(x, w2, o2) := run (k b) {| hub := h1; db := db w |} in
      (x, w2, o1 ++ o2)
  | Await r k =>
      let '(reply, db1) := storage r (db w) in
      let '(x, w2, o2) := run (k reply) {| hub := hub w; db := db1 |} in
      (x, w2, Call r :: o2)
  end.

(** A suspended handler whose promise settles: the storage call takes
    effect and the handler runs on to its next [await]. *)
Definition resume {A} (t : Task A) (w : World) : Task A * World * list Effect :=
  match t with
  | Await r k =>
      let '(reply, db1) := storage r (db w) in
      let '(t2, h2, o2) := advance (k reply) (hub w) in
      (t2, {| hub := h2; db := db1 |}, o2)
  | _ => (t, w, [])
  end.

Definition suspended {A} (t : Task A) : bool :=
  match t with Await _ _ => true | _ => false end.

(** *** The event loop *)

Inductive Event :=
  | OnConnection (ws : WebSocket) (sessionUserId : option UserId)
      (* wss "connection": a new socket, [authenticateWebSocket()] resolved *)
  | OnMessage (ws : WebSocket) (data : RawData) (* ws "message" *)
  | Settle (i : nat)        (* the promise the i-th suspended handler awaits *)
  | OnClose (ws : WebSocket)                    (* ws "close" *)
  | HttpStorage (update : DB -> DB)
      (* a route handler of the HTTP API writes to the database *)
  | HttpChannelCreated (userId : UserId) (memberIds : list UserId)
      (channelId : ChannelId).
      (* POST /api/channels, "Update user channels map for WebSocket" *)

Record System := {
  world : World;
  pending : list (Task unit);
  trace : list Effect
}.

Definition enqueue (t : Task unit) (l : list (Task unit)) : list (Task unit) :=
  if suspended t then l ++ [t] else l.

Fixpoint replace_nth (i : nat) (t : Task unit) (l : list (Task unit))
    : list (Task unit) :=
  match l, i with
  | [], _ => []
  | _ :: l', 0 => if suspended t then t :: l' else l'
  | x :: l', S j => x :: replace_nth j t l'
  end.

Definition step (s : System) (e : Event) : System :=
  let w := world s in
  match e with
  | OnConnection ws sessionUserId =>
      if JsMap.has ws (connections (hub w)) then s
      else
        {| world :=
             {| hub := with_connection (hub w) ws
                         {| readyState := OPEN;
                            authenticatedUserId := sessionUserId;
                            userId := None |};
                db := db w |};
           pending := pending s;
           trace := trace s |}
  | OnMessage ws data =>
      if JsMap.has ws (connections (hub w)) then
        let '(t, h, o) := advance (on_message ws data) (hub w) in
        {| world := {| hub := h; db := db w |};
           pending := enqueue t (pending s);
           trace := trace s ++ o |}
      else s
  | Settle i =>
      match nth_error (pending s) i with
      | Some t =>
          let '(t', w', o) := resume t w in
          {| world := w';
             pending := replace_nth i t' (pending s);
             trace := trace s ++ o |}
      | None => s
      end
  | OnClose ws =>
      if JsMap.has ws (connections (hub w))
         && negb (match readyState (connection (hub w) ws) with
                  | CLOSED => true | _ => false end)
      then
        let '(_, h, o) :=
          advance (on_close ws) (with_readyState (hub w) ws CLOSED) in
        {| world := {| hub := h; db := db w |};
           pending := pending s;
           trace := trace s ++ o |}
      else s
  | HttpStorage update =>
      {| world := {| hub := hub w; db := update (db w) |};
         pending := pending s;
         trace := trace s |}
  | HttpChannelCreated userId memberIds channelId =>
      {| world :=
           {| hub := fold_left (fun h u => userChannels_add h u channelId)
                       (userId :: memberIds) (hub w);
              db := db w |};
         pending := pending s;
         trace := trace s |}
  end.

Definition exec (s : System) (events : list Event) : System :=
  fold_left step events s.

Definition initial (d : DB) : System :=
  {| world := {| hub := empty_hub; db := d |}; pending := []; trace := [] |}.

End WithStorage.
Arguments World : clear implicits.
Arguments System : clear implicits.
Arguments Event : clear implicits.

(* ================================================================== *)
(** ** [DatabaseStorage]: the storage methods over the tables of
    [shared/schema.ts]

    Each method is one step on the tables: the calls of the storage layer
    do not overlap here.  ([addReaction] awaits a [SELECT] and then an
    [INSERT]; what it does when another call runs between the two is read
    off [insert_reaction], the [INSERT] alone.)  A query is answered from
    the tables and an insert is refused when a constraint of the schema is
    violated; a promise rejected for any other reason (a lost database
    connection) is covered by the properties stated for every
    implementation of [IStorage].  The clock [now] is a field of the
    database that the methods read and leave as it is: rows inserted
    without the clock being moved in between carry the same timestamp. *)

Module Db.

(* The calls of the interface, before the methods below take their names. *)
Local Abbreviation call_getUser := getUser (only parsing).
Local Abbreviation call_getUserChannels := getUserChannels (only parsing).
Local Abbreviation call_isChannelMember := isChannelMember (only parsing).
Local Abbreviation call_createMessage := createMessage (only parsing).
Local Abbreviation call_getMessage := getMessage (only parsing).
Local Abbreviation call_addReaction := addReaction (only parsing).
Local Abbreviation call_removeReaction := removeReaction (only parsing).

Record Database := {
  users : list User;
  channels : list Channel;
  channelMembers : list ChannelMember;
  messages : list Message;
  reactions : list Reaction;
  uuids : nat;      (* how many ids [gen_random_uuid()] has handed out *)
  now : nat         (* the clock behind [defaultNow()] *)
}.

Definition gen_random_uuid (d : Database) : string :=
  "uuid-" ++ NilEmpty.string_of_uint (Nat.to_uint (uuids d)).

(** Stable sort, largest key first ([ORDER BY ... DESC], and
    [Array.prototype.sort] with the comparator [bTime - aTime]). *)
Fixpoint insert_desc {A} (key : A -> nat) (x : A) (l : list A) : list A :=
  match l with
  | [] => [x]
  | y :: l' =>
      if Nat.leb (key x) (key y) then y :: insert_desc key x l'
      else x :: y :: l'
  end.

Definition sort_desc {A} (key : A -> nat) (l : list A) : list A :=
  fold_left (fun acc x => insert_desc key x acc) l [].

Definition getUser (d : Database) (id : option string) : option User :=
  match id with
  | Some i => find (fun u => String.eqb (user_id u) i) (users d)
  | None => None
  end.

Definition getChannelMembers (d : Database) (channelId : ChannelId)
    : list (ChannelMember * User) :=
  flat_map
    (fun member =>
       match getUser d (Some (member_userId member)) with
       | Some user => [(member, user)]
       | None => []
       end)
    (filter (fun m => String.eqb (member_channelId m) channelId)
            (channelMembers d)).

Definition isChannelMember (d : Database) (channelId : ChannelId)
    (userId : UserId) : bool :=
  match filter (fun m => String.eqb (member_channelId m) channelId
                         && String.eqb (member_userId m) userId)
               (channelMembers d) with
  | _ :: _ => true
  | [] => false
  end.

Definition getMessage (d : Database) (id : MessageId) : option Message :=
  find (fun m => String.eqb (message_id m) id) (messages d).

Definition getMessageReactions (d : Database) (messageId : MessageId)
    : list (Reaction * User) :=
  flat_map
    (fun reaction =>
       match getUser d (Some (reaction_userId reaction)) with
       | Some user => [(reaction, user)]
       | None => []
       end)
    (filter (fun r => String.eqb (reaction_messageId r) messageId)
            (reactions d)).

Definition getChannelMessages (d : Database) (channelId : ChannelId)
    (limit : nat) : list MessageWithSender :=
  let messageRecords :=
    firstn limit
      (sort_desc message_createdAt
         (filter (fun m => String.eqb (message_channelId m) channelId)
                 (messages d))) in
  flat_map
    (fun message =>
       match getUser d (Some (message_senderId message)) with
       | Some sender =>
           [{| mws_message := message;
               mws_sender := sender;
               mws_reactions := getMessageReactions d (message_id message) |}]
       | None => []
       end)
    (rev messageRecords).

Definition lastMessageTime (c : ChannelWithMembers) : nat :=
  match cwm_lastMessage c with
  | Some m => message_createdAt (mws_message m)
  | None => 0
  end.

Definition getUserChannels (d : Database) (userId : UserId)
    : list ChannelWithMembers :=
  let memberRecords :=
    filter (fun m => String.eqb (member_userId m) userId) (channelMembers d) in
  let channelIds := map member_channelId memberRecords in
  match channelIds with
  | [] => []
  | _ :: _ =>
      let channelRecords :=
        filter (fun c => existsb (String.eqb (channel_id c)) channelIds)
               (channels d) in
      let result :=
        map (fun channel =>
               {| cwm_channel := channel;
                  cwm_members := getChannelMembers d (channel_id channel);
                  cwm_lastMessage :=
                    hd_error (getChannelMessages d (channel_id channel) 1) |})
            channelRecords in
      (* Sort by last message date *)
      sort_desc lastMessageTime result
  end.

Definition user_exists (d : Database) (id : UserId) : bool :=
  existsb (fun u => String.eqb (user_id u) id) (users d).

(** [db.insert(messages).values(messageData).returning()]: the row gets
    its id and timestamp from the database, which rejects a null
    [sender_id] and ids that reference no row ([notNull], [references]). *)
Definition insert_message (d : Database) (messageData : InsertMessage)
    : Result Message * Database :=
  match im_senderId messageData with
  | None => (Err (StorageError "null value in column sender_id"), d)
  | Some senderId =>
      if negb (existsb (fun c => String.eqb (channel_id c)
                                   (im_channelId messageData)) (channels d))
      then (Err (StorageError "foreign key violation: channel_id"), d)
      else if negb (user_exists d senderId)
      then (Err (StorageError "foreign key violation: sender_id"), d)
      else
        let message :=
          {| message_id := gen_random_uuid d;
             message_channelId := im_channelId messageData;
             message_senderId := senderId;
             message_content := im_content messageData;
             message_replyToId := im_replyToId messageData;
             message_isEdited := false;
             message_createdAt := now d |} in
        (Ok message,
         {| users := users d; channels := channels d;
            channelMembers := channelMembers d;
            messages := messages d ++ [message];
            reactions := reactions d;
            uuids := S (uuids d); now := now d |})
  end.

Definition createMessage (d : Database) (messageData : InsertMessage)
    : Result MessageWithSender * Database :=
  match insert_message d messageData with
  | (Err e, d1) => (Err e, d1)
  | (Ok message, d1) =>
      match getUser d1 (Some (message_senderId message)) with
      | None => (Err (StorageError "Sender not found"), d1)
      | Some sender =>
          (Ok {| mws_message := message;
                 mws_sender := sender;
                 mws_reactions := [] |}, d1)
      end
  end.

(** [db.insert(reactions).values(reactionData).returning()].  The bound
    of [varchar(10)] is checked on [String.length], which counts the bytes
    of the string; the two agree on ASCII emoji names. *)
Definition insert_reaction (d : Database) (reactionData : InsertReaction)
    : Result Reaction * Database :=
  match ir_userId reactionData, ir_emoji reactionData with
  | Some userId, Some emoji =>
      if negb (existsb (fun m => String.eqb (message_id m)
                                   (ir_messageId reactionData)) (messages d))
      then (Err (StorageError "foreign key violation: message_id"), d)
      else if negb (user_exists d userId)
      then (Err (StorageError "foreign key violation: user_id"), d)
      else if Nat.ltb 10 (String.length emoji)
      then (Err (StorageError "value too long for type character varying(10)"), d)
      else
        let reaction :=
          {| reaction_id := gen_random_uuid d;
             reaction_messageId := ir_messageId reactionData;
             reaction_userId := userId;
             reaction_emoji := emoji |} in
        (Ok reaction,
         {| users := users d; channels := channels d;
            channelMembers := channelMembers d;
            messages := messages d;
            reactions := reactions d ++ [reaction];
            uuids := S (uuids d); now := now d |})
  | _, _ => (Err (StorageError "null value in column of reactions"), d)
  end.

(** The [WHERE] clause shared by [addReaction] and [removeReaction]; a
    comparison with an absent value selects no row. *)
Definition same_reaction (messageId : MessageId) (userId emoji : option string)
    (r : Reaction) : bool :=
  String.eqb (reaction_messageId r) messageId
  && strict_eq (Some (reaction_userId r)) userId
  && strict_eq (Some (reaction_emoji r)) emoji.

Definition addReaction (d : Database) (reactionData : InsertReaction)
    : Result Reaction * Database :=
  (* Check if reaction already exists *)
  match find (same_reaction (ir_messageId reactionData)
                (ir_userId reactionData) (ir_emoji reactionData))
             (reactions d) with
  | Some existing => (Ok existing, d)
  | None => insert_reaction d reactionData
  end.

Definition removeReaction (d : Database) (messageId : MessageId)
    (userId emoji : option string) : Result bool * Database :=
  (Ok true,
   {| users := users d; channels := channels d;
      channelMembers := channelMembers d;
      messages := messages d;
      reactions :=
        filter (fun r => negb (same_reaction messageId userId emoji r))
               (reactions d);
      uuids := uuids d; now := now d |}).

Definition exec (r : Request) : Database -> Result (Reply r) * Database :=
  match r as r0 return Database -> Result (Reply r0) * Database with
  | call_getUser id => fun d => (Ok (getUser d id), d)
  | call_getUserChannels userId => fun d => (Ok (getUserChannels d userId), d)
  | call_isChannelMember channelId userId =>
      fun d => (Ok (isChannelMember d channelId userId), d)
  | call_createMessage message => fun d => createMessage d message
  | call_getMessage id => fun d => (Ok (getMessage d id), d)
  | call_addReaction reaction => fun d => addReaction d reaction
  | call_removeReaction messageId userId emoji =>
      fun d => removeReaction d messageId userId emoji
  end.


(** *** Channels and their members *)

Definition getChannel (d : Database) (id : ChannelId) : option Channel :=
  find (fun c => String.eqb (channel_id c) id) (channels d).

Definition getChannelWithMembers (d : Database) (id : ChannelId)
    : option ChannelWithMembers :=
  match getChannel d id with
  | None => None
  | Some channel =>
      Some {| cwm_channel := channel;
              cwm_members := getChannelMembers d id;
              cwm_lastMessage := hd_error (getChannelMessages d id 1) |}
  end.

(** [db.insert(channelMembers).values(member).returning()]: both ids must
    reference a row, [role] defaults to ["member"] and is a
    [varchar(20)]. *)
Definition addChannelMember (d : Database) (member : InsertChannelMember)
    : Result ChannelMember * Database :=
  let role := match icm_role member with Some r => r | None => "member" end in
  if negb (existsb (fun c => String.eqb (channel_id c) (icm_channelId member))
             (channels d))
  then (Err (StorageError "foreign key violation: channel_id"), d)
  else if negb (user_exists d (icm_userId member))
  then (Err (StorageError "foreign key violation: user_id"), d)
  else if Nat.ltb 20 (String.length role)
  then (Err (StorageError "value too long for type character varying(20)"), d)
  else
    let record :=
      {| member_id := gen_random_uuid d;
         member_channelId := icm_channelId member;
         member_userId := icm_userId member;
         member_role := role |} in
    (Ok record,
     {| users := users d; channels := channels d;
        channelMembers := channelMembers d ++ [record];
        messages := messages d;
        reactions := reactions d;
        uuids := S (uuids d); now := now d |}).

Definition removeChannelMember (d : Database) (channelId : ChannelId)
    (userId : UserId) : Result bool * Database :=
  (Ok true,
   {| users := users d; channels := channels d;
      channelMembers :=
        filter (fun m => negb (String.eqb (member_channelId m) channelId
                               && String.eqb (member_userId m) userId))
               (channelMembers d);
      messages := messages d;
      reactions := reactions d;
      uuids := uuids d; now := now d |}).

(** *** Messages with their sender *)

Definition getMessageWithSender (d : Database) (id : MessageId)
    : option MessageWithSender :=
  match getMessage d id with
  | None => None
  | Some message =>
      match getUser d (Some (message_senderId message)) with
      | None => None
      | Some sender =>
          Some {| mws_message := message;
                  mws_sender := sender;
                  mws_reactions := getMessageReactions d id |}
      end
  end.

(** *** Direct message helpers *)

(** The loop of [findDirectChannel] over the memberships of the first
    user: the first of them whose channel is a direct one with exactly two
    members, the second user among them. *)
Fixpoint findDirectChannel_from (d : Database) (userId2 : UserId)
    (user1Channels : list ChannelMember) : option Channel :=
  match user1Channels with
  | [] => None
  | membership :: rest =>
      match getChannel d (member_channelId membership) with
      | Some channel =>
          if negb (String.eqb (channel_type channel) "direct")
          then findDirectChannel_from d userId2 rest
          else
            let members := getChannelMembers d (member_channelId membership) in
            if Nat.eqb (length members) 2
               && existsb (fun m => String.eqb (member_userId (fst m)) userId2)
                    members
            then Some channel
            else findDirectChannel_from d userId2 rest
      | None => findDirectChannel_from d userId2 rest
      end
  end.

Definition findDirectChannel (d : Database) (userId1 userId2 : UserId)
    : option Channel :=
  findDirectChannel_from d userId2
    (filter (fun m => String.eqb (member_userId m) userId1) (channelMembers d)).

End Db.

#[export] Instance DatabaseStorage : IStorage Db.Database := Db.exec.

(* ================================================================== *)
(** * The vocabulary of the properties *)

(** *** Routing *)

(** [u]'s membership set, as the routing index has it, contains [c]. *)
Definition routes_to (h : Hub) (c : ChannelId) (u : UserId) : Prop :=
  exists s, JsMap.get u (userChannels h) = Some s /\ JsSet.has c s = true.

(** *** What every step of a handler does

    [steps S Q t]: each synchronous operation of [t] takes a hub [h] to a
    hub [h'] with effects [o] such that [S h h' o], and each storage call
    [r] that [t] awaits satisfies [Q r], whatever the storage layer
    answers. *)

Section StepsDef.
Variable S : Hub -> Hub -> list Effect -> Prop.
Variable Q : Request -> Prop.

Inductive steps {A} : Task A -> Prop :=
  | steps_Ret a : steps (Ret a)
  | steps_Throw e : steps (Throw e)
  | steps_Sync B (f : Hub -> B * Hub * list Effect) k :
      (forall h, S h (snd (fst (f h))) (snd (f h))) ->
      (forall b, steps (k b)) ->
      steps (Sync f k)
  | steps_Await r k :
      Q r ->
      (forall x, steps (k x)) ->
      steps (Await r k).

End StepsDef.

(** *** Invariants of the hub under interleaved handlers

    A task [keeps P] when each of its synchronous operations maps a hub
    that satisfies [P] to one that does.  The hub then satisfies [P] each
    time the event loop regains control, however the suspended handlers
    interleave. *)

Abbreviation keeps P :=
  (steps (fun h h' (_ : list Effect) => P h -> P h') (fun _ => True)).

(** *** Every map of the hub holds one entry per key *)

Definition well_formed (h : Hub) : Prop :=
  NoDup (JsMap.keys (clients h))
  /\ NoDup (JsMap.keys (userChannels h))
  /\ NoDup (JsMap.keys (wsUserMap h))
  /\ NoDup (JsMap.keys (connections h)).

(** *** Teardown and binding *)

(** The hub once the ["close"] handler has torn down [u] for socket [ws]. *)
Definition torn_down (h : Hub) (ws : WebSocket) (u : UserId) : Hub :=
  with_wsUserMap
    (with_userChannels
       (with_clients h (JsMap.delete u (clients h)))
       (JsMap.delete u (userChannels h)))
    (JsMap.delete ws (wsUserMap h)).

(** How many [user_offline] frames a run has sent. *)
Definition count_user_offline (o : list Effect) : nat :=
  length (filter (fun e => match e with
                           | Send _ (user_offline _) => true
                           | _ => false
                           end) o).

(** The hub after [clients.set(U, ws); wsUserMap.set(ws, U)], and after
    [userChannels.set(U, channelIds)]. *)
Definition registered (h : Hub) (ws : WebSocket) (U : UserId) : Hub :=
  with_wsUserMap (with_clients h (JsMap.set U ws (clients h)))
    (JsMap.set ws U (wsUserMap h)).

Definition listed (h : Hub) (U : UserId) (channels : list ChannelWithMembers)
    : Hub :=
  with_userChannels h
    (JsMap.set U
       (JsSet.of_list (map (fun c => channel_id (cwm_channel c)) channels))
       (userChannels h)).

(** What a connection that has just bound sends: the snapshot of the
    registry keys to itself, [user_online] to the others. *)
Definition announce (h : Hub) (ws : WebSocket) (U : UserId) : list Effect :=
  (if client_open h ws
   then [Send ws (online_users (JsMap.keys (clients h)))] else [])
  ++ broadcastToAll h (user_online (Some U)) (Some U).

(** *** Failures *)

(** A step that closes no socket: every [readyState] stays and no [Close]
    goes out. *)
Definition closes_nothing (h h' : Hub) (o : list Effect) : Prop :=
  (forall ws, readyState (connection h' ws) = readyState (connection h ws))
  /\ (forall ws code reason, ~ In (Close ws code reason) o).

Abbreviation quiet := (steps closes_nothing (fun _ => True)).

(** A task in which nothing can fail once a socket has been closed: its
    steps close nothing, except for a last operation after which the task
    returns. *)
Inductive contained {A} : Task A -> Prop :=
  | contained_Ret a : contained (Ret a)
  | contained_Throw e : contained (Throw e)
  | contained_Sync B (f : Hub -> B * Hub * list Effect) k :
      (forall h, closes_nothing h (snd (fst (f h))) (snd (f h))) ->
      (forall b, contained (k b)) ->
      contained (Sync f k)
  | contained_Await r k :
      (forall x, contained (k x)) ->
      contained (Await r k)
  | contained_last B (f : Hub -> B * Hub * list Effect) k :
      (forall b, exists a, k b = Ret a) ->
      contained (Sync f k).

(** [message.type] is one of the tags of the [switch]. *)
Definition recognized (type : option string) : bool :=
  type_is type "auth" || type_is type "typing_start"
  || type_is type "typing_stop" || type_is type "send_message"
  || type_is type "add_reaction" || type_is type "remove_reaction".

(** *** Membership checks *)

(** An effect other than a call of [storage.isChannelMember]. *)
Definition not_membership_check (e : Effect) : Prop :=
  match e with
  | Call (isChannelMember _ _) => False
  | _ => True
  end.

(** A task that never calls [storage.isChannelMember]. *)
Abbreviation unchecked :=
  (steps (fun (_ _ : Hub) o => Forall not_membership_check o)
         (fun r => not_membership_check (Call r))).

(** *** Worlds *)

Section WithStorageVocabulary.
Context {DB : Type} `{IStorage DB}.

(** The invariant of the event loop: the hub satisfies [P] and so will
    every suspended handler leave it. *)
Definition system_keeps (P : Hub -> Prop) (s : System DB) : Prop :=
  P (hub (world s)) /\ Forall (keeps P) (pending s).

(** A frame sent by a connection whose [userId] is [U]. *)
Definition bound_to (w : World DB) (ws : WebSocket) (U : UserId) : Prop :=
  userId (connection (hub w) ws) = Some U /\ U <> "".

(** The server accepts an ["auth"] frame that claims [U]: the session of
    the socket says [U], or there is no session and the user store knows
    [U]. *)
Definition accepts (w : World DB) (ws : WebSocket) (U : UserId) : Prop :=
  U <> "" /\
  if truthy (authenticatedUserId (connection (hub w) ws))
  then authenticatedUserId (connection (hub w) ws) = Some U
  else exists user d', storage (getUser (Some U)) (db w) = (Ok (Some user), d').

(** The database once the claimed identity has been verified, and the
    storage call that took. *)
Definition verified_db (w : World DB) (ws : WebSocket) (U : UserId) : DB :=
  if truthy (authenticatedUserId (connection (hub w) ws)) then db w
  else snd (storage (getUser (Some U)) (db w)).

Definition verification (w : World DB) (ws : WebSocket) (U : UserId)
    : list Effect :=
  if truthy (authenticatedUserId (connection (hub w) ws)) then []
  else [Call (getUser (Some U))].

End WithStorageVocabulary.

(* ================================================================== *)
(** ** A small deployment: three users, one channel *)

Module Example.

Definition user (id firstName : string) : User :=
  {| user_id := id; user_username := Some id;
     user_firstName := Some firstName; user_lastName := None;
     user_profile := [] |}.

Definition membership (id channelId userId role : string) : ChannelMember :=
  {| member_id := id; member_channelId := channelId;
     member_userId := userId; member_role := role |}.

(** alice and bob are members of "general"; mallory is a user of the
    application but not a member. *)
Definition db0 : Db.Database :=
  {| Db.users := [user "alice" "Alice"; user "bob" "Bob"; user "mallory" "Mal"];
     Db.channels :=
       [{| channel_id := "general"; channel_name := "General";
           channel_type := "group" |}];
     Db.channelMembers :=
       [membership "cm-1" "general" "alice" "owner";
        membership "cm-2" "general" "bob" "member"];
     Db.messages := [];
     Db.reactions := [];
     Db.uuids := 0;
     Db.now := 1000 |}.

Definition no_payload : Payload :=
  {| p_userId := None; p_channelId := None; p_content := None;
     p_replyToId := None; p_messageId := None; p_emoji := None |}.

(** [{ type: "auth", payload: { userId } }]. *)
Definition auth (userId : string) : RawData :=
  Json (Some "auth")
    (Some {| p_userId := Some userId; p_channelId := None; p_content := None;
             p_replyToId := None; p_messageId := None; p_emoji := None |}).

Definition in_channel (channelId : string) : Payload :=
  {| p_userId := None; p_channelId := Some channelId; p_content := None;
     p_replyToId := None; p_messageId := None; p_emoji := None |}.

Definition say (channelId content : string) : Payload :=
  {| p_userId := None; p_channelId := Some channelId;
     p_content := Some content; p_replyToId := None;
     p_messageId := None; p_emoji := None |}.

Definition react (messageId emoji : string) : Payload :=
  {| p_userId := None; p_channelId := None; p_content := None;
     p_replyToId := None; p_messageId := Some messageId;
     p_emoji := Some emoji |}.

(** The record [createMessage] returns for alice's "hi" in "general", the
    first row the database inserts. *)
Definition hi : MessageWithSender :=
  {| mws_message :=
       {| message_id := "uuid-0"; message_channelId := "general";
          message_senderId := "alice"; message_content := Some "hi";
          message_replyToId := None; message_isEdited := false;
          message_createdAt := 1000 |};
     mws_sender := user "alice" "Alice";
     mws_reactions := [] |}.

(** A socket with a session connects and authenticates; its handler
    suspends once, on [getUserChannels]. *)
Definition login (ws : WebSocket) (u : string) : list (Event Db.Database) :=
  [OnConnection ws (Some u); OnMessage ws (auth u); Settle 0].

(** alice on socket 1, bob on socket 2, mallory on socket 3. *)
Definition everyone_online : System Db.Database :=
  exec (initial db0) (login 1 "alice" ++ login 2 "bob" ++ login 3 "mallory").

(** alice on socket 1 and bob on socket 2. *)
Definition two_online : System Db.Database :=
  exec (initial db0) (login 1 "alice" ++ login 2 "bob").

(** alice on socket 1 and bob on socket 2; then alice's browser opens
    socket 4 and authenticates again while socket 1 is still up. *)
Definition alice_twice : System Db.Database :=
  exec (initial db0) (login 1 "alice" ++ login 2 "bob" ++ login 4 "alice").

End Example.

(* ================================================================== *)
(** * The HTTP side of [server/routes.ts]

    The route handlers that share the hub and the storage layer with the
    socket handlers.  A handler is given what [isAuthenticated] and the
    router leave in [req]: the session's user id ([req.user.claims.sub]),
    the path parameters (strings) and the fields of the JSON body (absent
    or a string).  Every path of a handler ends with one call of
    [res.json], so the response is the value the handler's task returns. *)

(** [res.status(code).json(body)]. *)
Inductive Body :=
  | json_error (message : string)             (* { message } *)
  | json_success                              (* { success: true } *)
  | json_message (m : MessageWithSender)
  | json_reaction (r : Reaction)
  | json_friendship (f : Friendship).

Record Response := { res_status : nat; res_body : Body }.

Definition res_json (body : Body) : Response :=
  {| res_status := 200; res_body := body |}.

Definition res_error (code : nat) (message : string) : Response :=
  {| res_status := code; res_body := json_error message |}.

Module Http.

(** [app.post("/api/channels/:channelId/messages", ...)]. *)
Definition post_channel_messages (userId : UserId) (channelId : ChannelId)
    (content replyToId : option string) : Task Response :=
  try_catch
    ((* Check if user is a member *)
     isMember <- await (isChannelMember channelId userId) ;;
     if negb isMember then
       Ret (res_error 403 "Not a member of this channel")
     else
       message <- await (createMessage
                          {| im_channelId := channelId;
                             im_senderId := Some userId;
                             im_content := content;
                             im_replyToId := replyToId |}) ;;
       (* Broadcast to channel members via WebSocket *)
       do_broadcastToChannel (Some channelId) (new_message message) None ;;
       Ret (res_json (json_message message)))
    (fun error =>
       console_error "Error creating message:" error ;;
       Ret (res_error 500 "Failed to create message")).

(** [app.post("/api/messages/:messageId/reactions", ...)]. *)
Definition post_message_reactions (userId : UserId) (messageId : MessageId)
    (emoji : option string) : Task Response :=
  try_catch
    (message <- await (getMessage messageId) ;;
     match message with
     | None => Ret (res_error 404 "Message not found")
     | Some message =>
         (* Check if user is a member of the channel *)
         isMember <- await (isChannelMember (message_channelId message)
                              userId) ;;
         if negb isMember then
           Ret (res_error 403 "Not a member of this channel")
         else
           reaction <- await (addReaction
                               {| ir_messageId := messageId;
                                  ir_userId := Some userId;
                                  ir_emoji := emoji |}) ;;
           (* Broadcast to channel members *)
           do_broadcastToChannel (Some (message_channelId message))
             (message_reaction (Some messageId) emoji (Some userId) "add")
             None ;;
           Ret (res_json (json_reaction reaction))
     end)
    (fun error =>
       console_error "Error adding reaction:" error ;;
       Ret (res_error 500 "Failed to add reaction")).

(** [app.delete("/api/messages/:messageId/reactions/:emoji", ...)]. *)
Definition delete_message_reaction (userId : UserId) (messageId : MessageId)
    (emoji : string) : Task Response :=
  try_catch
    (message <- await (getMessage messageId) ;;
     match message with
     | None => Ret (res_error 404 "Message not found")
     | Some message =>
         _ <- await (removeReaction messageId (Some userId) (Some emoji)) ;;
         (* Broadcast to channel members *)
         do_broadcastToChannel (Some (message_channelId message))
           (message_reaction (Some messageId) (Some emoji) (Some userId)
              "remove")
           None ;;
         Ret (res_json json_success)
     end)
    (fun error =>
       console_error "Error removing reaction:" error ;;
       Ret (res_error 500 "Failed to remove reaction")).

(** The three routes above. *)
Inductive Route :=
  | PostChannelMessages (userId : UserId) (channelId : ChannelId)
      (content replyToId : option string)
  | PostMessageReactions (userId : UserId) (messageId : MessageId)
      (emoji : option string)
  | DeleteMessageReaction (userId : UserId) (messageId : MessageId)
      (emoji : string).

Definition handler (r : Route) : Task Response :=
  match r with
  | PostChannelMessages userId channelId content replyToId =>
      post_channel_messages userId channelId content replyToId
  | PostMessageReactions userId messageId emoji =>
      post_message_reactions userId messageId emoji
  | DeleteMessageReaction userId messageId emoji =>
      delete_message_reaction userId messageId emoji
  end.

(** [app.post("/api/channels", ...)], "Update user channels map for
    WebSocket": the creator first, then each of [memberIds]. *)
Definition update_userChannels (h : Hub) (userId : UserId)
    (memberIds : list UserId) (channelId : ChannelId) : Hub :=
  fold_left (fun h memberId => userChannels_add h memberId channelId)
    memberIds (userChannels_add h userId channelId).

End Http.

(* ================================================================== *)
(** ** Friendships ([server/storage.ts], "Friendship operations", and the
    route that sends a friend request)

    The [friendships] table beside the tables of [Db.Database]; ids and
    timestamps come from the same database. *)

Module Friends.

Record Database := {
  tables : Db.Database;
  friendships : list Friendship
}.

(** The [WHERE] clause of [getFriendship]: the pair in either direction. *)
Definition between (userId1 userId2 : option UserId) (f : Friendship) : bool :=
  (strict_eq (Some (friendship_requesterId f)) userId1
   && strict_eq (Some (friendship_addresseeId f)) userId2)
  || (strict_eq (Some (friendship_requesterId f)) userId2
      && strict_eq (Some (friendship_addresseeId f)) userId1).

Definition getFriendship (d : Database) (userId1 userId2 : option UserId)
    : option Friendship :=
  find (between userId1 userId2) (friendships d).

Definition getUserFriends (d : Database) (userId : UserId)
    : list (Friendship * User) :=
  flat_map
    (fun record =>
       let friendId :=
         if String.eqb (friendship_requesterId record) userId
         then friendship_addresseeId record
         else friendship_requesterId record in
       match Db.getUser (tables d) (Some friendId) with
       | Some friend => [(record, friend)]
       | None => []
       end)
    (filter (fun f => (String.eqb (friendship_requesterId f) userId
                       || String.eqb (friendship_addresseeId f) userId)
                      && String.eqb (friendship_status f) "accepted")
            (friendships d)).

Definition getPendingFriendRequests (d : Database) (userId : UserId)
    : list (Friendship * User) :=
  flat_map
    (fun request =>
       match Db.getUser (tables d) (Some (friendship_requesterId request)) with
       | Some requester => [(request, requester)]
       | None => []
       end)
    (filter (fun f => String.eqb (friendship_addresseeId f) userId
                      && String.eqb (friendship_status f) "pending")
            (friendships d)).

(** The database after [gen_random_uuid()] has handed out one more id. *)
Definition next_uuid (d : Db.Database) : Db.Database :=
  {| Db.users := Db.users d; Db.channels := Db.channels d;
     Db.channelMembers := Db.channelMembers d;
     Db.messages := Db.messages d;
     Db.reactions := Db.reactions d;
     Db.uuids := S (Db.uuids d); Db.now := Db.now d |}.

(** [db.insert(friendships).values(friendshipData).returning()]: both ids
    are [notNull] and reference a user, [status] defaults to ["pending"]
    and is a [varchar(20)]. *)
Definition createFriendship (d : Database) (friendshipData : InsertFriendship)
    : Result Friendship * Database :=
  let status :=
    match if_status friendshipData with Some s => s | None => "pending" end in
  match if_addresseeId friendshipData with
  | None => (Err (StorageError "null value in column addressee_id"), d)
  | Some addresseeId =>
      if negb (Db.user_exists (tables d) (if_requesterId friendshipData))
      then (Err (StorageError "foreign key violation: requester_id"), d)
      else if negb (Db.user_exists (tables d) addresseeId)
      then (Err (StorageError "foreign key violation: addressee_id"), d)
      else if Nat.ltb 20 (String.length status)
      then (Err (StorageError
                   "value too long for type character varying(20)"), d)
      else
        let friendship :=
          {| friendship_id := Db.gen_random_uuid (tables d);
             friendship_requesterId := if_requesterId friendshipData;
             friendship_addresseeId := addresseeId;
             friendship_status := status;
             friendship_createdAt := Db.now (tables d);
             friendship_updatedAt := Db.now (tables d) |} in
        (Ok friendship,
         {| tables := next_uuid (tables d);
            friendships := friendships d ++ [friendship] |})
  end.

(** [.set({ status, updatedAt: new Date() })] on one row. *)
Definition with_status (d : Database) (status : string) (f : Friendship)
    : Friendship :=
  {| friendship_id := friendship_id f;
     friendship_requesterId := friendship_requesterId f;
     friendship_addresseeId := friendship_addresseeId f;
     friendship_status := status;
     friendship_createdAt := friendship_createdAt f;
     friendship_updatedAt := Db.now (tables d) |}.

(** [db.update(friendships).set(...).where(eq(friendships.id, id))
    .returning()]; [status] is a [varchar(20)].  The first of the updated
    rows is returned. *)
Definition updateFriendshipStatus (d : Database) (id status : string)
    : Result (option Friendship) * Database :=
  let hit f := String.eqb (friendship_id f) id in
  if Nat.ltb 20 (String.length status)
  then (Err (StorageError "value too long for type character varying(20)"), d)
  else
    (Ok (hd_error (map (with_status d status) (filter hit (friendships d)))),
     {| tables := tables d;
        friendships :=
          map (fun f => if hit f then with_status d status f else f)
              (friendships d) |}).

Definition deleteFriendship (d : Database) (id : string)
    : Result bool * Database :=
  (Ok true,
   {| tables := tables d;
      friendships :=
        filter (fun f => negb (String.eqb (friendship_id f) id))
               (friendships d) |}).

(** [app.post("/api/friends", ...)], run with no other request in
    between: the response, the database it leaves and what it logs. *)
Definition post_friends (d : Database) (userId : UserId)
    (addresseeId : option UserId) : Response * Database * list Effect :=
  if strict_eq (Some userId) addresseeId then
    (res_error 400 "Cannot send friend request to yourself", d, [])
  else
    (* Check if friendship already exists *)
    match getFriendship d (Some userId) addresseeId with
    | Some existing => (res_error 400 "Friend request already exists", d, [])
    | None =>
        match createFriendship d
                {| if_requesterId := userId;
                   if_addresseeId := addresseeId;
                   if_status := Some "pending" |} with
        | (Ok friendship, d') => (res_json (json_friendship friendship), d', [])
        | (Err error, d') =>
            (res_error 500 "Failed to create friend request", d',
             [LogError "Error creating friend request:" error])
        end
    end.

(** [app.patch("/api/friends/:id", ...)] for a body whose [status] is a
    string. *)
Definition patch_friends (d : Database) (id status : string)
    : Response * Database * list Effect :=
  match updateFriendshipStatus d id status with
  | (Ok None, d') => (res_error 404 "Friend request not found", d', [])
  | (Ok (Some friendship), d') =>
      (res_json (json_friendship friendship), d', [])
  | (Err error, d') =>
      (res_error 500 "Failed to update friend request", d',
       [LogError "Error updating friend request:" error])
  end.

End Friends.

(* ================================================================== *)
(** ** Vocabulary of the further properties *)

(** The frames among the effects of a run. *)
Definition deliveries (o : list Effect) : list Effect :=
  filter (fun e => match e with Send _ _ => true | _ => false end) o.

(** The effects of a run but for what it logs. *)
Definition unlogged (o : list Effect) : list Effect :=
  filter (fun e => match e with LogError _ _ => false | _ => true end) o.

(** No two rows of the [friendships] table join the same two users, in
    either direction, and no row joins a user with themselves. *)
Fixpoint exclusive (l : list Friendship) : Prop :=
  match l with
  | [] => True
  | f :: l' =>
      friendship_requesterId f <> friendship_addresseeId f
      /\ (forall g, In g l' ->
            Friends.between (Some (friendship_requesterId f))
              (Some (friendship_addresseeId f)) g = false)
      /\ exclusive l'
  end.

(** A storage layer that is down: every promise is rejected. *)
Definition unavailable : IStorage unit :=
  fun _ d => (Err (StorageError "Connection terminated unexpectedly"), d).

(** [l] lists its elements with the largest [key] first, and with the
    smallest [key] first. *)
Definition descending {A} (key : A -> nat) (l : list A) : Prop :=
  StronglySorted (fun a b => key b <= key a) l.

Definition ascending {A} (key : A -> nat) (l : list A) : Prop :=
  StronglySorted (fun a b => key a <= key b) l.

(** What [addReaction] compares to tell whether a reaction exists. *)
Definition reaction_key (r : Reaction) : MessageId * UserId * string :=
  (reaction_messageId r, reaction_userId r, reaction_emoji r).

(** [MessageWithSender] as [getChannelMessages] builds it for a row. *)
Definition with_sender (d : Db.Database) (message : Message) (sender : User)
    : MessageWithSender :=
  {| mws_message := message;
     mws_sender := sender;
     mws_reactions := Db.getMessageReactions d (message_id message) |}.

(* ================================================================== *)
(** ** The example deployment with a direct channel and friendships *)

Module Circle.

(** The example database where alice and bob also have a direct channel. *)
Definition db1 : Db.Database :=
  {| Db.users := Db.users Example.db0;
     Db.channels :=
       Db.channels Example.db0
       ++ [{| channel_id := "dm-1"; channel_name := "Direct Message";
              channel_type := "direct" |}];
     Db.channelMembers :=
       Db.channelMembers Example.db0
       ++ [Example.membership "cm-3" "dm-1" "alice" "owner";
           Example.membership "cm-4" "dm-1" "bob" "member"];
     Db.messages := [];
     Db.reactions := [];
     Db.uuids := 0;
     Db.now := 1000 |}.

(** Nobody has sent a friend request yet. *)
Definition strangers : Friends.Database :=
  {| Friends.tables := Example.db0; Friends.friendships := [] |}.

(** alice has sent bob a friend request: the first row of the table. *)
Definition requested : Friends.Database :=
  snd (fst (Friends.post_friends strangers "alice" (Some "bob"))).

Definition request : Friendship :=
  {| friendship_id := "uuid-0";
     friendship_requesterId := "alice";
     friendship_addresseeId := "bob";
     friendship_status := "pending";
     friendship_createdAt := 1000;
     friendship_updatedAt := 1000 |}.

(** bob has accepted. *)
Definition befriended : Friends.Database :=
  snd (fst (Friends.patch_friends requested "uuid-0" "accepted")).

End Circle.

(* ================================================================== *)
(** * Properties *)

(* ================================================================== *)
(** ** Facts about [Map] *)

Lemma keqb_refl {K} `{Key K} (k : K) : keqb k k = true.
Proof. destruct (keqb_spec k k); congruence. Qed.

Lemma keqb_neq {K} `{Key K} (k k' : K) : k <> k' -> keqb k k' = false.
Proof. intros Hn. destruct (keqb_spec k k'); congruence. Qed.

Module JsMapFacts.
Import JsMap.
Section Facts.
Context {K V : Type} `{Key K}.
Implicit Types (k x : K) (v : V) (m : JsMap.t K V).

Lemma get_set_same k v m : get k (set k v m) = Some v.
Proof.
  induction m as [|[k' v'] m IH]; simpl.
  - now rewrite keqb_refl.
  - destruct (keqb k k') eqn:E; simpl.
    + now rewrite keqb_refl.
    + now rewrite E.
Qed.

Lemma get_set_other k k' v m : k <> k' -> get k' (set k v m) = get k' m.
Proof.
  intros Hn. induction m as [|[k0 v0] m IH]; simpl.
  - rewrite keqb_neq; auto.
  - destruct (keqb_spec k k0) as [->|Hk0]; simpl.
    + rewrite keqb_neq; auto.
    + destruct (keqb k' k0); auto.
Qed.

Lemma get_delete_same k m : get k (delete k m) = None.
Proof.
  induction m as [|[k' v'] m IH]; simpl; auto.
  destruct (keqb k k') eqn:E; simpl; auto.
  now rewrite E.
Qed.

Lemma get_delete_other k k' m : k <> k' -> get k' (delete k m) = get k' m.
Proof.
  intros Hn. induction m as [|[k0 v0] m IH]; simpl; auto.
  destruct (keqb_spec k k0) as [->|Hk0]; simpl.
  - rewrite keqb_neq; auto.
  - destruct (keqb k' k0); auto.
Qed.

Lemma delete_idem k m : delete k (delete k m) = delete k m.
Proof.
  unfold delete. induction m as [|[k' v'] m IH]; simpl; auto.
  destruct (keqb k k') eqn:E; simpl; auto.
  rewrite E. simpl. now rewrite IH.
Qed.

Lemma delete_absent k m : get k m = None -> delete k m = m.
Proof.
  induction m as [|[k' v'] m IH]; simpl; auto.
  destruct (keqb k k') eqn:E; simpl; [discriminate|].
  intros Hg. now rewrite IH.
Qed.

Lemma in_keys_get k m : In k (keys m) <-> get k m <> None.
Proof.
  induction m as [|[k' v'] m IH]; simpl.
  - split; [tauto | congruence].
  - destruct (keqb_spec k k') as [->|Hn].
    + split; [congruence | auto].
    + rewrite <- IH. split; [intros [E|E]; [congruence | auto] | auto].
Qed.

Lemma get_in k v m : get k m = Some v -> In (k, v) m.
Proof.
  induction m as [|[k' v'] m IH]; simpl; [discriminate|].
  destruct (keqb_spec k k') as [->|Hn].
  - intros [= ->]. now left.
  - intros Hg. right. auto.
Qed.

Lemma in_get k v m : NoDup (keys m) -> In (k, v) m -> get k m = Some v.
Proof.
  induction m as [|[k' v'] m IH]; simpl; [tauto|].
  intros Hnd Hin. inversion Hnd as [|? ? Hnotin Hnd']; subst.
  destruct Hin as [[= -> ->]|Hin].
  - now rewrite keqb_refl.
  - destruct (keqb_spec k k') as [->|Hn]; auto.
    exfalso. apply Hnotin. unfold keys. now apply (in_map fst) in Hin.
Qed.

Lemma keys_set_in k v m : forall x, In x (keys (set k v m)) <-> x = k \/ In x (keys m).
Proof.
  induction m as [|[k' v'] m IH]; simpl; intros x.
  - split; [intros [E|[]]; auto | intros [E|[]]; auto].
  - destruct (keqb_spec k k') as [->|Hn]; simpl.
    + split; [intros [E|E]; auto | intros [E|[E|E]]; auto].
    + rewrite IH. split; [intros [E|[E|E]]; auto | intros [E|[E|E]]; auto].
Qed.

Lemma NoDup_set k v m : NoDup (keys m) -> NoDup (keys (set k v m)).
Proof.
  induction m as [|[k' v'] m IH]; simpl; intros Hnd.
  - constructor; [intros [] | constructor].
  - inversion Hnd as [|? ? Hnotin Hnd']; subst.
    destruct (keqb_spec k k') as [->|Hn]; simpl.
    + now constructor.
    + constructor; auto.
      rewrite keys_set_in. intros [E|E]; [congruence | auto].
Qed.

Lemma keys_delete_in k m : forall x, In x (keys (delete k m)) <-> x <> k /\ In x (keys m).
Proof.
  unfold delete. induction m as [|[k' v'] m IH]; simpl; intros x.
  - tauto.
  - destruct (keqb_spec k k') as [->|Hn]; simpl; rewrite IH.
    + split; [tauto | intros [Hx [E|E]]; [congruence | auto]].
    + split; [intros [E|[E1 E2]]; [subst; split; auto | auto] | tauto].
Qed.

Lemma NoDup_delete k m : NoDup (keys m) -> NoDup (keys (delete k m)).
Proof.
  induction m as [|[k' v'] m IH]; simpl; intros Hnd; [constructor|].
  inversion Hnd as [|? ? Hnotin Hnd']; subst.
  destruct (keqb k k'); simpl; auto.
  constructor; auto.
  intros Hin. apply keys_delete_in in Hin. tauto.
Qed.

Lemma count_notin k m : ~ In k (keys m) -> count k m = 0.
Proof.
  unfold count. induction m as [|[k' v'] m IH]; simpl; auto.
  intros Hn. destruct (keqb_spec k k') as [->|Hk]; [tauto|]. auto.
Qed.

Lemma count_NoDup k m : NoDup (keys m) -> In k (keys m) -> count k m = 1.
Proof.
  unfold count. induction m as [|[k' v'] m IH]; simpl; [tauto|].
  intros Hnd Hin. inversion Hnd as [|? ? Hnotin Hnd']; subst.
  destruct (keqb_spec k k') as [->|Hk]; simpl.
  - f_equal. now apply count_notin.
  - destruct Hin as [E|Hin]; [congruence | auto].
Qed.

End Facts.
End JsMapFacts.

(** ** Truthiness *)

Lemma truthy_Some s : s <> "" -> truthy (Some s) = true.
Proof. intros Hs. unfold truthy. destruct (String.eqb_spec s ""); simpl; congruence. Qed.

(** ** The hub's accessors *)

Arguments connection : simpl never.

Lemma connection_with_clients h m ws :
  connection (with_clients h m) ws = connection h ws.
Proof. reflexivity. Qed.

Lemma connection_with_userChannels h m ws :
  connection (with_userChannels h m) ws = connection h ws.
Proof. reflexivity. Qed.

Lemma connection_with_wsUserMap h m ws :
  connection (with_wsUserMap h m) ws = connection h ws.
Proof. reflexivity. Qed.

Lemma connection_with_connection_same h ws c :
  connection (with_connection h ws c) ws = c.
Proof.
  unfold connection, with_connection. simpl.
  now rewrite JsMapFacts.get_set_same.
Qed.

Lemma connection_with_connection_other h ws ws' c :
  ws <> ws' -> connection (with_connection h ws c) ws' = connection h ws'.
Proof.
  intros Hn. unfold connection, with_connection. simpl.
  now rewrite JsMapFacts.get_set_other.
Qed.

Create Rewrite HintDb hub.
#[export] Hint Rewrite connection_with_clients connection_with_userChannels
  connection_with_wsUserMap connection_with_connection_same : hub.

(** Replacing a connection's record by one with the same [readyState]
    leaves every socket's [readyState] as it was. *)
Lemma readyState_with_connection h ws c ws' :
  readyState c = readyState (connection h ws) ->
  readyState (connection (with_connection h ws c) ws')
  = readyState (connection h ws').
Proof.
  intros Hc. destruct (Nat.eq_dec ws ws') as [<-|Hn].
  - now rewrite connection_with_connection_same.
  - now rewrite connection_with_connection_other.
Qed.

(** ** Who receives a broadcast *)

Lemma in_broadcastToAll h message excludeUserId e :
  In e (broadcastToAll h message excludeUserId) <->
  exists u client,
    In (u, client) (JsMap.entries (clients h))
    /\ excluded u excludeUserId = false
    /\ client_open h client = true
    /\ e = Send client message.
Proof.
  unfold broadcastToAll. rewrite in_flat_map. split.
  - intros [[u client] [Hin He]].
    destruct (excluded u excludeUserId) eqn:Ex; [contradiction|].
    destruct (client_open h client) eqn:Eo; [|contradiction].
    destruct He as [<-|[]]. exists u, client. auto.
  - intros (u & client & Hin & Ex & Eo & ->).
    exists (u, client). split; auto.
    rewrite Ex, Eo. now left.
Qed.

Lemma in_deliver h message excludeUserId u e :
  In e (deliver h message excludeUserId u) <->
  exists client,
    excluded u excludeUserId = false
    /\ JsMap.get u (clients h) = Some client
    /\ client_open h client = true
    /\ e = Send client message.
Proof.
  unfold deliver. split.
  - destruct (excluded u excludeUserId); [contradiction|].
    destruct (JsMap.get u (clients h)) as [client|]; [|contradiction].
    destruct (client_open h client) eqn:Eo; [|contradiction].
    intros [<-|[]]. eauto.
  - intros (client & -> & -> & -> & ->). now left.
Qed.

Lemma in_channelUsers h c u :
  NoDup (JsMap.keys (userChannels h)) ->
  In u (channelUsers h (Some c)) <-> routes_to h c u.
Proof.
  intros Hnd. unfold channelUsers, routes_to, JsMap.entries.
  rewrite in_map_iff. split.
  - intros [[u' s] [Hu Hin]]. simpl in Hu. subst u'.
    apply filter_In in Hin. destruct Hin as [Hin Hhas]. simpl in Hhas.
    exists s. split; auto. now apply JsMapFacts.in_get.
  - intros (s & Hget & Hhas). exists (u, s). split; auto.
    apply filter_In. split; auto. now apply JsMapFacts.get_in.
Qed.

Lemma NoDup_channelUsers h c :
  NoDup (JsMap.keys (userChannels h)) -> NoDup (channelUsers h c).
Proof.
  unfold channelUsers, JsMap.entries, JsMap.keys.
  generalize (userChannels h). intros m.
  induction m as [|[u s] m IH]; simpl; intros Hnd; [constructor|].
  inversion Hnd as [|? ? Hnotin Hnd']; subst.
  destruct (match c with Some c0 => JsSet.has c0 s | None => false end); simpl; auto.
  constructor; auto.
  intros Hin. apply Hnotin. apply in_map_iff in Hin.
  destruct Hin as [[u' s'] [Hu Hin]]. simpl in Hu. subst u'.
  apply filter_In in Hin. destruct Hin as [Hin _].
  now apply (in_map fst) in Hin.
Qed.

Lemma in_broadcastToChannel h c message excludeUserId e :
  NoDup (JsMap.keys (userChannels h)) ->
  In e (broadcastToChannel h (Some c) message excludeUserId) <->
  exists u client,
    routes_to h c u
    /\ excluded u excludeUserId = false
    /\ JsMap.get u (clients h) = Some client
    /\ client_open h client = true
    /\ e = Send client message.
Proof.
  intros Hnd. unfold broadcastToChannel. rewrite in_flat_map. split.
  - intros [u [Hu He]]. apply in_deliver in He.
    destruct He as (client & Ex & Hget & Ho & ->).
    exists u, client. rewrite <- in_channelUsers; auto.
  - intros (u & client & Hr & Ex & Hget & Ho & ->).
    exists u. split; [now apply in_channelUsers|].
    apply in_deliver. eauto.
Qed.

(* ================================================================== *)
Section Steps.
Variable S : Hub -> Hub -> list Effect -> Prop.
Variable Q : Request -> Prop.

Lemma steps_bind {A B} (t : Task A) (g : A -> Task B) :
  steps S Q t -> (forall a, steps S Q (g a)) -> steps S Q (bind t g).
Proof.
  intros Ht Hg. induction Ht; simpl; auto; constructor; auto.
Qed.

Lemma steps_try_catch {A} (t : Task A) handler :
  steps S Q t -> (forall e, steps S Q (handler e)) -> steps S Q (try_catch t handler).
Proof.
  intros Ht Hh. induction Ht; simpl; auto; constructor; auto.
Qed.

Lemma steps_read {B} (f : Hub -> B) : (forall h, S h h []) -> steps S Q (read f).
Proof. intros Hs. constructor; [exact Hs | constructor]. Qed.

Lemma steps_emit f : (forall h, S h h (f h)) -> steps S Q (emit f).
Proof. intros Hs. constructor; [exact Hs | constructor]. Qed.

Lemma steps_modify f : (forall h, S h (f h) []) -> steps S Q (modify f).
Proof. intros Hs. constructor; [exact Hs | constructor]. Qed.

Lemma steps_await r : Q r -> steps S Q (await r).
Proof. intros Hq. constructor; auto. intros [b|e]; constructor. Qed.

Lemma steps_field payload f : steps S Q (field payload f).
Proof. destruct payload; constructor. Qed.

Lemma steps_skip : steps S Q skip.
Proof. constructor. Qed.
End Steps.

Create HintDb steps.
#[export] Hint Resolve steps_field steps_skip : steps.
#[export] Hint Constructors steps : steps.

(** One step of a proof that a handler's code satisfies [steps S Q]: go
    through the code, and leave the operations to the hints. *)
Ltac steps_step :=
  match goal with
  | |- steps _ _ (bind _ _) => apply steps_bind; [|intros]
  | |- steps _ _ (try_catch _ _) => apply steps_try_catch; [|intros]
  | |- steps _ _ (if ?b then _ else _) => destruct b
  | |- steps _ _ (match ?x with Some _ => _ | None => _ end) => destruct x
  | |- steps _ _ _ => solve [eauto with steps]
  end.

(* ================================================================== *)
(** ** Invariants of the hub under interleaved handlers *)

Lemma keeps_read P {B} (f : Hub -> B) : keeps P (read f).
Proof. apply steps_read. auto. Qed.

Lemma keeps_emit P f : keeps P (emit f).
Proof. apply steps_emit. auto. Qed.

Lemma keeps_await P r : keeps P (await r).
Proof. now apply steps_await. Qed.

Lemma advance_keeps P {A} (t : Task A) :
  keeps P t -> forall h, P h ->
  P (snd (fst (advance t h))) /\ keeps P (fst (fst (advance t h))).
Proof.
  induction 1 as [a|e|B f k Hf Hk IH|r k _ Hk]; intros h Hh; simpl;
    try (split; [assumption | constructor; auto]).
  specialize (Hf h Hh).
  destruct (f h) as [[b h1] o1]. simpl in Hf.
  specialize (IH b h1 Hf).
  destruct (advance (k b) h1) as [[t2 h2] o2]. exact IH.
Qed.

#[export] Hint Resolve keeps_read keeps_emit keeps_await : steps.

Lemma well_formed_empty : well_formed empty_hub.
Proof. repeat split; constructor. Qed.

Lemma well_formed_with_connection h ws c :
  well_formed h -> well_formed (with_connection h ws c).
Proof.
  intros (H1 & H2 & H3 & H4). repeat split; simpl; auto.
  now apply JsMapFacts.NoDup_set.
Qed.

(** *** Every map of the hub holds one entry per key *)

Ltac keeps_modify :=
  apply steps_modify; intros h (H1 & H2 & H3 & H4);
  repeat split; simpl; auto using JsMapFacts.NoDup_set, JsMapFacts.NoDup_delete.

Lemma keeps_set_userId ws v : keeps well_formed (set_userId ws v).
Proof. keeps_modify. Qed.

Lemma keeps_clients_set u ws : keeps well_formed (clients_set u ws).
Proof. keeps_modify. Qed.

Lemma keeps_clients_delete u : keeps well_formed (clients_delete u).
Proof. keeps_modify. Qed.

Lemma keeps_wsUserMap_set ws u : keeps well_formed (wsUserMap_set ws u).
Proof. keeps_modify. Qed.

Lemma keeps_wsUserMap_delete ws : keeps well_formed (wsUserMap_delete ws).
Proof. keeps_modify. Qed.

Lemma keeps_userChannels_set u s : keeps well_formed (userChannels_set u s).
Proof. destruct u; [keeps_modify | constructor]. Qed.

Lemma keeps_userChannels_delete u : keeps well_formed (userChannels_delete u).
Proof. keeps_modify. Qed.

Lemma keeps_ws_close ws code reason : keeps well_formed (ws_close ws code reason).
Proof.
  constructor; [|constructor].
  intros h Hh. cbv beta zeta.
  destruct (is_open (readyState (connection h ws))); simpl; auto.
  now apply well_formed_with_connection.
Qed.

#[export] Hint Resolve keeps_set_userId keeps_clients_set keeps_clients_delete
  keeps_wsUserMap_set keeps_wsUserMap_delete keeps_userChannels_set
  keeps_userChannels_delete keeps_ws_close : steps.

Lemma keeps_auth_bind ws : keeps well_formed (auth_bind ws).
Proof.
  unfold auth_bind, get_userId, clients_keys, ws_send, do_broadcastToAll.
  repeat steps_step.
Qed.

Lemma keeps_on_message ws data : keeps well_formed (on_message ws data).
Proof.
  pose proof (keeps_auth_bind ws) as Hbind.
  unfold on_message, handle_message, console_error.
  destruct data as [| |type payload]; simpl; eauto with steps.
  apply steps_try_catch; [|eauto with steps].
  unfold case_auth, case_typing_start, case_typing_stop, case_send_message,
    case_add_reaction, case_remove_reaction, get_userId,
    get_authenticatedUserId, console_warn, do_broadcastToChannel.
  repeat steps_step.
Qed.

Lemma keeps_on_close ws : keeps well_formed (on_close ws).
Proof.
  unfold on_close, do_broadcastToAll. repeat steps_step.
Qed.

Section Reachable.
Context {DB : Type} `{IStorage DB}.
Variable P : Hub -> Prop.

Lemma resume_keeps (t : Task unit) (w : World DB) :
  keeps P t -> P (hub w) ->
  P (hub (snd (fst (resume t w)))) /\ keeps P (fst (fst (resume t w))).
Proof.
  intros Ht Hw. destruct Ht as [a|e|B f k Hf Hk|r k Hq Hk]; simpl;
    try (split; [assumption | constructor; assumption]).
  destruct (storage r (db w)) as [reply db1].
  pose proof (@advance_keeps P _ _ (Hk reply) _ Hw) as Hadv.
  destruct (advance (k reply) (hub w)) as [[t2 h2] o2]. exact Hadv.
Qed.

Lemma run_keeps {A} (t : Task A) :
  keeps P t -> forall w : World DB, P (hub w) ->
  P (hub (snd (fst (run t w)))).
Proof.
  induction 1 as [a|e|B f k Hf Hk IH|r k Hq Hk IH]; intros w Hw; simpl; auto.
  - specialize (Hf (hub w) Hw). destruct (f (hub w)) as [[b h1] o1].
    simpl in Hf. specialize (IH b {| hub := h1; db := db w |} Hf).
    destruct (run (k b) {| hub := h1; db := db w |}) as [[x w2] o2].
    exact IH.
  - destruct (storage r (db w)) as [reply db1].
    specialize (IH reply {| hub := hub w; db := db1 |} Hw).
    destruct (run (k reply) {| hub := hub w; db := db1 |}) as [[x w2] o2].
    exact IH.
Qed.

Lemma Forall_enqueue t l :
  keeps P t -> Forall (keeps P) l -> Forall (keeps P) (enqueue t l).
Proof.
  intros Ht Hl. unfold enqueue. destruct (suspended t); auto.
  apply Forall_app. split; auto.
Qed.

Lemma Forall_replace_nth t l : forall i,
  keeps P t -> Forall (keeps P) l -> Forall (keeps P) (replace_nth i t l).
Proof.
  intros i Ht Hl. revert i.
  induction Hl as [|x l Hx Hl IH]; intros [|j]; simpl;
    try constructor; auto.
  destruct (suspended t); auto.
Qed.

Hypothesis P_connection : forall h ws c, P h -> P (with_connection h ws c).
Hypothesis P_channel : forall h u c, P h -> P (userChannels_add h u c).
Hypothesis P_on_message : forall ws data, keeps P (on_message ws data).
Hypothesis P_on_close : forall ws, keeps P (on_close ws).

Lemma step_keeps s e : system_keeps P s -> system_keeps P (step s e).
Proof.
  intros [Hw Hp].
  destruct e as [ws sessionUserId|ws data|i|ws|update|userId memberIds channelId];
    unfold step; cbv zeta.
  - destruct (JsMap.has ws (connections (hub (world s)))); [split; auto|].
    split; simpl; auto.
  - destruct (JsMap.has ws (connections (hub (world s)))); [|split; auto].
    pose proof (@advance_keeps P _ _ (P_on_message ws data) _ Hw) as Hadv.
    destruct (advance (on_message ws data) (hub (world s))) as [[t h] o].
    destruct Hadv as [Hh Ht]. split; simpl; auto.
    now apply Forall_enqueue.
  - destruct (nth_error (pending s) i) as [t|] eqn:Et; [|split; auto].
    assert (Ht : keeps P t).
    { rewrite Forall_forall in Hp. apply Hp. eapply nth_error_In; eauto. }
    pose proof (@resume_keeps t (world s) Ht Hw) as Hres.
    destruct (resume t (world s)) as [[t' w'] o].
    destruct Hres as [Hh Ht']. split; simpl; auto.
    now apply Forall_replace_nth.
  - match goal with |- system_keeps _ (if ?b then _ else _) => destruct b end;
      [|split; auto].
    assert (Hc : P (with_readyState (hub (world s)) ws CLOSED))
      by now apply P_connection.
    pose proof (@advance_keeps P _ _ (P_on_close ws) _ Hc) as Hadv.
    destruct (advance (on_close ws) (with_readyState (hub (world s)) ws CLOSED))
      as [[t h] o].
    destruct Hadv as [Hh Ht]. split; simpl; auto.
  - split; simpl; auto.
  - split; simpl; auto.
    assert (Hfold : forall l h, P h ->
              P (fold_left (fun h u => userChannels_add h u channelId) l h)).
    { induction l as [|u l IH]; simpl; auto. }
    apply Hfold. now apply P_channel.
Qed.

Lemma exec_keeps events : forall s,
  system_keeps P s -> system_keeps P (exec s events).
Proof.
  induction events as [|e events IH]; intros s Hs; simpl; auto.
  apply IH. now apply step_keeps.
Qed.
End Reachable.

(** Every state the event loop reaches from the empty hub is well formed,
    whatever the storage layer does and however handlers interleave. *)
Lemma reachable_well_formed {DB} `{IStorage DB} (d : DB)
    (events : list (Event DB)) :
  well_formed (hub (world (exec (initial d) events))).
Proof.
  apply (@exec_keeps DB _ well_formed).
  - intros; now apply well_formed_with_connection.
  - intros h u c (H1 & H2 & H3 & H4). unfold userChannels_add.
    destruct (JsMap.has u (userChannels h));
      destruct (JsMap.get u _); repeat split; simpl;
      auto using JsMapFacts.NoDup_set.
  - apply keeps_on_message.
  - apply keeps_on_close.
  - split; simpl; [apply well_formed_empty | constructor].
Qed.

(* ================================================================== *)
(** ** The ["close"] handler *)

Lemma advance_on_close h ws :
  advance (on_close ws) h =
  match closingUserId h ws with
  | Some u =>
      if truthy (Some u)
      then (Ret tt, torn_down h ws u,
            broadcastToAll (torn_down h ws u) (user_offline u) None)
      else (Ret tt, h, [])
  | None => (Ret tt, h, [])
  end.
Proof.
  unfold on_close. simpl.
  destruct (closingUserId h ws) as [u|]; [|reflexivity].
  destruct (truthy (Some u)); [|reflexivity].
  simpl. rewrite app_nil_r. reflexivity.
Qed.

Lemma closingUserId_mapped h ws U :
  JsMap.get ws (wsUserMap h) = Some U -> U <> "" -> closingUserId h ws = Some U.
Proof.
  intros Hm HU. unfold closingUserId. rewrite Hm. now rewrite truthy_Some.
Qed.

Lemma closingUserId_unmapped h ws :
  JsMap.get ws (wsUserMap h) = None ->
  closingUserId h ws = userId (connection h ws).
Proof. intros Hm. unfold closingUserId. now rewrite Hm. Qed.

Lemma torn_down_twice h ws u :
  torn_down (torn_down h ws u) ws u = torn_down h ws u.
Proof.
  unfold torn_down, with_wsUserMap, with_userChannels, with_clients. simpl.
  now rewrite !JsMapFacts.delete_idem.
Qed.

(** C3, as the code has it.  The ["close"] handler tears down the user id
    the socket is mapped to in [wsUserMap] when it closes, which is the id
    it bound to last.  For that id [U] it deletes the registry entry and
    the membership set stored under [U] and broadcasts [user_offline U]
    over the registry that remains ([broadcastToAll]: one frame to each
    remaining entry whose socket is open).  The teardown goes by the user
    id alone: the registry entry of [U] is gone afterwards whichever socket
    it pointed to, also a newer one that re-authenticated as [U].  The
    entries of every other user id stay as they are, also those of an id
    the socket was bound to before it authenticated again as [U]. *)
Theorem close_tears_down_by_userId h ws U :
  JsMap.get ws (wsUserMap h) = Some U -> U <> "" ->
  let h' := snd (fst (advance (on_close ws) h)) in
  advance (on_close ws) h
  = (Ret tt, h', broadcastToAll h' (user_offline U) None)
  /\ clients h' = JsMap.delete U (clients h)
  /\ userChannels h' = JsMap.delete U (userChannels h)
  /\ wsUserMap h' = JsMap.delete ws (wsUserMap h)
  /\ connections h' = connections h
  /\ (forall newer, JsMap.get U (clients h) = Some newer ->
                    JsMap.get U (clients h') = None)
  /\ JsMap.get U (userChannels h') = None
  /\ (forall e,
        In e (broadcastToAll h' (user_offline U) None) <->
        exists V client,
          In (V, client) (JsMap.entries (clients h'))
          /\ client_open h' client = true
          /\ e = Send client (user_offline U))
  /\ (forall V, V <> U ->
        JsMap.get V (clients h') = JsMap.get V (clients h)
        /\ JsMap.get V (userChannels h') = JsMap.get V (userChannels h)).
Proof.
  intros Hm HU h'. subst h'.
  rewrite advance_on_close, (closingUserId_mapped _ _ Hm HU), (truthy_Some HU).
  simpl. repeat split; auto using JsMapFacts.get_delete_same.
  - rewrite in_broadcastToAll. intros (V & client & Hin & _ & Ho & ->). eauto.
  - intros (V & client & Hin & Ho & ->). apply in_broadcastToAll.
    exists V, client. auto.
  - apply JsMapFacts.get_delete_other. auto.
  - apply JsMapFacts.get_delete_other. auto.
Qed.

(** Socket 1 was bound to alice and has been superseded by socket 4; when
    socket 1 closes, alice's registry entry (socket 4) is deleted and bob
    is told that alice went offline. *)
Lemma close_tears_down_by_userId_witness :
  let h := hub (world Example.alice_twice) in
  (JsMap.get 1 (wsUserMap h) = Some "alice" /\ "alice" <> "")
  /\ JsMap.get "alice" (clients h) = Some 4
  /\ JsMap.get "alice" (clients (snd (fst (advance (on_close 1) h)))) = None
  /\ snd (advance (on_close 1) h) = [Send 2 (user_offline "alice")].
Proof.
  assert (H1 : JsMap.get 1 (wsUserMap (hub (world Example.alice_twice)))
               = Some "alice") by reflexivity.
  assert (H2 : "alice" <> "") by discriminate.
  pose proof (close_tears_down_by_userId
                (hub (world Example.alice_twice)) 1 H1 H2) as Hc.
  cbv zeta in Hc.
  destruct Hc as (Hadv & _ & _ & _ & _ & Hnewer & _).
  split; [split; assumption|].
  split; [reflexivity|].
  split; [apply (Hnewer 4); reflexivity|].
  rewrite Hadv. reflexivity.
Defined.

(** C3 as stated fails for a socket that has bound twice.  Socket 1 has no
    session; while bob is online on socket 2 it authenticates as alice
    and then as mallory.  When it closes, its handler tears down mallory:
    the registry entry and the membership set of alice, to whom the socket
    was bound before, stay in place, and nobody is told that alice went
    offline. *)
Lemma close_tears_down_by_userId_counterexample :
  let bound_as_alice :=
    exec (initial Example.db0)
      (Example.login 2 "bob"
       ++ [OnConnection 1 None; OnMessage 1 (Example.auth "alice");
           Settle 0; Settle 0]) in
  let rebound :=
    exec bound_as_alice
      [OnMessage 1 (Example.auth "mallory"); Settle 0; Settle 0] in
  let closed := step rebound (OnClose 1) in
  (JsMap.get 1 (wsUserMap (hub (world bound_as_alice))) = Some "alice"
   /\ JsMap.get "alice" (clients (hub (world bound_as_alice))) = Some 1
   /\ JsMap.get 1 (wsUserMap (hub (world rebound))) = Some "mallory")
  /\ readyState (connection (hub (world closed)) 1) = CLOSED
  /\ JsMap.get "alice" (clients (hub (world closed))) = Some 1
  /\ JsMap.get "alice" (userChannels (hub (world closed))) = Some ["general"]
  /\ trace closed = trace rebound ++ [Send 2 (user_offline "mallory")]
  /\ ~ In (Send 2 (user_offline "alice")) (trace closed).
Proof.
  cbv zeta.
  split; [repeat split; vm_compute; reflexivity|].
  split; [vm_compute; reflexivity|].
  split; [vm_compute; reflexivity|].
  split; [vm_compute; reflexivity|].
  split; [vm_compute; reflexivity|].
  vm_compute. intros Hin.
  repeat (destruct Hin as [Hin|Hin]; [discriminate Hin|]).
  contradiction.
Qed.

(* ================================================================== *)
(** ** Running the ["message"] handler *)

Section RunFacts.
Context {DB : Type} `{IStorage DB}.

Lemma run_bind {A B} (t : Task A) (g : A -> Task B) : forall w : World DB,
  run (bind t g) w =
  match run t w with
  | (Ok a, w1, o1) => let '(x, w2, o2) := run (g a) w1 in (x, w2, o1 ++ o2)
  | (Err e, w1, o1) => (Err e, w1, o1)
  end.
Proof.
  induction t as [a|e|B0 f k IH|r k IH]; intros w; simpl.
  - destruct w as [h d]. now destruct (run (g a) _) as [[x w2] o2].
  - reflexivity.
  - destruct (f (hub w)) as [[b h1] o1]. rewrite IH.
    destruct (run (k b) _) as [[[a|e] w1] o2]; auto.
    destruct (run (g a) w1) as [[x w2] o3]. now rewrite app_assoc.
  - destruct (storage r (db w)) as [reply db1]. rewrite IH.
    destruct (run (k reply) _) as [[[a|e] w1] o2]; auto.
    now destruct (run (g a) w1) as [[x w2] o3].
Qed.

Lemma run_try_catch {A} (t : Task A) handler : forall w : World DB,
  run (try_catch t handler) w =
  match run t w with
  | (Ok a, w1, o1) => (Ok a, w1, o1)
  | (Err e, w1, o1) => let '(x, w2, o2) := run (handler e) w1 in (x, w2, o1 ++ o2)
  end.
Proof.
  induction t as [a|e|B0 f k IH|r k IH]; intros w; simpl.
  - reflexivity.
  - destruct w as [h d]. now destruct (run (handler e) _) as [[x w2] o2].
  - destruct (f (hub w)) as [[b h1] o1]. rewrite IH.
    destruct (run (k b) _) as [[[a|e] w1] o2]; auto.
    destruct (run (handler e) w1) as [[x w2] o3]. now rewrite app_assoc.
  - destruct (storage r (db w)) as [reply db1]. rewrite IH.
    destruct (run (k reply) _) as [[[a|e] w1] o2]; auto.
    now destruct (run (handler e) w1) as [[x w2] o3].
Qed.

Lemma run_typing_start (w : World DB) ws U C p user d' :
  bound_to w ws U -> p_channelId p = Some C -> C <> "" ->
  storage (getUser (Some U)) (db w) = (Ok user, d') ->
  run (on_message ws (Json (Some "typing_start") (Some p))) w
  = (Ok tt, {| hub := hub w; db := d' |},
     Call (getUser (Some U))
     :: broadcastToChannel (hub w) (Some C)
          (typing_start (Some U) (Some C)
             (match user with Some x => user_firstName x | None => None end))
          (Some U)).
Proof.
  intros [HU HUne] HC HCne Hst.
  unfold on_message, handle_message, case_typing_start. simpl.
  rewrite HU, (truthy_Some HUne). simpl.
  rewrite HC, (truthy_Some HCne). simpl.
  rewrite Hst. simpl. rewrite HU, app_nil_r. reflexivity.
Qed.

Lemma run_typing_stop (w : World DB) ws U C p :
  bound_to w ws U -> p_channelId p = Some C -> C <> "" ->
  run (on_message ws (Json (Some "typing_stop") (Some p))) w
  = (Ok tt, w,
     broadcastToChannel (hub w) (Some C)
       (typing_stop (Some U) (Some C)) (Some U)).
Proof.
  intros [HU HUne] HC HCne.
  unfold on_message, handle_message, case_typing_stop. simpl.
  rewrite HU, (truthy_Some HUne). simpl.
  rewrite HC, (truthy_Some HCne). simpl.
  rewrite app_nil_r. now destruct w.
Qed.

Lemma run_send_message_not_member (w : World DB) ws U C p d' :
  bound_to w ws U -> p_channelId p = Some C -> C <> "" ->
  storage (isChannelMember C U) (db w) = (Ok false, d') ->
  run (on_message ws (Json (Some "send_message") (Some p))) w
  = (Ok tt, {| hub := hub w; db := d' |}, [Call (isChannelMember C U)]).
Proof.
  intros [HU HUne] HC HCne Hst.
  unfold on_message, handle_message, case_send_message. simpl.
  rewrite HU, (truthy_Some HUne). simpl.
  rewrite HC, (truthy_Some HCne). simpl.
  rewrite Hst. reflexivity.
Qed.

Lemma run_send_message_member (w : World DB) ws U C p d1 newMessage d2 :
  bound_to w ws U -> p_channelId p = Some C -> C <> "" ->
  storage (isChannelMember C U) (db w) = (Ok true, d1) ->
  storage (createMessage {| im_channelId := C; im_senderId := Some U;
                            im_content := p_content p;
                            im_replyToId := p_replyToId p |}) d1
  = (Ok newMessage, d2) ->
  run (on_message ws (Json (Some "send_message") (Some p))) w
  = (Ok tt, {| hub := hub w; db := d2 |},
     Call (isChannelMember C U)
     :: Call (createMessage {| im_channelId := C; im_senderId := Some U;
                               im_content := p_content p;
                               im_replyToId := p_replyToId p |})
     :: broadcastToChannel (hub w) (Some C) (new_message newMessage) None).
Proof.
  intros [HU HUne] HC HCne Hmem Hcreate.
  unfold on_message, handle_message, case_send_message. simpl.
  rewrite HU, (truthy_Some HUne). simpl.
  rewrite HC, (truthy_Some HCne). simpl.
  rewrite Hmem. simpl. rewrite HU, Hcreate. simpl.
  rewrite app_nil_r. reflexivity.
Qed.

Lemma run_remove_reaction (w : World DB) ws U mid p m d1 removed d2 :
  bound_to w ws U -> p_messageId p = Some mid -> mid <> "" ->
  storage (getMessage mid) (db w) = (Ok (Some m), d1) ->
  storage (removeReaction mid (Some U) (p_emoji p)) d1 = (Ok removed, d2) ->
  run (on_message ws (Json (Some "remove_reaction") (Some p))) w
  = (Ok tt, {| hub := hub w; db := d2 |},
     Call (getMessage mid)
     :: Call (removeReaction mid (Some U) (p_emoji p))
     :: broadcastToChannel (hub w) (Some (message_channelId m))
          (message_reaction (Some mid) (p_emoji p) (Some U) "remove") None).
Proof.
  intros [HU HUne] Hm Hmne Hget Hrem.
  unfold on_message, handle_message, case_remove_reaction. simpl.
  rewrite HU, (truthy_Some HUne). simpl.
  rewrite Hm, (truthy_Some Hmne). simpl.
  rewrite Hget. simpl. rewrite HU, Hrem. simpl.
  rewrite HU, app_nil_r. reflexivity.
Qed.

Lemma run_add_reaction (w : World DB) ws U mid p m d1 reaction d2 :
  bound_to w ws U -> p_messageId p = Some mid -> mid <> "" ->
  storage (getMessage mid) (db w) = (Ok (Some m), d1) ->
  storage (addReaction {| ir_messageId := mid; ir_userId := Some U;
                          ir_emoji := p_emoji p |}) d1 = (Ok reaction, d2) ->
  run (on_message ws (Json (Some "add_reaction") (Some p))) w
  = (Ok tt, {| hub := hub w; db := d2 |},
     Call (getMessage mid)
     :: Call (addReaction {| ir_messageId := mid; ir_userId := Some U;
                             ir_emoji := p_emoji p |})
     :: broadcastToChannel (hub w) (Some (message_channelId m))
          (message_reaction (Some mid) (p_emoji p) (Some U) "add") None).
Proof.
  intros [HU HUne] Hm Hmne Hget Hadd.
  unfold on_message, handle_message, case_add_reaction. simpl.
  rewrite HU, (truthy_Some HUne). simpl.
  rewrite Hm, (truthy_Some Hmne). simpl.
  rewrite Hget. simpl. rewrite HU, Hadd. simpl.
  rewrite HU, app_nil_r. reflexivity.
Qed.

End RunFacts.

(* ================================================================== *)
(** ** Channel routing *)

Lemma routes_to_channelUsers h c u :
  routes_to h c u -> In u (channelUsers h (Some c)).
Proof.
  intros (s & Hget & Hhas). unfold channelUsers, JsMap.entries.
  apply in_map_iff. exists (u, s). split; auto.
  apply filter_In. split; auto. now apply JsMapFacts.get_in.
Qed.

Lemma in_broadcast_channelUsers h c message excludeUserId e :
  In e (broadcastToChannel h c message excludeUserId) <->
  exists u client,
    In u (channelUsers h c)
    /\ excluded u excludeUserId = false
    /\ JsMap.get u (clients h) = Some client
    /\ client_open h client = true
    /\ e = Send client message.
Proof.
  unfold broadcastToChannel. rewrite in_flat_map. split.
  - intros [u [Hu He]]. apply in_deliver in He.
    destruct He as (client & Ex & Hget & Ho & ->). exists u, client. auto.
  - intros (u & client & Hu & Ex & Hget & Ho & ->).
    exists u. split; auto. apply in_deliver. eauto.
Qed.

Lemma excluded_Some_false u x : excluded u (Some x) = false <-> u <> x.
Proof. simpl. destruct (String.eqb_spec u x); split; congruence. Qed.

(** Skipping the excluded user inside the loop is the same as taking him
    out of [channelUsers] first. *)
Lemma broadcastToChannel_exclude h c message U :
  broadcastToChannel h c message (Some U)
  = flat_map (deliver h message None)
      (filter (fun u => negb (String.eqb u U)) (channelUsers h c)).
Proof.
  unfold broadcastToChannel. induction (channelUsers h c) as [|u l IH]; simpl; auto.
  rewrite IH. unfold deliver at 1. simpl.
  destruct (String.eqb u U); simpl; auto.
Qed.

(** C7, as the code has it.  The exclusion is by user id
    ([userId === excludeUserId]), not by socket.  An event routed to
    channel [C] with [excludeUserId = U] is sent exactly to the sockets
    the registry holds for the users, other than [U], whose membership set
    contains [C] when the event is routed, and only if the socket is open;
    a user without registry entry or with a socket that is not open is
    skipped.  The loop visits each such user once.  A [typing_start] frame
    of a connection bound to [U] is routed this way with [U] excluded: it
    never goes out through [U]'s own registry entry, and the socket
    registered for [U] does not get it provided the registry holds that
    socket for no other user. *)
Theorem channel_routing_with_exclusion {DB} `{IStorage DB}
    (w : World DB) ws U C p user d' :
  well_formed (hub w) ->
  bound_to w ws U -> p_channelId p = Some C -> C <> "" ->
  storage (getUser (Some U)) (db w) = (Ok user, d') ->
  let h := hub w in
  (forall message e,
     In e (broadcastToChannel h (Some C) message (Some U)) <->
     exists V client,
       routes_to h C V /\ V <> U
       /\ JsMap.get V (clients h) = Some client
       /\ client_open h client = true
       /\ e = Send client message)
  /\ (forall message,
        broadcastToChannel h (Some C) message (Some U)
        = flat_map (deliver h message None)
            (filter (fun V => negb (String.eqb V U)) (channelUsers h (Some C))))
  /\ NoDup (channelUsers h (Some C))
  /\ (forall message own,
        JsMap.get U (clients h) = Some own ->
        (forall V, JsMap.get V (clients h) = Some own -> V = U) ->
        ~ In (Send own message) (broadcastToChannel h (Some C) message (Some U)))
  /\ run (on_message ws (Json (Some "typing_start") (Some p))) w
     = (Ok tt, {| hub := h; db := d' |},
        Call (getUser (Some U))
        :: broadcastToChannel h (Some C)
             (typing_start (Some U) (Some C)
                (match user with Some x => user_firstName x | None => None end))
             (Some U)).
Proof.
  intros (_ & Hnd & _) Hb HC HCne Hst h.
  repeat split.
  - rewrite in_broadcastToChannel by assumption.
    intros (V & client & Hr & Ex & Hget & Ho & ->).
    apply excluded_Some_false in Ex. exists V, client. auto.
  - intros (V & client & Hr & Hne & Hget & Ho & ->).
    apply in_broadcastToChannel; [assumption|].
    exists V, client. rewrite excluded_Some_false. auto.
  - intros message. apply broadcastToChannel_exclude.
  - now apply NoDup_channelUsers.
  - intros message own Hown Huniq Hin.
    apply in_broadcast_channelUsers in Hin.
    destruct Hin as (V & client & _ & Ex & Hget & _ & Heq).
    apply excluded_Some_false in Ex. injection Heq as <-.
    apply Ex. now apply Huniq.
  - now apply run_typing_start.
Qed.

(** alice types in "general" while bob and mallory are online: bob gets
    the frame, alice does not, nor does mallory, who is not a member. *)
Lemma channel_routing_with_exclusion_witness :
  let w := world Example.everyone_online in
  (well_formed (hub w) /\ bound_to w 1 "alice")
  /\ run (on_message 1 (Json (Some "typing_start")
                          (Some (Example.in_channel "general")))) w
     = (Ok tt, w,
        [Call (getUser (Some "alice"));
         Send 2 (typing_start (Some "alice") (Some "general") (Some "Alice"))]).
Proof.
  assert (Hwf : well_formed (hub (world Example.everyone_online)))
    by apply reachable_well_formed.
  assert (Hb : bound_to (world Example.everyone_online) 1 "alice")
    by (split; [reflexivity | discriminate]).
  assert (HC : p_channelId (Example.in_channel "general") = Some "general")
    by reflexivity.
  assert (HCne : "general" <> "") by discriminate.
  assert (Hst : storage (getUser (Some "alice"))
                  (db (world Example.everyone_online))
                = (Ok (Some (Example.user "alice" "Alice")),
                   db (world Example.everyone_online)))
    by reflexivity.
  pose proof (channel_routing_with_exclusion
                (Example.in_channel "general") Hwf Hb HC HCne Hst) as Hc.
  cbv zeta in Hc. destruct Hc as (_ & _ & _ & _ & Hrun).
  cbv zeta. split; [split; assumption|].
  rewrite Hrun. reflexivity.
Defined.

(** C7 as stated fails for a socket the registry holds under two user
    ids.  Socket 1 has no session; it authenticates as alice and then as
    bob, both members of "general".  Its [typing_start] is routed with bob
    excluded and comes back to socket 1 through the registry entry of
    alice: bob's own connection receives bob's [typing_start]. *)
Lemma channel_routing_with_exclusion_counterexample :
  let s := exec (initial Example.db0)
             [OnConnection 1 None;
              OnMessage 1 (Example.auth "alice"); Settle 0; Settle 0;
              OnMessage 1 (Example.auth "bob"); Settle 0; Settle 0] in
  let typing := typing_start (Some "bob") (Some "general") (Some "Bob") in
  let s' := exec s [OnMessage 1 (Json (Some "typing_start")
                                   (Some (Example.in_channel "general")));
                    Settle 0] in
  (userId (connection (hub (world s)) 1) = Some "bob"
   /\ JsMap.get "bob" (clients (hub (world s))) = Some 1
   /\ JsMap.get "alice" (clients (hub (world s))) = Some 1)
  /\ broadcastToChannel (hub (world s)) (Some "general") typing (Some "bob")
     = [Send 1 typing]
  /\ trace s' = trace s ++ [Call (getUser (Some "bob")); Send 1 typing].
Proof.
  cbv zeta.
  split; [repeat split; vm_compute; reflexivity|].
  split; vm_compute; reflexivity.
Qed.

(* ================================================================== *)
(** ** [send_message]: the authorization gate and the fan-out *)

Lemma Db_createMessage_ok d messageData U newMessage d' :
  Db.createMessage d messageData = (Ok newMessage, d') ->
  im_senderId messageData = Some U ->
  Db.messages d' = Db.messages d ++ [mws_message newMessage]
  /\ message_channelId (mws_message newMessage) = im_channelId messageData
  /\ message_senderId (mws_message newMessage) = U
  /\ message_content (mws_message newMessage) = im_content messageData
  /\ message_replyToId (mws_message newMessage) = im_replyToId messageData
  /\ Db.getUser d (Some U) = Some (mws_sender newMessage)
  /\ user_id (mws_sender newMessage) = U
  /\ mws_reactions newMessage = [].
Proof.
  intros Hcreate HU. revert Hcreate.
  unfold Db.createMessage, Db.insert_message. rewrite HU.
  destruct (negb (existsb _ (Db.channels d))); [discriminate|].
  destruct (negb (Db.user_exists d U)); [discriminate|].
  simpl.
  destruct (find (fun u => String.eqb (user_id u) U) (Db.users d))
    as [sender|] eqn:Ef; [|discriminate].
  intros [= <- <-]. simpl. repeat split; auto.
  apply find_some in Ef. destruct Ef as [_ Ef].
  now apply String.eqb_eq in Ef.
Qed.

(** C4.  A [send_message] frame of a connection bound to [U], for a channel
    of which the storage layer says [U] is no member, makes one storage
    call, the membership check: [createMessage] is not invoked, no frame is
    sent, and the hub and the database are as before.  The handler
    suspends on the check; with a negative answer it ends at once, whatever
    other handlers did in the meantime. *)
Theorem send_message_authorization_gate (w : World Db.Database) ws U C p :
  bound_to w ws U -> p_channelId p = Some C -> C <> "" ->
  Db.isChannelMember (db w) C U = false ->
  let frame := Json (Some "send_message") (Some p) in
  run (on_message ws frame) w = (Ok tt, w, [Call (isChannelMember C U)])
  /\ (forall m, ~ In (Call (createMessage m)) (snd (run (on_message ws frame) w)))
  /\ (forall client f, ~ In (Send client f) (snd (run (on_message ws frame) w)))
  /\ exists k,
       advance (on_message ws frame) (hub w)
       = (Await (isChannelMember C U) k, hub w, [Call (isChannelMember C U)])
       /\ forall w' : World Db.Database,
            Db.isChannelMember (db w') C U = false ->
            resume (Await (isChannelMember C U) k) w' = (Ret tt, w', []).
Proof.
  intros Hb HC HCne Hmem frame.
  assert (Hrun : run (on_message ws frame) w
                 = (Ok tt, w, [Call (isChannelMember C U)])).
  { subst frame.
    rewrite (@run_send_message_not_member _ _ w ws U C p (db w)); auto.
    - now destruct w.
    - unfold storage, DatabaseStorage. simpl. now rewrite Hmem. }
  rewrite Hrun. simpl. split; [reflexivity|].
  split; [intros m [E|[]]; discriminate|].
  split; [intros client f [E|[]]; discriminate|].
  destruct Hb as [HU HUne].
  subst frame. unfold on_message, handle_message, case_send_message. simpl.
  rewrite HU, (truthy_Some HUne). simpl.
  rewrite HC, (truthy_Some HCne). simpl.
  eexists. split; [reflexivity|].
  intros w' Hmem'. unfold storage, DatabaseStorage. simpl.
  rewrite Hmem'. simpl. now destruct w'.
Qed.

(** mallory, who is no member of "general", sends a message there. *)
Lemma send_message_authorization_gate_witness :
  let w := world Example.everyone_online in
  (bound_to w 3 "mallory"
   /\ Db.isChannelMember (db w) "general" "mallory" = false)
  /\ run (on_message 3 (Json (Some "send_message")
                          (Some (Example.say "general" "hello")))) w
     = (Ok tt, w, [Call (isChannelMember "general" "mallory")]).
Proof.
  assert (Hb : bound_to (world Example.everyone_online) 3 "mallory")
    by (split; [reflexivity | discriminate]).
  assert (HC : p_channelId (Example.say "general" "hello") = Some "general")
    by reflexivity.
  assert (HCne : "general" <> "") by discriminate.
  assert (Hmem : Db.isChannelMember (db (world Example.everyone_online))
                   "general" "mallory" = false) by reflexivity.
  split; [split; assumption|].
  exact (proj1 (send_message_authorization_gate
                  (Example.say "general" "hello") Hb HC HCne Hmem)).
Defined.

(** C6.  When the membership check passes and [createMessage] succeeds, the
    handler routes a [new_message] frame carrying the record that
    [createMessage] returned to channel [C] without excluding anyone: every
    user whose membership set contains [C] and whose registered socket is
    open gets it, the sender like the others.  The record is the row that
    was inserted (channel [C], sender [U], the client's content) together
    with the sender's user row and an empty reaction list. *)
Theorem send_message_reaches_every_member (w : World Db.Database)
    ws U C p newMessage d' :
  bound_to w ws U -> p_channelId p = Some C -> C <> "" ->
  Db.isChannelMember (db w) C U = true ->
  Db.createMessage (db w)
    {| im_channelId := C; im_senderId := Some U;
       im_content := p_content p; im_replyToId := p_replyToId p |}
  = (Ok newMessage, d') ->
  let h := hub w in
  let out := broadcastToChannel h (Some C) (new_message newMessage) None in
  run (on_message ws (Json (Some "send_message") (Some p))) w
  = (Ok tt, {| hub := h; db := d' |},
     Call (isChannelMember C U)
     :: Call (createMessage
                {| im_channelId := C; im_senderId := Some U;
                   im_content := p_content p; im_replyToId := p_replyToId p |})
     :: out)
  /\ Db.messages d' = Db.messages (db w) ++ [mws_message newMessage]
  /\ (message_channelId (mws_message newMessage) = C
      /\ message_senderId (mws_message newMessage) = U
      /\ message_content (mws_message newMessage) = p_content p
      /\ Db.getUser (db w) (Some U) = Some (mws_sender newMessage)
      /\ user_id (mws_sender newMessage) = U
      /\ mws_reactions newMessage = [])
  /\ (forall V client,
        routes_to h C V ->
        JsMap.get V (clients h) = Some client ->
        client_open h client = true ->
        In (Send client (new_message newMessage)) out)
  /\ (routes_to h C U ->
      JsMap.get U (clients h) = Some ws ->
      client_open h ws = true ->
      In (Send ws (new_message newMessage)) out)
  /\ (forall e, In e out ->
        exists V client,
          In V (channelUsers h (Some C))
          /\ JsMap.get V (clients h) = Some client
          /\ client_open h client = true
          /\ e = Send client (new_message newMessage)).
Proof.
  intros Hb HC HCne Hmem Hcreate h out.
  pose proof (@Db_createMessage_ok _ _ U _ _ Hcreate eq_refl)
    as (Hmsgs & Hc & Hs & Hcont & _ & Hget & Hid & Hre).
  assert (Hall : forall V client,
            routes_to h C V ->
            JsMap.get V (clients h) = Some client ->
            client_open h client = true ->
            In (Send client (new_message newMessage)) out).
  { intros V client Hr Hg Ho. apply in_broadcast_channelUsers.
    exists V, client. repeat split; auto. now apply routes_to_channelUsers. }
  split; [|split; [|split; [|split; [|split]]]]; auto.
  - apply run_send_message_member with (d1 := db w); auto.
    unfold storage, DatabaseStorage. simpl. now rewrite Hmem.
  - repeat split; auto.
  - intros Hr Hg Ho. now apply (Hall U ws).
  - intros e He. apply in_broadcast_channelUsers in He.
    destruct He as (V & client & HV & _ & Hg & Ho & ->).
    exists V, client. auto.
Qed.

(** The scenario of the specification: alice and bob are bound and members
    of "general", alice sends "hi"; both sockets get the persisted
    message. *)
Lemma send_message_reaches_every_member_witness :
  let w := world Example.two_online in
  let messageData :=
    {| im_channelId := "general"; im_senderId := Some "alice";
       im_content := Some "hi"; im_replyToId := None |} in
  (bound_to w 1 "alice"
   /\ Db.isChannelMember (db w) "general" "alice" = true
   /\ fst (Db.createMessage (db w) messageData) = Ok Example.hi)
  /\ snd (run (on_message 1 (Json (Some "send_message")
                               (Some (Example.say "general" "hi")))) w)
     = [Call (isChannelMember "general" "alice");
        Call (createMessage messageData);
        Send 1 (new_message Example.hi);
        Send 2 (new_message Example.hi)].
Proof.
  assert (Hb : bound_to (world Example.two_online) 1 "alice")
    by (split; [reflexivity | discriminate]).
  assert (HC : p_channelId (Example.say "general" "hi") = Some "general")
    by reflexivity.
  assert (HCne : "general" <> "") by discriminate.
  assert (Hmem : Db.isChannelMember (db (world Example.two_online))
                   "general" "alice" = true) by reflexivity.
  assert (Hcreate :
            Db.createMessage (db (world Example.two_online))
              {| im_channelId := "general"; im_senderId := Some "alice";
                 im_content := p_content (Example.say "general" "hi");
                 im_replyToId := p_replyToId (Example.say "general" "hi") |}
            = (Ok Example.hi,
               snd (Db.createMessage (db (world Example.two_online))
                      {| im_channelId := "general";
                         im_senderId := Some "alice";
                         im_content := Some "hi"; im_replyToId := None |})))
    by reflexivity.
  pose proof (send_message_reaches_every_member
                (Example.say "general" "hi") Hb HC HCne Hmem Hcreate) as Hc.
  cbv zeta in Hc. destruct Hc as (Hrun & _).
  cbv zeta. split; [split; [assumption | split; [assumption | reflexivity]]|].
  rewrite Hrun. reflexivity.
Defined.

(* ================================================================== *)
(** ** Authentication *)

Arguments with_clients : simpl never.
Arguments with_userChannels : simpl never.
Arguments with_wsUserMap : simpl never.
Arguments with_connection : simpl never.
Arguments with_userId : simpl never.
Arguments with_readyState : simpl never.
Arguments registered : simpl never.
Arguments listed : simpl never.
Arguments announce : simpl never.
Arguments auth_bind : simpl never.

Lemma connection_registered h ws U ws' :
  connection (registered h ws U) ws' = connection h ws'.
Proof. reflexivity. Qed.

Lemma connection_listed h U channels ws' :
  connection (listed h U channels) ws' = connection h ws'.
Proof. reflexivity. Qed.

Lemma connection_with_userId h ws v :
  connection (with_userId h ws v) ws
  = {| readyState := readyState (connection h ws);
       authenticatedUserId := authenticatedUserId (connection h ws);
       userId := v |}.
Proof. unfold with_userId. apply connection_with_connection_same. Qed.

Lemma connection_with_readyState h ws s :
  connection (with_readyState h ws s) ws
  = {| readyState := s;
       authenticatedUserId := authenticatedUserId (connection h ws);
       userId := userId (connection h ws) |}.
Proof. unfold with_readyState. apply connection_with_connection_same. Qed.

#[export] Hint Rewrite connection_registered connection_listed
  connection_with_userId connection_with_readyState : hub.

Lemma strict_eq_true x y : strict_eq x y = true <-> x = y.
Proof.
  destruct x as [a|], y as [b|]; simpl; try (split; congruence).
  rewrite String.eqb_eq. split; congruence.
Qed.

Lemma strict_eq_false x y : x <> y -> strict_eq x y = false.
Proof.
  intros Hn. destruct (strict_eq x y) eqn:E; auto.
  apply strict_eq_true in E. contradiction.
Qed.

Section AuthFacts.
Context {DB : Type} `{IStorage DB}.

Lemma run_auth_bind (w : World DB) ws U :
  bound_to w ws U ->
  run (auth_bind ws) w =
  match storage (getUserChannels U) (db w) with
  | (Ok channels, d') =>
      let h := listed (registered (hub w) ws U) U channels in
      (Ok tt, {| hub := h; db := d' |},
       Call (getUserChannels U) :: announce h ws U)
  | (Err e, d') =>
      (Err e, {| hub := registered (hub w) ws U; db := d' |},
       [Call (getUserChannels U)])
  end.
Proof.
  intros [HU HUne]. unfold auth_bind. simpl.
  rewrite HU, (truthy_Some HUne). simpl.
  destruct (storage (getUserChannels U) (db w)) as [[channels|e] d']; simpl;
    [|reflexivity].
  autorewrite with hub. rewrite HU. simpl.
  autorewrite with hub. rewrite HU. simpl.
  rewrite app_nil_r. reflexivity.
Qed.

Lemma run_auth_accepted (w : World DB) ws U p :
  accepts w ws U -> p_userId p = Some U ->
  run (on_message ws (Json (Some "auth") (Some p))) w =
  let h0 := with_userId (hub w) ws (Some U) in
  match storage (getUserChannels U) (verified_db w ws U) with
  | (Ok channels, d') =>
      let h := listed (registered h0 ws U) U channels in
      (Ok tt, {| hub := h; db := d' |},
       verification w ws U ++ Call (getUserChannels U) :: announce h ws U)
  | (Err e, d') =>
      (Ok tt, {| hub := registered h0 ws U; db := d' |},
       verification w ws U
       ++ [Call (getUserChannels U); LogError "WebSocket message error:" e])
  end.
Proof.
  intros [HUne Hacc] Hp.
  assert (Hb : forall d : DB,
            bound_to {| hub := with_userId (hub w) ws (Some U); db := d |}
              ws U).
  { intros d. split; auto. simpl. now autorewrite with hub. }
  unfold on_message. rewrite run_try_catch.
  unfold handle_message, case_auth, verified_db, verification.
  remember (auth_bind ws) as binding eqn:Eb. simpl.
  rewrite Hp. simpl.
  destruct (truthy (authenticatedUserId (connection (hub w) ws))) eqn:Et.
  - rewrite Hacc. simpl. rewrite String.eqb_refl. simpl. subst binding.
    rewrite (run_auth_bind (Hb (db w))). simpl.
    destruct (storage (getUserChannels U) (db w)) as [[channels|e] d'];
      reflexivity.
  - destruct Hacc as (user & d1 & Hst). simpl. rewrite !Hst. simpl.
    subst binding. rewrite (run_auth_bind (Hb d1)). simpl.
    destruct (storage (getUserChannels U) d1) as [[channels|e] d'];
      reflexivity.
Qed.

Lemma run_auth_registers (w : World DB) ws U p :
  accepts w ws U -> p_userId p = Some U ->
  let w' := snd (fst (run (on_message ws (Json (Some "auth") (Some p))) w)) in
  clients (hub w') = JsMap.set U ws (clients (hub w))
  /\ wsUserMap (hub w') = JsMap.set ws U (wsUserMap (hub w))
  /\ userId (connection (hub w') ws) = Some U.
Proof.
  intros Hacc Hp. cbv zeta. rewrite (run_auth_accepted p Hacc Hp). cbv zeta.
  destruct (storage (getUserChannels U) (verified_db w ws U))
    as [[channels|e] d']; simpl; autorewrite with hub; auto.
Qed.

End AuthFacts.

Lemma count_le_1 {K V} `{Key K} (k : K) (m : JsMap.t K V) :
  NoDup (JsMap.keys m) -> JsMap.count k m <= 1.
Proof.
  intros Hnd. destruct (in_dec (fun x y => reflect_dec _ _ (keqb_spec x y))
                          k (JsMap.keys m)) as [Hin|Hout].
  - now rewrite JsMapFacts.count_NoDup.
  - rewrite JsMapFacts.count_notin; auto.
Qed.

(** C5.  In every state the event loop reaches, the registry holds at most
    one entry per user id.  After two authentications in a row that the
    server accepts for the same [U], first of socket [ws1] and then of
    socket [ws2], the registry holds exactly one entry for [U], and its
    lookup gives [ws2]. *)
Theorem registry_one_connection_per_user {DB} `{IStorage DB}
    (d : DB) (events : list (Event DB)) ws1 ws2 U p1 p2 :
  let w := world (exec (initial d) events) in
  let w1 := snd (fst (run (on_message ws1 (Json (Some "auth") (Some p1))) w)) in
  let w2 := snd (fst (run (on_message ws2 (Json (Some "auth") (Some p2))) w1)) in
  NoDup (JsMap.keys (clients (hub w)))
  /\ (forall u, JsMap.count u (clients (hub w)) <= 1)
  /\ (p_userId p1 = Some U -> accepts w ws1 U ->
      p_userId p2 = Some U -> accepts w1 ws2 U ->
      JsMap.count U (clients (hub w2)) = 1
      /\ JsMap.get U (clients (hub w2)) = Some ws2).
Proof.
  intros w w1 w2.
  assert (Hnd : NoDup (JsMap.keys (clients (hub w))))
    by apply (reachable_well_formed d events).
  split; [assumption|]. split; [intros u; now apply count_le_1|].
  intros Hp1 Hacc1 Hp2 Hacc2.
  destruct (run_auth_registers p1 Hacc1 Hp1) as (Hc1 & _).
  destruct (run_auth_registers p2 Hacc2 Hp2) as (Hc2 & _).
  fold w1 in Hc1, Hc2. fold w2 in Hc2. rewrite Hc2, Hc1. split.
  - apply JsMapFacts.count_NoDup.
    + now apply JsMapFacts.NoDup_set, JsMapFacts.NoDup_set.
    + apply JsMapFacts.keys_set_in. now left.
  - apply JsMapFacts.get_set_same.
Qed.

(** alice is bound on socket 1 through her session; a socket without
    session, 5, then claims to be alice, whom the user store knows. *)
Lemma registry_one_connection_per_user_witness :
  let w := world (exec (initial Example.db0)
                    [OnConnection 1 (Some "alice"); OnConnection 5 None]) in
  let w1 := snd (fst (run (on_message 1 (Example.auth "alice")) w)) in
  let w2 := snd (fst (run (on_message 5 (Example.auth "alice")) w1)) in
  (accepts w 1 "alice" /\ accepts w1 5 "alice")
  /\ JsMap.get "alice" (clients (hub w1)) = Some 1
  /\ JsMap.count "alice" (clients (hub w2)) = 1
  /\ JsMap.get "alice" (clients (hub w2)) = Some 5.
Proof.
  set (events := [OnConnection 1 (Some "alice"); OnConnection 5 None]).
  set (p := {| p_userId := Some "alice"; p_channelId := None;
               p_content := None; p_replyToId := None;
               p_messageId := None; p_emoji := None |}).
  pose proof (registry_one_connection_per_user
                Example.db0 events 1 5 "alice" p p) as Hc.
  cbv zeta in Hc. destruct Hc as (_ & _ & Htwice).
  assert (Hacc1 : accepts (world (exec (initial Example.db0) events)) 1 "alice").
  { split; [discriminate | reflexivity]. }
  assert (Hacc2 :
            accepts
              (snd (fst (run (on_message 1 (Json (Some "auth") (Some p)))
                           (world (exec (initial Example.db0) events)))))
              5 "alice").
  { split; [discriminate|]. simpl.
    exists (Example.user "alice" "Alice"), Example.db0. reflexivity. }
  destruct (Htwice eq_refl Hacc1 eq_refl Hacc2) as [Hcount Hget].
  cbv zeta. split; [split; assumption|].
  split; [reflexivity|]. split; assumption.
Defined.



(* ================================================================== *)
(** ** Failures while a frame is processed *)

Lemma quiet_contained {A} (t : Task A) : quiet t -> contained t.
Proof. induction 1; constructor; auto. Qed.

Lemma contained_bind {A B} (t : Task A) (g : A -> Task B) :
  quiet t -> (forall a, contained (g a)) -> contained (bind t g).
Proof.
  intros Ht Hg. induction Ht; simpl; auto; constructor; auto.
Qed.

Lemma closes_nothing_refl h : closes_nothing h h [].
Proof. split; auto. Qed.

Lemma no_close_broadcastToAll h message excludeUserId ws code reason :
  ~ In (Close ws code reason) (broadcastToAll h message excludeUserId).
Proof.
  rewrite in_broadcastToAll. intros (u & client & _ & _ & _ & E). discriminate.
Qed.

Lemma no_close_broadcastToChannel h c message excludeUserId ws code reason :
  ~ In (Close ws code reason) (broadcastToChannel h c message excludeUserId).
Proof.
  rewrite in_broadcast_channelUsers.
  intros (u & client & _ & _ & _ & _ & E). discriminate.
Qed.

Lemma quiet_read {B} (f : Hub -> B) : quiet (read f).
Proof. apply steps_read. apply closes_nothing_refl. Qed.

Lemma quiet_await r : quiet (await r).
Proof. now apply steps_await. Qed.

Lemma quiet_set_userId ws v : quiet (set_userId ws v).
Proof.
  apply steps_modify. intros h. split; auto.
  intros ws'. unfold with_userId. now apply readyState_with_connection.
Qed.

Lemma quiet_clients_set u ws : quiet (clients_set u ws).
Proof. apply steps_modify. intros h. split; auto. Qed.

Lemma quiet_wsUserMap_set ws u : quiet (wsUserMap_set ws u).
Proof. apply steps_modify. intros h. split; auto. Qed.

Lemma quiet_userChannels_set u s : quiet (userChannels_set u s).
Proof.
  destruct u; [|constructor]. apply steps_modify. intros h. split; auto.
Qed.

Lemma quiet_ws_send ws frame : quiet (ws_send ws frame).
Proof.
  apply steps_emit. intros h. split; auto.
  intros ws' code reason. destruct (client_open h ws); simpl; [|tauto].
  intros [E|[]]. discriminate.
Qed.

Lemma quiet_console_warn msg : quiet (console_warn msg).
Proof.
  apply steps_emit. intros h. split; auto.
  intros ws' code reason [E|[]]. discriminate.
Qed.

Lemma quiet_console_error msg e : quiet (console_error msg e).
Proof.
  apply steps_emit. intros h. split; auto.
  intros ws' code reason [E|[]]. discriminate.
Qed.

Lemma quiet_broadcastToAll message excludeUserId :
  quiet (do_broadcastToAll message excludeUserId).
Proof.
  apply steps_emit. intros h. split; auto.
  intros ws code reason. apply no_close_broadcastToAll.
Qed.

Lemma quiet_broadcastToChannel c message excludeUserId :
  quiet (do_broadcastToChannel c message excludeUserId).
Proof.
  apply steps_emit. intros h. split; auto.
  intros ws code reason. apply no_close_broadcastToChannel.
Qed.

Lemma contained_ws_close ws code reason {A} (k : unit -> Task A) :
  (forall b, exists a, k b = Ret a) ->
  contained (bind (ws_close ws code reason) k).
Proof. intros Hk. simpl. now apply contained_last. Qed.

#[export] Hint Resolve quiet_read quiet_await quiet_set_userId
  quiet_clients_set quiet_wsUserMap_set quiet_userChannels_set quiet_ws_send
  quiet_console_warn quiet_console_error quiet_broadcastToAll
  quiet_broadcastToChannel : steps.

Lemma quiet_auth_bind ws : quiet (auth_bind ws).
Proof.
  unfold auth_bind, get_userId, clients_keys. repeat steps_step.
Qed.

Ltac contained_step :=
  match goal with
  | |- contained (bind _ _) =>
      apply contained_bind; [solve [eauto with steps] | intros]
  | |- contained (if ?b then _ else _) => destruct b
  | |- contained (match ?x with Some _ => _ | None => _ end) => destruct x
  | |- contained _ =>
      solve [ apply quiet_contained; repeat steps_step
            | apply contained_last; intros; eexists; reflexivity
            | constructor ]
  end.

Lemma contained_handle_message ws data : contained (handle_message ws data).
Proof.
  pose proof (quiet_auth_bind ws) as Hbind.
  unfold handle_message.
  destruct data as [| |type payload]; try constructor.
  unfold case_auth, case_typing_start, case_typing_stop, case_send_message,
    case_add_reaction, case_remove_reaction, get_userId,
    get_authenticatedUserId.
  repeat contained_step.
Qed.

Lemma closes_nothing_app h h1 h2 o1 o2 :
  closes_nothing h h1 o1 -> closes_nothing h1 h2 o2 ->
  closes_nothing h h2 (o1 ++ o2).
Proof.
  intros [Hr1 Hc1] [Hr2 Hc2]. split.
  - intros ws. now rewrite Hr2.
  - intros ws code reason Hin. apply in_app_or in Hin.
    destruct Hin as [Hin|Hin]; [eapply Hc1 | eapply Hc2]; eauto.
Qed.

Section Containment.
Context {DB : Type} `{IStorage DB}.

Lemma run_contained {A} (t : Task A) :
  contained t ->
  forall (w : World DB) e w1 o1,
    run t w = (Err e, w1, o1) -> closes_nothing (hub w) (hub w1) o1.
Proof.
  induction 1 as [a|e0|B f k Hf Hk IH|r k Hk IH|B f k Hk];
    intros w e w1 o1; simpl.
  - discriminate.
  - intros [= <- <- <-]. apply closes_nothing_refl.
  - specialize (Hf (hub w)). destruct (f (hub w)) as [[b h1] o].
    simpl in Hf. specialize (IH b {| hub := h1; db := db w |}).
    destruct (run (k b) {| hub := h1; db := db w |}) as [[x w2] o2].
    intros [= -> <- <-]. eapply closes_nothing_app; [exact Hf|].
    now apply (IH e).
  - destruct (storage r (db w)) as [reply db1].
    specialize (IH reply {| hub := hub w; db := db1 |}).
    destruct (run (k reply) {| hub := hub w; db := db1 |}) as [[x w2] o2].
    intros [= -> <- <-].
    apply (closes_nothing_app (h1 := hub w) (o1 := [Call r])).
    + split; auto. intros ws code reason [E|[]]. discriminate.
    + now apply (IH e).
  - destruct (f (hub w)) as [[b h1] o]. destruct (Hk b) as [a ->]. simpl.
    discriminate.
Qed.

End Containment.

(** C9.  The ["message"] handler always returns: whatever the frame and
    whatever the storage layer answers, no exception escapes it.  When the
    processing of a frame raises an exception (a frame that is not JSON, a
    missing payload, a rejected storage promise), the handler logs it and
    does nothing else; up to that point no socket has been closed and no
    [readyState] has changed, so the connection stays open.  A frame that
    is not JSON is logged and changes nothing; a frame whose type is none
    of the six tags changes nothing, sends nothing and closes nothing. *)
Theorem frame_failures_are_contained {DB} `{IStorage DB}
    (w : World DB) ws data :
  (exists w' o, run (on_message ws data) w = (Ok tt, w', o))
  /\ (forall e w1 o1,
        run (handle_message ws data) w = (Err e, w1, o1) ->
        run (on_message ws data) w
        = (Ok tt, w1, o1 ++ [LogError "WebSocket message error:" e])
        /\ closes_nothing (hub w) (hub w1)
             (o1 ++ [LogError "WebSocket message error:" e]))
  /\ run (on_message ws NotJson) w
     = (Ok tt, w, [LogError "WebSocket message error:" SyntaxError])
  /\ (forall type payload,
        recognized type = false ->
        run (on_message ws (Json type payload)) w = (Ok tt, w, [])).
Proof.
  split; [|split; [|split]].
  - unfold on_message. rewrite run_try_catch.
    destruct (run (handle_message ws data) w) as [[[[]|e] w1] o1]; simpl; eauto.
  - intros e w1 o1 Hrun. unfold on_message.
    rewrite run_try_catch, Hrun. simpl. split.
    + now destruct w1.
    + eapply closes_nothing_app.
      * eapply run_contained; [apply contained_handle_message | exact Hrun].
      * split; auto. intros ws' code reason [E|[]]. discriminate.
  - simpl. now destruct w.
  - intros type payload Hrec. unfold recognized in Hrec.
    repeat (apply orb_false_elim in Hrec; destruct Hrec as [Hrec ?]).
    unfold on_message, handle_message.
    repeat match goal with E : type_is _ _ = false |- _ => rewrite E; clear E end.
    simpl. now destruct w.
Qed.

(** alice, bound on socket 1, sends a [typing_start] frame without payload:
    reading [message.payload.channelId] raises a [TypeError], which is
    logged; and she sends a frame of a type the server does not know. *)
Lemma frame_failures_are_contained_witness :
  let w := world Example.two_online in
  (run (handle_message 1 (Json (Some "typing_start") None)) w
   = (Err TypeError, w, [])
   /\ recognized (Some "ping") = false)
  /\ run (on_message 1 (Json (Some "typing_start") None)) w
     = (Ok tt, w, [LogError "WebSocket message error:" TypeError])
  /\ run (on_message 1 (Json (Some "ping") (Some Example.no_payload))) w
     = (Ok tt, w, []).
Proof.
  set (w := world Example.two_online).
  assert (Hrun : run (handle_message 1 (Json (Some "typing_start") None)) w
                 = (Err TypeError, w, [])) by reflexivity.
  assert (Hrec : recognized (Some "ping") = false) by reflexivity.
  destruct (frame_failures_are_contained w 1 (Json (Some "typing_start") None))
    as (_ & Hcaught & _ & _).
  destruct (frame_failures_are_contained w 1 NotJson) as (_ & _ & _ & Hunknown).
  split; [split; assumption|]. split.
  - exact (proj1 (Hcaught TypeError w [] Hrun)).
  - exact (Hunknown (Some "ping") (Some Example.no_payload) Hrec).
Defined.

(* ================================================================== *)
(** ** The [online_users] snapshot *)

Lemma client_open_with_userId h ws v ws' :
  client_open (with_userId h ws v) ws' = client_open h ws'.
Proof.
  unfold client_open, with_userId. now rewrite readyState_with_connection.
Qed.

Lemma in_announce_online_users h ws U client l :
  In (Send client (online_users l)) (announce h ws U) ->
  client = ws /\ l = JsMap.keys (clients h).
Proof.
  unfold announce. intros Hin. apply in_app_or in Hin.
  destruct Hin as [Hin|Hin].
  - destruct (client_open h ws); [|contradiction].
    destruct Hin as [[= <- <-]|[]]. auto.
  - apply in_broadcastToAll in Hin.
    destruct Hin as (u & c & _ & _ & _ & E). discriminate.
Qed.

(** C10, as the code has it.  The [online_users] frame a connection gets
    when it binds as [U] carries the keys of the registry as they are when
    the handler resumes from [await storage.getUserChannels(userId)].
    When nothing runs in between (the handler is run as a whole), that is
    the registry just after [clients.set(U, ws)], so the frame, the only
    [online_users] frame of the run, contains [U].  In general the binding
    block registers [U] and suspends; when it resumes in a hub [h'], the
    snapshot it sends is [keys (clients h')], which contains [U] exactly
    if [U] still has a registry entry then. *)
Theorem online_users_snapshot {DB} `{IStorage DB}
    (w : World DB) ws U p channels d' :
  accepts w ws U -> p_userId p = Some U ->
  client_open (hub w) ws = true ->
  storage (getUserChannels U) (verified_db w ws U) = (Ok channels, d') ->
  let out := snd (run (on_message ws (Json (Some "auth") (Some p))) w) in
  let snapshot := JsMap.keys (JsMap.set U ws (clients (hub w))) in
  (In (Send ws (online_users snapshot)) out
   /\ In U snapshot
   /\ forall client l, In (Send client (online_users l)) out ->
                       client = ws /\ l = snapshot)
  /\ forall h,
       userId (connection h ws) = Some U ->
       exists k,
         advance (auth_bind ws) h
         = (Await (getUserChannels U) k, registered h ws U,
            [Call (getUserChannels U)])
         /\ In U (JsMap.keys (clients (registered h ws U)))
         /\ forall (w' : World DB) channels' d'',
              storage (getUserChannels U) (db w') = (Ok channels', d'') ->
              userId (connection (hub w') ws) = Some U ->
              client_open (hub w') ws = true ->
              resume (Await (getUserChannels U) k) w'
              = (Ret tt, {| hub := listed (hub w') U channels'; db := d'' |},
                 Send ws (online_users (JsMap.keys (clients (hub w'))))
                 :: broadcastToAll (listed (hub w') U channels')
                      (user_online (Some U)) (Some U)).
Proof.
  intros Hacc Hp Hopen Hst out snapshot. split.
  - subst out. rewrite (run_auth_accepted p Hacc Hp), Hst. cbv zeta.
    cbn [snd].
    set (h := listed (registered (with_userId (hub w) ws (Some U)) ws U)
                U channels).
    assert (Hkeys : JsMap.keys (clients h) = snapshot) by reflexivity.
    assert (Ho : client_open h ws = true).
    { change (client_open h ws)
        with (client_open (with_userId (hub w) ws (Some U)) ws).
      now rewrite client_open_with_userId. }
    split; [|split].
    + apply in_or_app. right. right. unfold announce.
      rewrite Ho, Hkeys. now left.
    + subst snapshot. apply JsMapFacts.keys_set_in. now left.
    + intros client l Hin. apply in_app_or in Hin.
      destruct Hin as [Hin|[E|Hin]].
      * unfold verification in Hin.
        destruct (truthy _); [contradiction|].
        destruct Hin as [E|[]]. discriminate.
      * discriminate.
      * rewrite <- Hkeys. eapply in_announce_online_users; eauto.
  - intros h HU. destruct Hacc as [HUne _].
    unfold auth_bind. simpl. rewrite HU, (truthy_Some HUne). simpl.
    eexists. split; [reflexivity|]. split.
    + apply JsMapFacts.keys_set_in. now left.
    + intros w' channels' d'' Hst' HU' Hopen'. simpl.
      rewrite Hst'. simpl. rewrite HU'. simpl.
      autorewrite with hub. rewrite HU'. simpl.
      change (client_open (with_userChannels (hub w') ?m) ws)
        with (client_open (hub w') ws).
      rewrite Hopen'. simpl. rewrite app_nil_r. reflexivity.
Qed.

(** bob logs in while alice is online: his snapshot lists alice and
    himself. *)
Lemma online_users_snapshot_witness :
  let w := world (exec (initial Example.db0)
                    (Example.login 1 "alice" ++ [OnConnection 2 (Some "bob")])) in
  (accepts w 2 "bob" /\ client_open (hub w) 2 = true)
  /\ In (Send 2 (online_users ["alice"; "bob"]))
       (snd (run (on_message 2 (Example.auth "bob")) w)).
Proof.
  set (w := world (exec (initial Example.db0)
                     (Example.login 1 "alice" ++ [OnConnection 2 (Some "bob")]))).
  set (p := {| p_userId := Some "bob"; p_channelId := None;
               p_content := None; p_replyToId := None;
               p_messageId := None; p_emoji := None |}).
  assert (Hacc : accepts w 2 "bob") by (split; [discriminate | reflexivity]).
  assert (Hopen : client_open (hub w) 2 = true) by reflexivity.
  assert (Hst : storage (getUserChannels "bob") (verified_db w 2 "bob")
                = (Ok (Db.getUserChannels Example.db0 "bob"), Example.db0))
    by reflexivity.
  destruct (online_users_snapshot p Hacc eq_refl Hopen Hst) as ((Hin & _) & _).
  split; [split; assumption|]. exact Hin.
Defined.

(** C10 as stated fails.  alice is online on socket 1, with bob; her
    browser opens socket 4 and authenticates; while that handler awaits
    [getUserChannels], socket 1 closes and its teardown deletes the
    registry entry of alice; the handler resumes and sends socket 4 a
    snapshot that lists bob only. *)
Lemma online_users_snapshot_counterexample :
  let s := exec (initial Example.db0)
             (Example.login 1 "alice" ++ Example.login 2 "bob"
              ++ [OnConnection 4 (Some "alice");
                  OnMessage 4 (Example.auth "alice");
                  OnClose 1;
                  Settle 0]) in
  userId (connection (hub (world s)) 4) = Some "alice"
  /\ JsMap.get 4 (wsUserMap (hub (world s))) = Some "alice"
  /\ trace s
     = [Call (getUserChannels "alice"); Send 1 (online_users ["alice"]);
        Call (getUserChannels "bob"); Send 2 (online_users ["alice"; "bob"]);
        Send 1 (user_online (Some "bob"));
        Call (getUserChannels "alice");
        Send 2 (user_offline "alice");
        Send 4 (online_users ["bob"]);
        Send 2 (user_online (Some "alice"))]
  /\ (forall l, In (Send 4 (online_users l)) (trace s) -> ~ In "alice" l).
Proof.
  cbv zeta.
  set (s := exec (initial Example.db0) _).
  assert (Ht : trace s
               = [Call (getUserChannels "alice");
                  Send 1 (online_users ["alice"]);
                  Call (getUserChannels "bob");
                  Send 2 (online_users ["alice"; "bob"]);
                  Send 1 (user_online (Some "bob"));
                  Call (getUserChannels "alice");
                  Send 2 (user_offline "alice");
                  Send 4 (online_users ["bob"]);
                  Send 2 (user_online (Some "alice"))])
    by (vm_compute; reflexivity).
  split; [vm_compute; reflexivity|]. split; [vm_compute; reflexivity|].
  split; [exact Ht|].
  intros l Hin. rewrite Ht in Hin. simpl in Hin.
  repeat (destruct Hin as [Hin|Hin]; [try discriminate Hin|]);
    try contradiction.
  injection Hin as <-. intros [E|[]]. discriminate.
Qed.

(* ================================================================== *)
(** ** Which frames are checked against channel membership *)

Lemma unchecked_read {B} (f : Hub -> B) : unchecked (read f).
Proof. apply steps_read. constructor. Qed.

Lemma unchecked_console_error msg e : unchecked (console_error msg e).
Proof. apply steps_emit. intros h. repeat constructor. Qed.

Lemma unchecked_broadcastToChannel c message excludeUserId :
  unchecked (do_broadcastToChannel c message excludeUserId).
Proof.
  apply steps_emit. intros h. apply Forall_forall. intros e He.
  apply in_broadcast_channelUsers in He.
  destruct He as (u & client & _ & _ & _ & _ & ->). exact I.
Qed.

Lemma unchecked_await r : not_membership_check (Call r) -> unchecked (await r).
Proof. intros Hr. now apply steps_await. Qed.

#[export] Hint Resolve unchecked_read unchecked_console_error
  unchecked_broadcastToChannel unchecked_await : steps.
#[export] Hint Extern 1 (not_membership_check _) => exact I : steps.

Lemma unchecked_typing_start ws payload : unchecked (case_typing_start ws payload).
Proof. unfold case_typing_start, get_userId. repeat steps_step. Qed.

Lemma unchecked_typing_stop ws payload : unchecked (case_typing_stop ws payload).
Proof. unfold case_typing_stop, get_userId. repeat steps_step. Qed.

Lemma unchecked_remove_reaction ws payload :
  unchecked (case_remove_reaction ws payload).
Proof. unfold case_remove_reaction, get_userId. repeat steps_step. Qed.

Section Membership.
Context {DB : Type} `{IStorage DB}.

Lemma run_unchecked {A} (t : Task A) :
  unchecked t -> forall w : World DB, Forall not_membership_check (snd (run t w)).
Proof.
  induction 1 as [a|e|B f k Hf Hk IH|r k Hq Hk IH]; intros w; simpl;
    try constructor.
  - specialize (Hf (hub w)). destruct (f (hub w)) as [[b h1] o1].
    specialize (IH b {| hub := h1; db := db w |}).
    destruct (run (k b) {| hub := h1; db := db w |}) as [[x w2] o2].
    simpl in *. apply Forall_app. auto.
  - destruct (storage r (db w)) as [reply db1].
    specialize (IH reply {| hub := hub w; db := db1 |}).
    destruct (run (k reply) {| hub := hub w; db := db1 |}) as [[x w2] o2].
    simpl in *. constructor; auto.
Qed.

End Membership.

(** C1, as the code has it.  A [send_message] frame of a bound connection
    is checked against channel membership: its first storage call is
    [isChannelMember], made before anything is persisted or sent, and when
    the check fails nothing else happens.  The handlers of [typing_start],
    [typing_stop] and [remove_reaction] never call [isChannelMember],
    whatever the frame holds: a typing frame is routed to the users of the
    named channel in the routing index, the sender excluded, and
    [remove_reaction] on a message that exists calls [removeReaction] and
    routes [message_reaction] to the channel of the message. *)
Theorem membership_check_per_frame_type {DB} `{IStorage DB}
    (w : World DB) ws U p :
  bound_to w ws U ->
  (forall C,
     p_channelId p = Some C -> C <> "" ->
     hd_error (snd (run (on_message ws (Json (Some "send_message") (Some p))) w))
     = Some (Call (isChannelMember C U))
     /\ forall d',
          storage (isChannelMember C U) (db w) = (Ok false, d') ->
          run (on_message ws (Json (Some "send_message") (Some p))) w
          = (Ok tt, {| hub := hub w; db := d' |}, [Call (isChannelMember C U)]))
  /\ (forall type payload,
        type = "typing_start" \/ type = "typing_stop"
        \/ type = "remove_reaction" ->
        Forall not_membership_check
          (snd (run (on_message ws (Json (Some type) payload)) w)))
  /\ (forall C user d',
        p_channelId p = Some C -> C <> "" ->
        storage (getUser (Some U)) (db w) = (Ok user, d') ->
        run (on_message ws (Json (Some "typing_start") (Some p))) w
        = (Ok tt, {| hub := hub w; db := d' |},
           Call (getUser (Some U))
           :: broadcastToChannel (hub w) (Some C)
                (typing_start (Some U) (Some C)
                   (match user with
                    | Some x => user_firstName x
                    | None => None
                    end))
                (Some U)))
  /\ (forall C,
        p_channelId p = Some C -> C <> "" ->
        run (on_message ws (Json (Some "typing_stop") (Some p))) w
        = (Ok tt, w,
           broadcastToChannel (hub w) (Some C)
             (typing_stop (Some U) (Some C)) (Some U)))
  /\ (forall mid m d1 removed d2,
        p_messageId p = Some mid -> mid <> "" ->
        storage (getMessage mid) (db w) = (Ok (Some m), d1) ->
        storage (removeReaction mid (Some U) (p_emoji p)) d1 = (Ok removed, d2) ->
        run (on_message ws (Json (Some "remove_reaction") (Some p))) w
        = (Ok tt, {| hub := hub w; db := d2 |},
           Call (getMessage mid)
           :: Call (removeReaction mid (Some U) (p_emoji p))
           :: broadcastToChannel (hub w) (Some (message_channelId m))
                (message_reaction (Some mid) (p_emoji p) (Some U) "remove")
                None)).
Proof.
  intros Hb. split; [|split; [|split; [|split]]].
  - intros C HC HCne. split.
    + destruct Hb as [HU HUne].
      unfold on_message, handle_message, case_send_message. simpl.
      rewrite HU, (truthy_Some HUne). simpl.
      rewrite HC, (truthy_Some HCne). simpl.
      destruct (storage (isChannelMember C U) (db w)) as [reply db1].
      now destruct (run _ _) as [[x w2] o2].
    + intros d' Hst. now apply run_send_message_not_member.
  - intros type payload Htype. apply run_unchecked.
    unfold on_message. apply steps_try_catch; [|auto with steps].
    destruct Htype as [-> | [-> | ->]]; simpl.
    + apply unchecked_typing_start.
    + apply unchecked_typing_stop.
    + apply unchecked_remove_reaction.
  - intros C user d' HC HCne Hst. now apply run_typing_start.
  - intros C HC HCne. now apply run_typing_stop.
  - intros mid m d1 removed d2 Hm Hmne Hget Hrem.
    now apply run_remove_reaction with (d1 := d1) (removed := removed).
Qed.

(** mallory is no member of "general": her [send_message] stops at the
    check, her [typing_stop] reaches alice and bob. *)
Lemma membership_check_per_frame_type_witness :
  let w := world Example.everyone_online in
  (bound_to w 3 "mallory"
   /\ storage (isChannelMember "general" "mallory") (db w) = (Ok false, db w))
  /\ run (on_message 3 (Json (Some "send_message")
                          (Some (Example.in_channel "general")))) w
     = (Ok tt, w, [Call (isChannelMember "general" "mallory")])
  /\ run (on_message 3 (Json (Some "typing_stop")
                          (Some (Example.in_channel "general")))) w
     = (Ok tt, w,
        [Send 1 (typing_stop (Some "mallory") (Some "general"));
         Send 2 (typing_stop (Some "mallory") (Some "general"))]).
Proof.
  set (w := world Example.everyone_online).
  assert (Hb : bound_to w 3 "mallory") by (split; [reflexivity | discriminate]).
  assert (Hst : storage (isChannelMember "general" "mallory") (db w)
                = (Ok false, db w)) by reflexivity.
  assert (HCne : "general" <> "") by discriminate.
  destruct (membership_check_per_frame_type
              (Example.in_channel "general") Hb) as (Hsend & _ & _ & Hstop & _).
  split; [split; assumption|]. split.
  - destruct (Hsend "general" eq_refl HCne) as [_ Hgate].
    rewrite (Hgate (db w) Hst). reflexivity.
  - rewrite (Hstop "general" eq_refl HCne). reflexivity.
Defined.

(** C1 as stated fails: mallory, bound on socket 3 and no member of
    "general", sends [typing_start] for that channel.  The handler makes no
    membership check and the frame goes out to alice and bob. *)
Lemma membership_check_counterexample :
  let w := world Example.everyone_online in
  let out := snd (run (on_message 3 (Json (Some "typing_start")
                                       (Some (Example.in_channel "general")))) w) in
  userId (connection (hub w) 3) = Some "mallory"
  /\ Db.isChannelMember (db w) "general" "mallory" = false
  /\ ~ In (Call (isChannelMember "general" "mallory")) out
  /\ out = [Call (getUser (Some "mallory"));
            Send 1 (typing_start (Some "mallory") (Some "general") (Some "Mal"));
            Send 2 (typing_start (Some "mallory") (Some "general") (Some "Mal"))].
Proof.
  cbv zeta. split; [reflexivity|]. split; [reflexivity|]. split.
  - vm_compute. intros [E|[E|[E|[]]]]; discriminate.
  - reflexivity.
Qed.

(** [add_reaction] makes no membership check either, unlike the route
    [POST /api/messages/:messageId/reactions]: once alice has said "hi" in
    "general", mallory, who is no member, can react to it over her socket;
    the reaction is stored and alice and bob are told. *)
Lemma add_reaction_is_not_checked :
  let w := snd (fst (run (on_message 1 (Json (Some "send_message")
                                          (Some (Example.say "general" "hi"))))
                       (world Example.everyone_online))) in
  let r := run (on_message 3 (Json (Some "add_reaction")
                                (Some (Example.react "uuid-0" "+1")))) w in
  Db.isChannelMember (db w) "general" "mallory" = false
  /\ snd r
     = [Call (getMessage "uuid-0");
        Call (addReaction {| ir_messageId := "uuid-0";
                             ir_userId := Some "mallory";
                             ir_emoji := Some "+1" |});
        Send 1 (message_reaction (Some "uuid-0") (Some "+1")
                  (Some "mallory") "add");
        Send 2 (message_reaction (Some "uuid-0") (Some "+1")
                  (Some "mallory") "add")]
  /\ map reaction_userId (Db.reactions (db (snd (fst r)))) = ["mallory"].
Proof. cbv zeta. repeat split; vm_compute; reflexivity. Qed.

(* ================================================================== *)
(** ** The ["close"] event *)

(** The handler has no guard of its own: were it run again by hand on the
    hub it has left, it would find the connection's [userId] and broadcast
    [user_offline] once more.  The event loop never does so
    ([step_OnClose_again] below). *)
Lemma on_close_has_no_guard h ws U :
  JsMap.get ws (wsUserMap h) = Some U -> U <> "" ->
  userId (connection h ws) = Some U ->
  let r1 := advance (on_close ws) h in
  let r2 := advance (on_close ws) (snd (fst r1)) in
  snd (fst r2) = snd (fst r1)
  /\ snd r1 = broadcastToAll (snd (fst r1)) (user_offline U) None
  /\ snd r2 = snd r1.
Proof.
  intros Hm HU Hu. cbv zeta.
  rewrite (advance_on_close h ws), (closingUserId_mapped _ _ Hm HU),
    (truthy_Some HU).
  cbn [fst snd].
  assert (Hc : closingUserId (torn_down h ws U) ws = Some U).
  { rewrite closingUserId_unmapped.
    - exact Hu.
    - simpl. apply JsMapFacts.get_delete_same. }
  rewrite advance_on_close, Hc, (truthy_Some HU). cbn [fst snd].
  rewrite torn_down_twice. auto.
Qed.

Lemma on_close_returns h ws : fst (fst (advance (on_close ws) h)) = Ret tt.
Proof.
  rewrite advance_on_close.
  destruct (closingUserId h ws) as [u|]; [|reflexivity].
  now destruct (truthy (Some u)).
Qed.

Lemma connections_on_close h ws :
  connections (snd (fst (advance (on_close ws) h))) = connections h.
Proof.
  rewrite advance_on_close.
  destruct (closingUserId h ws) as [u|]; [|reflexivity].
  now destruct (truthy (Some u)).
Qed.

Lemma advance_on_close_unbound h ws :
  JsMap.get ws (wsUserMap h) = None ->
  truthy (userId (connection h ws)) = false ->
  advance (on_close ws) h = (Ret tt, h, []).
Proof.
  intros Hm Hu.
  rewrite advance_on_close, closingUserId_unmapped by assumption.
  destruct (userId (connection h ws)) as [u|]; [|reflexivity].
  now rewrite Hu.
Qed.

Lemma connection_closed h ws :
  connection (with_readyState h ws CLOSED) ws
  = {| readyState := CLOSED;
       authenticatedUserId := authenticatedUserId (connection h ws);
       userId := userId (connection h ws) |}.
Proof. unfold with_readyState. apply connection_with_connection_same. Qed.

(** One frame for each registry entry whose socket is open. *)
Lemma count_user_offline_broadcastToAll h U :
  count_user_offline (broadcastToAll h (user_offline U) None)
  = length (filter (fun e => client_open h (snd e)) (JsMap.entries (clients h))).
Proof.
  unfold count_user_offline, broadcastToAll, JsMap.entries.
  induction (clients h) as [|[u client] m IH]; [reflexivity|].
  cbn [flat_map]. rewrite filter_app, length_app, IH.
  cbn [excluded filter snd]. now destruct (client_open h client).
Qed.

Section CloseEvent.
Context {DB : Type} `{IStorage DB}.

(** The ["close"] event of a socket the server holds and that is not yet
    [CLOSED]: the socket is [CLOSED] when the handler runs. *)
Lemma step_OnClose (s : System DB) ws :
  JsMap.has ws (connections (hub (world s))) = true ->
  readyState (connection (hub (world s)) ws) <> CLOSED ->
  let r := advance (on_close ws) (with_readyState (hub (world s)) ws CLOSED) in
  step s (OnClose ws)
  = {| world := {| hub := snd (fst r); db := db (world s) |};
       pending := pending s;
       trace := trace s ++ snd r |}.
Proof.
  intros Hhas Hrs. cbv zeta. unfold step. rewrite Hhas.
  destruct (readyState (connection (hub (world s)) ws)); try congruence;
    simpl; now destruct (advance _ _) as [[t h] o].
Qed.

(** [ws] emits ["close"] once: on a socket that is [CLOSED] already, as
    after its ["close"] event, the handler is not run again. *)
Lemma step_OnClose_again (s : System DB) ws :
  step (step s (OnClose ws)) (OnClose ws) = step s (OnClose ws).
Proof.
  destruct (JsMap.has ws (connections (hub (world s)))) eqn:Hhas.
  - destruct (readyState (connection (hub (world s)) ws)) eqn:Hrs;
      try (rewrite (@step_OnClose s ws Hhas) by congruence; cbv zeta;
           set (r := advance _ _);
           unfold step at 1; cbn [world hub];
           assert (Hc : readyState (connection (snd (fst r)) ws) = CLOSED)
             by (unfold connection; subst r; rewrite connections_on_close;
                 fold (connection (with_readyState (hub (world s)) ws CLOSED) ws);
                 now rewrite connection_closed);
           rewrite Hc, andb_false_r; reflexivity).
    assert (E : step s (OnClose ws) = s)
      by (unfold step; now rewrite Hhas, Hrs).
    now rewrite !E.
  - assert (E : step s (OnClose ws) = s) by (unfold step; now rewrite Hhas).
    now rewrite !E.
Qed.

Lemma step_OnClose_bound (s : System DB) ws U :
  JsMap.has ws (connections (hub (world s))) = true ->
  readyState (connection (hub (world s)) ws) <> CLOSED ->
  JsMap.get ws (wsUserMap (hub (world s))) = Some U -> U <> "" ->
  let h' := torn_down (with_readyState (hub (world s)) ws CLOSED) ws U in
  step s (OnClose ws)
  = {| world := {| hub := h'; db := db (world s) |};
       pending := pending s;
       trace := trace s ++ broadcastToAll h' (user_offline U) None |}.
Proof.
  intros Hhas Hrs Hm HU. cbv zeta.
  rewrite (@step_OnClose s ws Hhas Hrs). cbv zeta.
  assert (Hm' : JsMap.get ws (wsUserMap (with_readyState (hub (world s)) ws CLOSED))
                = Some U) by exact Hm.
  rewrite advance_on_close, (closingUserId_mapped _ _ Hm' HU), (truthy_Some HU).
  reflexivity.
Qed.

Lemma step_OnClose_unbound (s : System DB) ws :
  JsMap.get ws (wsUserMap (hub (world s))) = None ->
  truthy (userId (connection (hub (world s)) ws)) = false ->
  let s1 := step s (OnClose ws) in
  trace s1 = trace s
  /\ clients (hub (world s1)) = clients (hub (world s))
  /\ userChannels (hub (world s1)) = userChannels (hub (world s))
  /\ wsUserMap (hub (world s1)) = wsUserMap (hub (world s)).
Proof.
  intros Hm Hu. cbv zeta.
  destruct (JsMap.has ws (connections (hub (world s)))) eqn:Hhas.
  - destruct (readyState (connection (hub (world s)) ws)) eqn:Hrs;
      try (rewrite (@step_OnClose s ws Hhas) by congruence; cbv zeta;
           rewrite advance_on_close_unbound;
           [ cbn [fst snd world hub trace]; rewrite app_nil_r; auto
           | exact Hm
           | rewrite connection_closed; exact Hu ]).
    assert (E : step s (OnClose ws) = s)
      by (unfold step; now rewrite Hhas, Hrs).
    rewrite E. auto.
  - assert (E : step s (OnClose ws) = s) by (unfold step; now rewrite Hhas).
    rewrite E. auto.
Qed.

(** An ["auth"] frame whose [userId] is not the one of the session: the
    socket is told to close and starts closing. *)
Lemma step_auth_mismatch (s : System DB) ws S p :
  JsMap.has ws (connections (hub (world s))) = true ->
  readyState (connection (hub (world s)) ws) = OPEN ->
  authenticatedUserId (connection (hub (world s)) ws) = Some S -> S <> "" ->
  p_userId p <> Some S ->
  step s (OnMessage ws (Json (Some "auth") (Some p)))
  = {| world := {| hub := with_readyState (hub (world s)) ws CLOSING;
                   db := db (world s) |};
       pending := pending s;
       trace := trace s
                ++ [Warn "WebSocket auth mismatch: client sent different userId than session";
                    Close ws 4001 "Authentication mismatch"] |}.
Proof.
  intros Hhas Hopen Hs HS Hp.
  unfold step. rewrite Hhas.
  unfold on_message, handle_message, case_auth. simpl.
  rewrite Hs, (truthy_Some HS), (strict_eq_false Hp). simpl.
  rewrite Hopen. reflexivity.
Qed.

End CloseEvent.

(** C2.  The disconnect path runs once for a connection.  The ["close"]
    handler is run by the ["close"] event, which [ws] emits once per
    socket: a further ["close"] event for the same connection finds the
    socket [CLOSED] and changes nothing, and [ws.close] after a failed
    authentication does not run the handler, it only makes the ["close"]
    event follow.  So the ["close"] events of a connection bound to [U],
    whether or not an authentication failure has closed the socket first,
    add exactly one [user_offline U] broadcast to the trace (one frame for
    each remaining registry entry whose socket is open); those of a
    connection that never bound add no frame and leave the three maps as
    they are; and the handler returns without an exception in every
    hub. *)
Theorem close_event_tears_down_once {DB} `{IStorage DB} (s : System DB) ws :
  let h := hub (world s) in
  let s1 := step s (OnClose ws) in
  let s2 := step s1 (OnClose ws) in
  let h' := hub (world s2) in
  s2 = s1
  /\ (forall h0, fst (fst (advance (on_close ws) h0)) = Ret tt)
  /\ (forall U,
        JsMap.has ws (connections h) = true ->
        readyState (connection h ws) <> CLOSED ->
        JsMap.get ws (wsUserMap h) = Some U -> U <> "" ->
        trace s2 = trace s ++ broadcastToAll h' (user_offline U) None
        /\ count_user_offline (broadcastToAll h' (user_offline U) None)
           = length (filter (fun e => client_open h' (snd e))
                       (JsMap.entries (clients h')))
        /\ clients h' = JsMap.delete U (clients h)
        /\ userChannels h' = JsMap.delete U (userChannels h)
        /\ wsUserMap h' = JsMap.delete ws (wsUserMap h))
  /\ (JsMap.get ws (wsUserMap h) = None ->
      truthy (userId (connection h ws)) = false ->
      trace s2 = trace s
      /\ clients h' = clients h
      /\ userChannels h' = userChannels h
      /\ wsUserMap h' = wsUserMap h)
  /\ (forall S p,
        JsMap.has ws (connections h) = true ->
        readyState (connection h ws) = OPEN ->
        authenticatedUserId (connection h ws) = Some S -> S <> "" ->
        p_userId p <> Some S ->
        let failed := step s (OnMessage ws (Json (Some "auth") (Some p))) in
        let closed := exec failed [OnClose ws; OnClose ws] in
        trace failed
        = trace s
          ++ [Warn "WebSocket auth mismatch: client sent different userId than session";
              Close ws 4001 "Authentication mismatch"]
        /\ (forall U,
              JsMap.get ws (wsUserMap h) = Some U -> U <> "" ->
              trace closed
              = trace failed
                ++ broadcastToAll (hub (world closed)) (user_offline U) None)
        /\ (JsMap.get ws (wsUserMap h) = None ->
            truthy (userId (connection h ws)) = false ->
            trace closed = trace failed)).
Proof.
  cbv zeta. rewrite step_OnClose_again.
  split; [reflexivity|]. split; [intros h0; apply on_close_returns|].
  split; [|split].
  - intros U Hhas Hrs Hm HU.
    rewrite (step_OnClose_bound s ws Hhas Hrs Hm HU). cbv zeta.
    cbn [world hub trace].
    split; [reflexivity|]. split; [apply count_user_offline_broadcastToAll|].
    auto.
  - intros Hm Hu. now apply step_OnClose_unbound.
  - intros S p Hhas Hopen Hs HS Hp.
    rewrite (step_auth_mismatch s ws p Hhas Hopen Hs HS Hp).
    set (failed := {| world := _; pending := _; trace := _ |}).
    unfold exec. cbn [fold_left]. rewrite step_OnClose_again.
    split; [reflexivity|]. split.
    + intros U Hm HU.
      assert (Hhas' : JsMap.has ws (connections (hub (world failed))) = true).
      { unfold JsMap.has. fold (connection (hub (world failed)) ws).
        subst failed. cbn [world hub]. unfold with_readyState, with_connection.
        cbn [connections]. now rewrite JsMapFacts.get_set_same. }
      assert (Hrs' : readyState (connection (hub (world failed)) ws) <> CLOSED).
      { subst failed. cbn [world hub]. unfold with_readyState.
        rewrite connection_with_connection_same. discriminate. }
      rewrite (step_OnClose_bound failed ws Hhas' Hrs' Hm HU). reflexivity.
    + intros Hm Hu.
      apply (step_OnClose_unbound failed ws Hm).
      subst failed. cbn [world hub]. unfold with_readyState.
      rewrite connection_with_connection_same. exact Hu.
Qed.

(** alice is online on socket 1, which carries her session, and bob on
    socket 2.  Socket 1 sends ["auth"] for mallory: the server closes it
    with 4001.  Its ["close"] event then tells bob once that alice went
    offline, and a further ["close"] event adds nothing.  Socket 3 carries
    mallory's session and fails the same way before it has bound: its
    ["close"] announces nothing.  Socket 4 has no session; bound as alice,
    it sends ["auth"] for a user that does not exist and is closed with
    4002: again bob is told once. *)
Lemma close_event_tears_down_once_witness :
  let mismatch := "WebSocket auth mismatch: client sent different userId than session" in
  let claims u := {| p_userId := Some u; p_channelId := None;
                     p_content := None; p_replyToId := None;
                     p_messageId := None; p_emoji := None |} in
  let s := Example.two_online in
  let failed := step s (OnMessage 1 (Json (Some "auth") (Some (claims "mallory")))) in
  let closed := exec failed [OnClose 1; OnClose 1] in
  let s3 := step s (OnConnection 3 (Some "mallory")) in
  let failed3 := step s3 (OnMessage 3 (Json (Some "auth") (Some (claims "alice")))) in
  let closed3 := exec failed3 [OnClose 3; OnClose 3] in
  let s4 := exec (initial Example.db0)
              (Example.login 2 "bob"
               ++ [OnConnection 4 None; OnMessage 4 (Example.auth "alice");
                   Settle 0; Settle 0]) in
  let failed4 := exec s4 [OnMessage 4 (Example.auth "nobody"); Settle 0] in
  let closed4 := step (step failed4 (OnClose 4)) (OnClose 4) in
  (JsMap.get 1 (wsUserMap (hub (world s))) = Some "alice"
   /\ authenticatedUserId (connection (hub (world s)) 1) = Some "alice"
   /\ JsMap.get 3 (wsUserMap (hub (world s3))) = None
   /\ userId (connection (hub (world s3)) 3) = None
   /\ JsMap.get 4 (wsUserMap (hub (world failed4))) = Some "alice")
  /\ trace closed
     = trace s ++ [Warn mismatch; Close 1 4001 "Authentication mismatch";
                   Send 2 (user_offline "alice")]
  /\ trace closed3
     = trace s3 ++ [Warn mismatch; Close 3 4001 "Authentication mismatch"]
  /\ trace closed4
     = trace s4 ++ [Call (getUser (Some "nobody"));
                    Warn "WebSocket auth failed: user not found";
                    Close 4 4002 "User not found";
                    Send 2 (user_offline "alice")].
Proof.
  intros mismatch claims s failed closed s3 failed3 closed3 s4 failed4 closed4.
  assert (Hm4 : JsMap.get 4 (wsUserMap (hub (world failed4))) = Some "alice")
    by (vm_compute; reflexivity).
  assert (Hm : JsMap.get 1 (wsUserMap (hub (world s))) = Some "alice")
    by (vm_compute; reflexivity).
  assert (Hs : authenticatedUserId (connection (hub (world s)) 1) = Some "alice")
    by (vm_compute; reflexivity).
  assert (Hm3 : JsMap.get 3 (wsUserMap (hub (world s3))) = None)
    by (vm_compute; reflexivity).
  assert (Hu3 : userId (connection (hub (world s3)) 3) = None)
    by (vm_compute; reflexivity).
  split; [repeat split; assumption|]. split; [|split].
  - destruct (close_event_tears_down_once s 1) as (_ & _ & _ & _ & Hsc).
    assert (Hhas : JsMap.has 1 (connections (hub (world s))) = true)
      by (vm_compute; reflexivity).
    assert (Hopen : readyState (connection (hub (world s)) 1) = OPEN)
      by (vm_compute; reflexivity).
    assert (HS : "alice" <> "") by discriminate.
    assert (Hp : p_userId (claims "mallory") <> Some "alice") by discriminate.
    destruct (Hsc "alice" (claims "mallory") Hhas Hopen Hs HS Hp)
      as (Hf & Hb & _).
    fold failed in Hf, Hb. fold closed in Hb.
    rewrite (Hb "alice" Hm), Hf by discriminate.
    vm_compute. reflexivity.
  - destruct (close_event_tears_down_once s3 3) as (_ & _ & _ & _ & Hsc).
    assert (Hhas : JsMap.has 3 (connections (hub (world s3))) = true)
      by (vm_compute; reflexivity).
    assert (Hopen : readyState (connection (hub (world s3)) 3) = OPEN)
      by (vm_compute; reflexivity).
    assert (Hs3 : authenticatedUserId (connection (hub (world s3)) 3)
                  = Some "mallory") by (vm_compute; reflexivity).
    assert (HS : "mallory" <> "") by discriminate.
    assert (Hp : p_userId (claims "alice") <> Some "mallory") by discriminate.
    destruct (Hsc "mallory" (claims "alice") Hhas Hopen Hs3 HS Hp)
      as (Hf & _ & Hn).
    fold failed3 in Hf, Hn. fold closed3 in Hn.
    rewrite Hn, Hf; [reflexivity | exact Hm3 | now rewrite Hu3].
  - destruct (close_event_tears_down_once failed4 4) as (_ & _ & Hb & _).
    assert (Hhas : JsMap.has 4 (connections (hub (world failed4))) = true)
      by (vm_compute; reflexivity).
    assert (Hrs : readyState (connection (hub (world failed4)) 4) <> CLOSED)
      by (vm_compute; discriminate).
    assert (HU : "alice" <> "") by discriminate.
    destruct (Hb "alice" Hhas Hrs Hm4 HU) as (Ht & _).
    fold closed4 in Ht. rewrite Ht.
    vm_compute. reflexivity.
Defined.

(* ================================================================== *)
(** * Further properties of the socket handlers *)

(** ** Frames that are ignored *)

Lemma world_eta {DB} (w : World DB) : {| hub := hub w; db := db w |} = w.
Proof. now destruct w. Qed.

(** X1.  Until a connection has authenticated, the server ignores whatever
    else it sends: a frame whose [type] is not ["auth"] calls no storage
    method, sends nothing, logs nothing and leaves the hub and the database
    as they are, whatever its payload (the payload is not even read). *)
Theorem frames_before_auth_are_ignored {DB} `{IStorage DB}
    (w : World DB) ws type payload :
  truthy (userId (connection (hub w) ws)) = false ->
  type_is type "auth" = false ->
  run (on_message ws (Json type payload)) w = (Ok tt, w, []).
Proof.
  intros Hu Hauth. unfold on_message, handle_message. rewrite Hauth.
  repeat match goal with
         | |- context [if type_is type ?tag then _ else _] =>
             destruct (type_is type tag)
         end;
    unfold case_typing_start, case_typing_stop, case_send_message,
      case_add_reaction, case_remove_reaction; simpl;
    try (destruct (userId (connection (hub w) ws)) as [u|] eqn:Eu);
    try rewrite Hu; simpl; now rewrite ?world_eta.
Qed.

(** A socket that connected without a session and has not sent ["auth"]
    tries to post into "general". *)
Lemma frames_before_auth_are_ignored_witness :
  let w := world (exec (initial Example.db0) [OnConnection 5 None]) in
  run (on_message 5 (Json (Some "send_message")
                       (Some (Example.say "general" "hi")))) w
  = (Ok tt, w, []).
Proof.
  cbv zeta. apply frames_before_auth_are_ignored; reflexivity.
Defined.

(** X2.  A frame other than ["auth"] whose payload names neither a channel
    nor a message (the fields are absent or empty) does nothing at all,
    bound connection or not. *)
Theorem frames_without_target_are_ignored {DB} `{IStorage DB}
    (w : World DB) ws type p :
  truthy (p_channelId p) = false ->
  truthy (p_messageId p) = false ->
  type_is type "auth" = false ->
  run (on_message ws (Json type (Some p))) w = (Ok tt, w, []).
Proof.
  intros Hc Hm Hauth. unfold on_message, handle_message. rewrite Hauth.
  repeat match goal with
         | |- context [if type_is type ?tag then _ else _] =>
             destruct (type_is type tag)
         end;
    unfold case_typing_start, case_typing_stop, case_send_message,
      case_add_reaction, case_remove_reaction; simpl;
    destruct (userId (connection (hub w) ws)) as [u|] eqn:Eu; simpl;
    try destruct (truthy (Some u)); simpl;
    try (destruct (p_channelId p) as [c|] eqn:Ec);
    try (destruct (p_messageId p) as [m|] eqn:Em);
    try rewrite Hc; try rewrite Hm; simpl; now rewrite ?world_eta.
Qed.

(** alice, bound on socket 1, sends [send_message] with an empty
    [channelId]. *)
Lemma frames_without_target_are_ignored_witness :
  let w := world Example.two_online in
  run (on_message 1 (Json (Some "send_message")
                       (Some (Example.say "" "hi")))) w
  = (Ok tt, w, []).
Proof.
  cbv zeta. apply frames_without_target_are_ignored; reflexivity.
Defined.

(** X3.  A reaction frame that names a message the storage layer does not
    know stops after the lookup: [addReaction] or [removeReaction] is not
    called, nothing is sent and the hub is unchanged. *)
Theorem reaction_to_unknown_message_is_dropped {DB} `{IStorage DB}
    (w : World DB) ws U mid p d' tag :
  bound_to w ws U -> p_messageId p = Some mid -> mid <> "" ->
  tag = "add_reaction" \/ tag = "remove_reaction" ->
  storage (getMessage mid) (db w) = (Ok None, d') ->
  run (on_message ws (Json (Some tag) (Some p))) w
  = (Ok tt, {| hub := hub w; db := d' |}, [Call (getMessage mid)]).
Proof.
  intros [HU HUne] Hm Hmne Htag Hst.
  destruct Htag as [-> | ->];
    unfold on_message, handle_message, case_add_reaction,
      case_remove_reaction; simpl;
    rewrite HU, (truthy_Some HUne); simpl;
    rewrite Hm, (truthy_Some Hmne); simpl;
    rewrite Hst; reflexivity.
Qed.

(** mallory reacts to a message id that was never handed out. *)
Lemma reaction_to_unknown_message_is_dropped_witness :
  let w := world Example.everyone_online in
  run (on_message 3 (Json (Some "add_reaction")
                       (Some (Example.react "no-such-message" "+1")))) w
  = (Ok tt, w, [Call (getMessage "no-such-message")]).
Proof.
  cbv zeta.
  rewrite (@reaction_to_unknown_message_is_dropped _ _
             (world Example.everyone_online) 3 "mallory" "no-such-message"
             (Example.react "no-such-message" "+1")
             (db (world Example.everyone_online)) "add_reaction").
  - now rewrite world_eta.
  - split; [reflexivity | discriminate].
  - reflexivity.
  - discriminate.
  - now left.
  - reflexivity.
Defined.


(* ================================================================== *)
(** ** Presence announcements *)

Lemma in_set_other {K V} `{Key K} (k k' : K) (v v' : V) (m : JsMap.t K V) :
  k' <> k -> In (k', v') (JsMap.set k v m) <-> In (k', v') m.
Proof.
  intros Hne. induction m as [|[k0 v0] m IH]; simpl.
  - split; [intros [[= -> ->]|[]]; contradiction | contradiction].
  - destruct (keqb_spec k k0) as [->|Hk]; simpl.
    + split; (intros [[= -> ->]|Hin]; [contradiction | now right]).
    + rewrite IH. reflexivity.
Qed.

Lemma client_open_bound h ws U channels client :
  client_open (listed (registered (with_userId h ws (Some U)) ws U) U channels)
    client
  = client_open h client.
Proof.
  unfold client_open. autorewrite with hub.
  fold (client_open (with_userId h ws (Some U)) client).
  fold (client_open h client). apply client_open_with_userId.
Qed.

(** Who gets [user_online] from the last two statements of the binding
    block. *)
Lemma in_user_online h h0 ws l v client :
  clients h0 = clients h ->
  (forall c, client_open h0 c = client_open h c) ->
  In (Send client (user_online v))
     ((if client_open h0 ws then [Send ws (online_users l)] else [])
      ++ broadcastToAll h0 (user_online v) v ++ [])
  <-> exists u,
        excluded u v = false
        /\ In (u, client) (JsMap.entries (clients h))
        /\ client_open h client = true.
Proof.
  intros Hc Ho. rewrite app_nil_r, in_app_iff, in_broadcastToAll.
  unfold JsMap.entries. rewrite Hc. split.
  - intros [Hin|(u & c & Hin & Ex & Hopen & [= ->])].
    + destruct (client_open h0 ws); [|contradiction].
      destruct Hin as [E|[]]. discriminate.
    + rewrite Ho in Hopen. eauto.
  - intros (u & Ex & Hin & Hopen). right. exists u, client.
    rewrite Ho. auto.
Qed.

(** X4.  When the server accepts an ["auth"] frame for [U], the binding
    block registers [U] and awaits the channel list.  [user_online] is
    sent when the handler resumes, over the registry as it is at that
    moment: it goes to the open socket of every registry entry of a user
    other than the connection's [userId], and to no other socket.  When no
    other handler runs during the [await] (the handler is run as a whole),
    these are the entries the registry held for other users before the
    frame; the entry of [U] itself, just written, is skipped. *)
Theorem user_online_reaches_the_others {DB} `{IStorage DB}
    (w : World DB) ws U p channels d' :
  accepts w ws U -> p_userId p = Some U ->
  storage (getUserChannels U) (verified_db w ws U) = (Ok channels, d') ->
  (forall client,
     In (Send client (user_online (Some U)))
        (snd (run (on_message ws (Json (Some "auth") (Some p))) w))
     <-> exists u,
           u <> U
           /\ In (u, client) (JsMap.entries (clients (hub w)))
           /\ client_open (hub w) client = true)
  /\ forall h,
       userId (connection h ws) = Some U ->
       exists k,
         advance (auth_bind ws) h
         = (Await (getUserChannels U) k, registered h ws U,
            [Call (getUserChannels U)])
         /\ forall (w' : World DB) channels' d'' v client,
              storage (getUserChannels U) (db w') = (Ok channels', d'') ->
              v = userId (connection (hub w') ws) ->
              In (Send client (user_online v))
                 (snd (resume (Await (getUserChannels U) k) w'))
              <-> exists u,
                    excluded u v = false
                    /\ In (u, client) (JsMap.entries (clients (hub w')))
                    /\ client_open (hub w') client = true.
Proof.
  intros Hacc Hp Hst. split.
  { intros client.
  rewrite (run_auth_accepted p Hacc Hp). cbv zeta. rewrite Hst. cbn [snd].
  set (h := listed (registered (with_userId (hub w) ws (Some U)) ws U) U
              channels).
  assert (Hclients : clients h = JsMap.set U ws (clients (hub w)))
    by reflexivity.
  split.
  - intros Hin. apply in_app_or in Hin. destruct Hin as [Hin|Hin].
    { unfold verification in Hin.
      destruct (truthy _); [contradiction|].
      destruct Hin as [E|[]]. discriminate. }
    destruct Hin as [E|Hin]; [discriminate|].
    unfold announce in Hin. apply in_app_or in Hin.
    destruct Hin as [Hin|Hin].
    { destruct (client_open h ws); [|contradiction].
      destruct Hin as [E|[]]. discriminate. }
    apply in_broadcastToAll in Hin.
    destruct Hin as (u & c & Hin & Ex & Ho & [= ->]).
    apply excluded_Some_false in Ex.
    exists u. split; auto. split.
    + unfold JsMap.entries in *. rewrite Hclients in Hin.
      now apply in_set_other in Hin.
    + subst h. now rewrite client_open_bound in Ho.
  - intros (u & Hne & Hin & Ho).
    apply in_or_app. right. right. unfold announce. apply in_or_app. right.
    apply in_broadcastToAll. exists u, client. repeat split.
    + unfold JsMap.entries in *. rewrite Hclients.
      now apply in_set_other.
    + now apply excluded_Some_false.
    + subst h. now rewrite client_open_bound. }
  intros h HU. destruct Hacc as [HUne _].
  unfold auth_bind. simpl. rewrite HU, (truthy_Some HUne). simpl.
  eexists. split; [reflexivity|].
  intros w' channels' d'' v client Hst' Hv. simpl.
  rewrite Hst'. simpl. rewrite <- Hv.
  destruct v as [v0|]; simpl; autorewrite with hub; rewrite <- Hv; simpl;
    apply in_user_online with (h := hub w'); reflexivity.
Qed.

(** alice and bob are online when mallory's socket 3 authenticates: the
    sockets of alice and bob get [user_online], socket 3 does not.  If
    alice's browser opens socket 5 and authenticates while mallory's
    handler awaits the channel list, the handler finds alice's entry on
    socket 5 when it resumes: mallory's [user_online] goes to sockets 5
    and 2. *)
Lemma user_online_reaches_the_others_witness :
  let w := world (exec Example.two_online [OnConnection 3 (Some "mallory")]) in
  let p := {| p_userId := Some "mallory"; p_channelId := None;
              p_content := None; p_replyToId := None;
              p_messageId := None; p_emoji := None |} in
  let o := snd (run (on_message 3 (Json (Some "auth") (Some p))) w) in
  let interleaved :=
    exec Example.two_online
      [OnConnection 3 (Some "mallory"); OnMessage 3 (Example.auth "mallory");
       OnConnection 5 (Some "alice"); OnMessage 5 (Example.auth "alice");
       Settle 1; Settle 0] in
  (In (Send 1 (user_online (Some "mallory"))) o
   /\ In (Send 2 (user_online (Some "mallory"))) o
   /\ ~ In (Send 3 (user_online (Some "mallory"))) o)
  /\ trace interleaved
     = trace Example.two_online
       ++ [Call (getUserChannels "mallory");
           Call (getUserChannels "alice");
           Send 5 (online_users ["alice"; "bob"; "mallory"]);
           Send 2 (user_online (Some "alice"));
           Send 3 (user_online (Some "alice"));
           Send 3 (online_users ["alice"; "bob"; "mallory"]);
           Send 5 (user_online (Some "mallory"));
           Send 2 (user_online (Some "mallory"))].
Proof.
  intros w p o interleaved.
  assert (Hacc : accepts w 3 "mallory")
    by (split; [discriminate | vm_compute; reflexivity]).
  assert (Hst : storage (getUserChannels "mallory") (verified_db w 3 "mallory")
                = (Ok [], db w))
    by (vm_compute; reflexivity).
  assert (Hclients : JsMap.entries (clients (hub w))
                     = [("alice", 1); ("bob", 2)])
    by (vm_compute; reflexivity).
  pose proof (proj1 (@user_online_reaches_the_others _ _ w 3 "mallory" p
                       [] (db w) Hacc eq_refl Hst)) as Hiff.
  fold o in Hiff. rewrite Hclients in Hiff.
  split; [split; [|split]|].
  - apply (proj2 (Hiff 1)). exists "alice".
    split; [discriminate|]. split; [now left | vm_compute; reflexivity].
  - apply (proj2 (Hiff 2)). exists "bob".
    split; [discriminate|].
    split; [right; now left | vm_compute; reflexivity].
  - intros Hin. destruct (proj1 (Hiff 3) Hin) as (u & _ & Hu & _).
    destruct Hu as [E|[E|[]]]; discriminate.
  - vm_compute. reflexivity.
Defined.

(** X5.  When the channel list fails to load after the identity has been
    accepted, the error is logged and the socket stays open, but the
    connection is left half bound: the registry and the socket map already
    hold it, while its entry in the routing index has not been written, the
    [online_users] snapshot has not been sent and nobody has been told that
    [U] is online. *)
Theorem failed_channel_load_leaves_a_silent_binding {DB} `{IStorage DB}
    (w : World DB) ws U p e d' :
  accepts w ws U -> p_userId p = Some U ->
  storage (getUserChannels U) (verified_db w ws U) = (Err e, d') ->
  let r := run (on_message ws (Json (Some "auth") (Some p))) w in
  let h' := hub (snd (fst r)) in
  fst (fst r) = Ok tt
  /\ JsMap.get U (clients h') = Some ws
  /\ JsMap.get ws (wsUserMap h') = Some U
  /\ userId (connection h' ws) = Some U
  /\ readyState (connection h' ws) = readyState (connection (hub w) ws)
  /\ userChannels h' = userChannels (hub w)
  /\ deliveries (snd r) = []
  /\ In (LogError "WebSocket message error:" e) (snd r).
Proof.
  intros Hacc Hp Hst. cbv zeta.
  rewrite (run_auth_accepted p Hacc Hp). cbv zeta. rewrite Hst.
  cbn [fst snd hub].
  repeat split.
  - apply JsMapFacts.get_set_same.
  - apply JsMapFacts.get_set_same.
  - now autorewrite with hub.
  - now autorewrite with hub.
  - unfold verification. destruct (truthy _); reflexivity.
  - apply in_or_app. right. right. now left.
Qed.

(** The database is down when a socket with alice's session sends
    ["auth"]. *)
Lemma failed_channel_load_leaves_a_silent_binding_witness :
  let w : World unit :=
    {| hub := with_connection empty_hub 1
                {| readyState := OPEN; authenticatedUserId := Some "alice";
                   userId := None |};
       db := tt |} in
  let r := @run unit unavailable unit (on_message 1 (Example.auth "alice")) w in
  JsMap.get "alice" (clients (hub (snd (fst r)))) = Some 1
  /\ userChannels (hub (snd (fst r))) = []
  /\ deliveries (snd r) = [].
Proof.
  cbv zeta.
  set (w := {| hub := with_connection empty_hub 1
                        {| readyState := OPEN;
                           authenticatedUserId := Some "alice";
                           userId := None |};
               db := tt |}).
  assert (Hacc : @accepts unit unavailable w 1 "alice")
    by (split; [discriminate | reflexivity]).
  pose proof (@failed_channel_load_leaves_a_silent_binding unit unavailable
                w 1 "alice"
                {| p_userId := Some "alice"; p_channelId := None;
                   p_content := None; p_replyToId := None;
                   p_messageId := None; p_emoji := None |}
                (StorageError "Connection terminated unexpectedly") tt
                Hacc eq_refl eq_refl) as Hf.
  cbv zeta in Hf. destruct Hf as (_ & Hc & _ & _ & _ & Hu & Hd & _).
  repeat split; assumption.
Defined.

Lemma advance_on_close_mapped h ws U :
  JsMap.get ws (wsUserMap h) = Some U -> U <> "" ->
  advance (on_close ws) h
  = (Ret tt, torn_down h ws U,
     broadcastToAll (torn_down h ws U) (user_offline U) None).
Proof.
  intros Hm HU.
  now rewrite advance_on_close, (closingUserId_mapped _ _ Hm HU),
    (truthy_Some HU).
Qed.

(** X6.  A socket that has no session can authenticate again under another
    user id. The registry entry of its first identity [A] is then never
    cleaned up by this socket: after the second ["auth"] both [A] and [B]
    are registered on the socket, and its ["close"] handler removes the
    entry of [B] only, so that [A] stays in the registry on a closed socket. *)
Theorem rebinding_leaves_the_first_entry {DB} `{IStorage DB}
    (w : World DB) ws A B p :
  JsMap.get A (clients (hub w)) = Some ws ->
  A <> B ->
  accepts w ws B -> p_userId p = Some B ->
  let w1 := snd (fst (run (on_message ws (Json (Some "auth") (Some p))) w)) in
  let h2 := snd (fst (advance (on_close ws)
                        (with_readyState (hub w1) ws CLOSED))) in
  (JsMap.get A (clients (hub w1)) = Some ws
   /\ JsMap.get B (clients (hub w1)) = Some ws)
  /\ JsMap.get B (clients h2) = None
  /\ JsMap.get A (clients h2) = Some ws
  /\ readyState (connection h2 ws) = CLOSED.
Proof.
  intros HA Hne Hacc Hp. cbv zeta.
  destruct (run_auth_registers p Hacc Hp) as (Hc & Hm & Hu). cbv zeta in *.
  set (w1 := snd (fst (run (on_message ws (Json (Some "auth") (Some p))) w)))
    in *.
  assert (HB : B <> "") by (destruct Hacc; assumption).
  assert (Hmapped : JsMap.get ws
                      (wsUserMap (with_readyState (hub w1) ws CLOSED))
                    = Some B).
  { change (JsMap.get ws (wsUserMap (hub w1)) = Some B).
    rewrite Hm. apply JsMapFacts.get_set_same. }
  rewrite (advance_on_close_mapped _ _ Hmapped HB). cbn [fst snd].
  split; [split|].
  - rewrite Hc, JsMapFacts.get_set_other; auto.
  - rewrite Hc. apply JsMapFacts.get_set_same.
  - change (clients (torn_down (with_readyState (hub w1) ws CLOSED) ws B))
      with (JsMap.delete B (clients (hub w1))).
    split; [apply JsMapFacts.get_delete_same|]. split.
    + rewrite JsMapFacts.get_delete_other by auto.
      rewrite Hc, JsMapFacts.get_set_other; auto.
    + change (connection
                (torn_down (with_readyState (hub w1) ws CLOSED) ws B) ws)
        with (connection (with_readyState (hub w1) ws CLOSED) ws).
      now autorewrite with hub.
Qed.

(** Socket 1 has no session.  It authenticates as alice, then as mallory,
    then closes: alice is still in the registry, on the closed socket. *)
Lemma rebinding_leaves_the_first_entry_witness :
  let w := world (exec (initial Example.db0)
                    [OnConnection 1 None; OnMessage 1 (Example.auth "alice");
                     Settle 0; Settle 0]) in
  let p := {| p_userId := Some "mallory"; p_channelId := None;
              p_content := None; p_replyToId := None;
              p_messageId := None; p_emoji := None |} in
  let w1 := snd (fst (run (on_message 1 (Json (Some "auth") (Some p))) w)) in
  let h2 := snd (fst (advance (on_close 1)
                        (with_readyState (hub w1) 1 CLOSED))) in
  JsMap.get "alice" (clients (hub w)) = Some 1
  /\ JsMap.get "alice" (clients h2) = Some 1
  /\ readyState (connection h2 1) = CLOSED.
Proof.
  intros w p w1 h2.
  assert (HA : JsMap.get "alice" (clients (hub w)) = Some 1)
    by (vm_compute; reflexivity).
  assert (Hne : "alice" <> "mallory") by discriminate.
  assert (Hacc : accepts w 1 "mallory").
  { split; [discriminate|].
    assert (Ht : truthy (authenticatedUserId (connection (hub w) 1)) = false)
      by (vm_compute; reflexivity).
    rewrite Ht. exists (Example.user "mallory" "Mal"), (db w).
    vm_compute. reflexivity. }
  pose proof (@rebinding_leaves_the_first_entry _ _ w 1 "alice" "mallory" p
                HA Hne Hacc eq_refl) as Hr.
  cbv zeta in Hr. fold w1 in Hr. fold h2 in Hr.
  destruct Hr as (_ & _ & Hkeep & Hclosed).
  split; [exact HA|]. split; assumption.
Defined.


(* ================================================================== *)
(** * A handler that outlives its socket *)

Lemma nth_error_snoc {A} (l : list A) x :
  nth_error (l ++ [x]) (length l) = Some x.
Proof. induction l; simpl; auto. Qed.

Lemma replace_nth_snoc (l : list (Task unit)) t t' :
  replace_nth (length l) t' (l ++ [t])
  = if suspended t' then l ++ [t'] else l.
Proof.
  induction l as [|x l IH]; simpl.
  - now destruct (suspended t').
  - rewrite IH. now destruct (suspended t').
Qed.

Lemma client_open_with_readyState h ws st client :
  client <> ws ->
  client_open (with_readyState h ws st) client = client_open h client.
Proof.
  intros Hne. unfold client_open, with_readyState.
  now rewrite connection_with_connection_other by auto.
Qed.

(** X7.  An ["auth"] handler that is still waiting for the storage layer
    when its socket closes carries on afterwards. On a socket without a
    session that has sent ["auth"] for an existing user [U] and closes
    before [getUser] has answered, the ["close"] handler finds nothing to
    tear down; then the handler resumes, registers the closed socket for [U]
    and tells every other open connection that [U] is online. No handler is
    left pending and the socket's ["close"] event has already fired, so
    nothing will remove [U] from the registry. *)
Theorem auth_in_flight_outlives_the_socket {DB} `{IStorage DB}
    (s : System DB) ws U p user d1 channels d2 :
  let h := hub (world s) in
  JsMap.has ws (connections h) = true ->
  readyState (connection h ws) = OPEN ->
  truthy (authenticatedUserId (connection h ws)) = false ->
  userId (connection h ws) = None ->
  JsMap.get ws (wsUserMap h) = None ->
  U <> "" -> p_userId p = Some U ->
  storage (getUser (Some U)) (db (world s)) = (Ok (Some user), d1) ->
  storage (getUserChannels U) d1 = (Ok channels, d2) ->
  let i := length (pending s) in
  let s' := exec s [OnMessage ws (Json (Some "auth") (Some p)); OnClose ws;
                    Settle i; Settle i] in
  JsMap.get U (clients (hub (world s'))) = Some ws
  /\ JsMap.get ws (wsUserMap (hub (world s'))) = Some U
  /\ readyState (connection (hub (world s')) ws) = CLOSED
  /\ pending s' = pending s
  /\ step s' (OnClose ws) = s'
  /\ (forall u client,
        u <> U -> client <> ws ->
        In (u, client) (JsMap.entries (clients h)) ->
        client_open h client = true ->
        In (Send client (user_online (Some U))) (trace s')).
Proof.
  intros h Hhas Hopen Hsession Hunbound Hunmapped HU Hp Huser Hchannels i s'.
  subst s'. unfold exec. cbn [fold_left].
  destruct s as [[hs ds] ps ts]. cbn [world hub db pending trace] in *.
  subst h i.
  set (s0 := {| world := {| hub := hs; db := ds |}; pending := ps;
                trace := ts |}).
  set (s1 := step s0 (OnMessage ws (Json (Some "auth") (Some p)))).
  set (s2 := step s1 (OnClose ws)).
  set (s3 := step s2 (Settle (length ps))).
  set (s4 := step s3 (Settle (length ps))).
  (* the frame arrives: the handler suspends on getUser *)
  eassert (E1 : s1 = _).
  { unfold s1, s0, step. cbv zeta. cbn [world hub db pending trace].
    rewrite Hhas.
    unfold on_message, handle_message, case_auth. simpl.
    rewrite Hp. simpl. rewrite Hsession. simpl. unfold enqueue. simpl.
    reflexivity. }
  (* the socket closes *)
  eassert (E2 : s2 = _).
  { unfold s2. rewrite E1. unfold step. cbv zeta.
    cbn [world hub db pending trace].
    rewrite Hhas, Hopen. cbn [negb andb].
    rewrite advance_on_close.
    rewrite closingUserId_unmapped by exact Hunmapped.
    autorewrite with hub. cbn [userId]. rewrite Hunbound.
    rewrite app_nil_r. reflexivity. }
  (* getUser settles *)
  eassert (E3 : s3 = _).
  { unfold s3. rewrite E2. unfold step. cbv zeta.
    cbn [world hub db pending trace].
    rewrite nth_error_snoc. unfold resume. cbn [db hub]. rewrite Huser.
    cbn [advance try_catch bind]. unfold auth_bind, get_userId, read.
    cbn [advance try_catch bind].
    autorewrite with hub. cbn [userId]. rewrite (truthy_Some HU).
    unfold clients_set, wsUserMap_set, modify, await.
    cbn [advance try_catch bind app].
    rewrite replace_nth_snoc. cbn [suspended]. reflexivity. }
  (* getUserChannels settles *)
  eassert (E4 : s4 = _).
  { unfold s4. rewrite E3. unfold step. cbv zeta.
    cbn [world hub db pending trace].
    rewrite nth_error_snoc. unfold resume. cbn [db hub]. rewrite Hchannels.
    cbn [advance try_catch bind].
    autorewrite with hub. cbn [userId].
    unfold userChannels_set, clients_keys, ws_send, do_broadcastToAll,
      modify, read, emit.
    cbn [advance try_catch bind app].
    autorewrite with hub. cbn [userId].
    cbn [advance try_catch bind app].
    rewrite replace_nth_snoc. cbn [suspended]. reflexivity. }
  rewrite E4. cbn [world hub pending].
  split; [apply JsMapFacts.get_set_same|].
  split; [apply JsMapFacts.get_set_same|].
  assert (Hclosed : readyState
                      (connection
                         (with_userId (with_readyState hs ws CLOSED) ws
                            (Some U)) ws) = CLOSED)
    by now autorewrite with hub.
  split; [exact Hclosed|]. split; [reflexivity|].
  split.
  2:{ intros u client Hu Hclient Hin Ho. cbn [trace].
      apply in_or_app. right. apply in_or_app. right.
      rewrite app_nil_r. apply in_broadcastToAll.
      exists u, client. split; [|split; [|split]]; auto.
      - unfold JsMap.entries in *. now apply in_set_other.
      - now apply excluded_Some_false.
      - unfold client_open. autorewrite with hub.
        change (client_open
                  (with_userId (with_readyState hs ws CLOSED) ws (Some U))
                  client = true).
        now rewrite client_open_with_userId, client_open_with_readyState. }
  unfold step. cbv zeta. cbn [world hub].
  match goal with
  | |- (if ?b then _ else _) = _ =>
      assert (Hb : b = false); [|now rewrite Hb]
  end.
  apply andb_false_iff. right.
  match goal with
  | |- negb match readyState ?c with _ => _ end = false =>
      change c with (connection
                       (with_userId (with_readyState hs ws CLOSED) ws (Some U))
                       ws)
  end.
  now rewrite Hclosed.
Qed.

(** alice and bob are online.  Socket 5 connects without a session, sends
    ["auth"] for mallory and closes at once: mallory ends up registered on
    the closed socket, and alice and bob are told that she is online. *)
Lemma auth_in_flight_outlives_the_socket_witness :
  let s := exec Example.two_online [OnConnection 5 None] in
  let s' := exec s [OnMessage 5 (Json (Some "auth")
                                   (Some {| p_userId := Some "mallory";
                                            p_channelId := None;
                                            p_content := None;
                                            p_replyToId := None;
                                            p_messageId := None;
                                            p_emoji := None |}));
                    OnClose 5; Settle 0; Settle 0] in
  pending s = []
  /\ JsMap.get "mallory" (clients (hub (world s'))) = Some 5
  /\ readyState (connection (hub (world s')) 5) = CLOSED
  /\ pending s' = [].
Proof.
  intros s s'.
  assert (Hp : pending s = []) by (vm_compute; reflexivity).
  assert (H1 : JsMap.has 5 (connections (hub (world s))) = true)
    by (vm_compute; reflexivity).
  assert (H2 : readyState (connection (hub (world s)) 5) = OPEN)
    by (vm_compute; reflexivity).
  assert (H3 : truthy (authenticatedUserId (connection (hub (world s)) 5))
               = false)
    by (vm_compute; reflexivity).
  assert (H4 : userId (connection (hub (world s)) 5) = None)
    by (vm_compute; reflexivity).
  assert (H5 : JsMap.get 5 (wsUserMap (hub (world s))) = None)
    by (vm_compute; reflexivity).
  assert (H6 : "mallory" <> "") by discriminate.
  assert (H7 : storage (getUser (Some "mallory")) (db (world s))
               = (Ok (Some (Example.user "mallory" "Mal")), db (world s)))
    by (vm_compute; reflexivity).
  assert (H8 : storage (getUserChannels "mallory") (db (world s))
               = (Ok [], db (world s)))
    by (vm_compute; reflexivity).
  pose proof (@auth_in_flight_outlives_the_socket _ _ s 5 "mallory"
                {| p_userId := Some "mallory"; p_channelId := None;
                   p_content := None; p_replyToId := None;
                   p_messageId := None; p_emoji := None |}
                _ _ _ _ H1 H2 H3 H4 H5 H6 eq_refl H7 H8) as Hr.
  cbv zeta in Hr. rewrite Hp in Hr. cbn [length] in Hr. fold s' in Hr.
  destruct Hr as (Hc & _ & Hclosed & Hpend & _).
  split; [exact Hp|]. split; [exact Hc|]. split; [exact Hclosed|].
  exact Hpend.
Defined.


(* ================================================================== *)
(** ** Routing through the two indexes *)

(** X8.  A channel broadcast stays within the registry: whoever receives a
    frame of [broadcastToChannel] would also receive it from
    [broadcastToAll] called with the same exclusion. A user that the routing
    index lists but the registry does not hold is passed over. *)
Theorem channel_broadcast_stays_within_the_registry
    h c message excludeUserId e :
  In e (broadcastToChannel h c message excludeUserId) ->
  In e (broadcastToAll h message excludeUserId).
Proof.
  unfold broadcastToChannel. rewrite in_flat_map.
  intros (u & _ & He). apply in_deliver in He.
  destruct He as (client & Ex & Hget & Ho & ->).
  apply in_broadcastToAll. exists u, client.
  repeat split; auto. now apply JsMapFacts.get_in.
Qed.

(** In "general", where alice and bob are routed and online, a channel
    frame reaches sockets that a global broadcast reaches too. *)
Lemma channel_broadcast_stays_within_the_registry_witness :
  let h := hub (world Example.everyone_online) in
  In (Send 2 (typing_stop (Some "alice") (Some "general")))
     (broadcastToChannel h (Some "general")
        (typing_stop (Some "alice") (Some "general")) (Some "alice"))
  /\ In (Send 2 (typing_stop (Some "alice") (Some "general")))
        (broadcastToAll h (typing_stop (Some "alice") (Some "general"))
           (Some "alice")).
Proof.
  intros h.
  assert (Hin : In (Send 2 (typing_stop (Some "alice") (Some "general")))
                   (broadcastToChannel h (Some "general")
                      (typing_stop (Some "alice") (Some "general"))
                      (Some "alice")))
    by (vm_compute; now left).
  split; [exact Hin|].
  exact (channel_broadcast_stays_within_the_registry _ _ _ _ _ Hin).
Defined.

Lemma JsSet_has_add x c s :
  JsSet.has x (JsSet.add c s) = JsSet.has x s || String.eqb x c.
Proof.
  unfold JsSet.add. destruct (JsSet.has c s) eqn:Hc.
  - destruct (String.eqb_spec x c) as [->|Hne].
    + now rewrite Hc.
    + now rewrite orb_false_r.
  - unfold JsSet.has. rewrite existsb_app. simpl. now rewrite orb_false_r.
Qed.

Lemma routes_to_userChannels_add h u c c' u' :
  routes_to (userChannels_add h u c) c' u'
  <-> routes_to h c' u' \/ (c' = c /\ u' = u).
Proof.
  unfold routes_to, userChannels_add, JsMap.has.
  destruct (JsMap.get u (userChannels h)) as [s|] eqn:Hu.
  - rewrite Hu. simpl.
    destruct (String.eqb_spec u' u) as [->|Hne].
    + rewrite JsMapFacts.get_set_same. split.
      * intros (s' & [= <-] & Hhas). rewrite JsSet_has_add in Hhas.
        apply orb_true_iff in Hhas. destruct Hhas as [Hhas|Hc].
        -- left. eauto.
        -- right. apply String.eqb_eq in Hc. auto.
      * intros [(s' & Hs' & Hhas)|[-> _]].
        -- rewrite Hu in Hs'. injection Hs' as <-.
           exists (JsSet.add c s). split; auto.
           rewrite JsSet_has_add, Hhas. reflexivity.
        -- exists (JsSet.add c s). split; auto.
           rewrite JsSet_has_add, String.eqb_refl. apply orb_true_r.
    + rewrite JsMapFacts.get_set_other by auto. split; [now left|].
      intros [Hr|[_ ->]]; [exact Hr | contradiction].
  - rewrite JsMapFacts.get_set_same. simpl.
    destruct (String.eqb_spec u' u) as [->|Hne].
    + rewrite JsMapFacts.get_set_same. split.
      * intros (s' & [= <-] & Hhas). right.
        unfold JsSet.add in Hhas. simpl in Hhas.
        rewrite orb_false_r in Hhas. apply String.eqb_eq in Hhas. auto.
      * intros [(s' & Hs' & _)|[-> _]]; [congruence|].
        exists (JsSet.add c []). split; auto.
        unfold JsSet.add. simpl. now rewrite String.eqb_refl.
    + rewrite !JsMapFacts.get_set_other by auto. split; [now left|].
      intros [Hr|[_ ->]]; [exact Hr | contradiction].
Qed.

Lemma userChannels_add_frame h u c :
  clients (userChannels_add h u c) = clients h
  /\ wsUserMap (userChannels_add h u c) = wsUserMap h
  /\ connections (userChannels_add h u c) = connections h.
Proof.
  unfold userChannels_add.
  destruct (JsMap.get u _); repeat split; reflexivity.
Qed.

(** X9.  Once the route that creates a channel has updated the routing
    index, the new channel is routed to its creator and to every member
    named in the request, online or not, and to nobody else; what was routed
    before still is, and the registry, the socket map and the connections
    are not touched. *)
Theorem new_channel_is_routed_to_its_members h userId memberIds channelId :
  let h' := Http.update_userChannels h userId memberIds channelId in
  (forall c u,
     routes_to h' c u
     <-> routes_to h c u \/ (c = channelId /\ In u (userId :: memberIds)))
  /\ clients h' = clients h
  /\ wsUserMap h' = wsUserMap h
  /\ connections h' = connections h.
Proof.
  cbv zeta. unfold Http.update_userChannels.
  assert (Hfold : forall l h0,
    (forall c u,
       routes_to (fold_left (fun h1 m => userChannels_add h1 m channelId) l h0)
         c u
       <-> routes_to h0 c u \/ (c = channelId /\ In u l))
    /\ clients (fold_left (fun h1 m => userChannels_add h1 m channelId) l h0)
       = clients h0
    /\ wsUserMap (fold_left (fun h1 m => userChannels_add h1 m channelId) l h0)
       = wsUserMap h0
    /\ connections
         (fold_left (fun h1 m => userChannels_add h1 m channelId) l h0)
       = connections h0).
  { induction l as [|m l IH]; intros h0; simpl.
    - repeat split; auto. intros [Hr|[_ []]]. exact Hr.
    - destruct (IH (userChannels_add h0 m channelId)) as (Hr & Hc & Hw & Hn).
      destruct (userChannels_add_frame h0 m channelId) as (Hc0 & Hw0 & Hn0).
      repeat split; try congruence.
      + intros Hin. apply Hr in Hin. destruct Hin as [Hin|[-> Hin]]; auto.
        apply routes_to_userChannels_add in Hin.
        destruct Hin as [Hin|[-> ->]]; auto.
      + intros Hin. apply Hr.
        destruct Hin as [Hin|[-> [->|Hin]]]; auto;
          left; apply routes_to_userChannels_add; auto. }
  destruct (Hfold memberIds (userChannels_add h userId channelId))
    as (Hr & Hc & Hw & Hn).
  destruct (userChannels_add_frame h userId channelId) as (Hc0 & Hw0 & Hn0).
  repeat split; try congruence.
  - intros Hin. apply Hr in Hin. destruct Hin as [Hin|[-> Hin]].
    + apply routes_to_userChannels_add in Hin.
      destruct Hin as [Hin|[-> ->]]; auto. right. split; auto. now left.
    + right. split; auto. now right.
  - intros Hin. apply Hr.
    destruct Hin as [Hin|[-> [->|Hin]]]; auto;
      left; apply routes_to_userChannels_add; auto.
Qed.


(* ================================================================== *)
(** * Properties of [DatabaseStorage] *)

(** ** Sorting, most recent first *)

Lemma in_firstn {A} n : forall l (x : A), In x (firstn n l) -> In x l.
Proof.
  induction n as [|n IH]; intros [|z l] x; simpl; try tauto.
  intros [->|Hx]; auto.
Qed.

Section SortDesc.
Context {A : Type} (key : A -> nat).

Lemma in_insert_desc x y l :
  In y (Db.insert_desc key x l) <-> y = x \/ In y l.
Proof.
  induction l as [|z l IH]; simpl.
  - intuition.
  - destruct (Nat.leb (key x) (key z)); simpl; rewrite ?IH; intuition.
Qed.

Lemma in_fold_insert_desc l : forall acc y,
  In y (fold_left (fun acc x => Db.insert_desc key x acc) l acc)
  <-> In y l \/ In y acc.
Proof.
  induction l as [|x l IH]; intros acc y; simpl.
  - intuition.
  - rewrite IH, in_insert_desc. intuition.
Qed.

Lemma in_sort_desc l y : In y (Db.sort_desc key l) <-> In y l.
Proof.
  unfold Db.sort_desc. rewrite in_fold_insert_desc. simpl. intuition.
Qed.

Lemma length_sort_desc l : length (Db.sort_desc key l) = length l.
Proof.
  unfold Db.sort_desc.
  assert (Hins : forall x acc,
            length (Db.insert_desc key x acc) = S (length acc)).
  { intros x acc. induction acc as [|z acc IH]; simpl; auto.
    destruct (Nat.leb (key x) (key z)); simpl; auto. }
  assert (Hfold : forall l0 acc,
            length (fold_left (fun acc x => Db.insert_desc key x acc) l0 acc)
            = length l0 + length acc).
  { induction l0 as [|x l0 IH]; intros acc; simpl; auto.
    rewrite IH, Hins. lia. }
  rewrite Hfold. simpl. lia.
Qed.

Lemma descending_insert_desc x l :
  descending key l -> descending key (Db.insert_desc key x l).
Proof.
  unfold descending. induction 1 as [|z l Hs IH Hall]; simpl.
  - repeat constructor.
  - destruct (Nat.leb (key x) (key z)) eqn:E.
    + apply Nat.leb_le in E. constructor; auto.
      apply Forall_forall. intros y Hy. apply in_insert_desc in Hy.
      destruct Hy as [->|Hy]; auto.
      rewrite Forall_forall in Hall. auto.
    + apply Nat.leb_gt in E. constructor.
      * now constructor.
      * constructor; [lia|].
        rewrite Forall_forall in *. intros y Hy. specialize (Hall y Hy). lia.
Qed.

Lemma descending_sort_desc l : descending key (Db.sort_desc key l).
Proof.
  unfold Db.sort_desc.
  assert (Hfold : forall l0 acc,
            descending key acc ->
            descending key
              (fold_left (fun acc x => Db.insert_desc key x acc) l0 acc)).
  { induction l0 as [|x l0 IH]; intros acc Hacc; simpl; auto.
    apply IH. now apply descending_insert_desc. }
  apply Hfold. constructor.
Qed.

(** Among the first [n] elements of a descending list there is every
    element that is larger than one of them. *)
Lemma firstn_descending n : forall l m x,
  descending key l -> In m (firstn n l) -> In x l -> key m < key x ->
  In x (firstn n l).
Proof.
  unfold descending.
  induction n as [|n IH]; intros l m x Hs Hm Hx Hlt; [contradiction|].
  destruct l as [|z l]; [contradiction|].
  inversion Hs as [|? ? Hs' Hall]; subst. simpl in *.
  destruct Hx as [->|Hx]; [now left|].
  destruct Hm as [->|Hm].
  - rewrite Forall_forall in Hall. specialize (Hall x Hx). lia.
  - right. eapply IH; eauto.
Qed.

Lemma descending_firstn n l : descending key l -> descending key (firstn n l).
Proof.
  unfold descending. revert l.
  induction n as [|n IH]; intros l Hs; simpl; [constructor|].
  destruct l as [|z l]; [constructor|].
  inversion Hs as [|? ? Hs' Hall]; subst. constructor; auto.
  rewrite Forall_forall in *. intros y Hy. apply Hall.
  eapply in_firstn; eauto.
Qed.

Lemma ascending_rev l : descending key l -> ascending key (rev l).
Proof.
  unfold descending, ascending. induction 1 as [|z l Hs IH Hall]; simpl.
  - constructor.
  - assert (Happ : forall l1 : list A,
              StronglySorted (fun a b => key a <= key b) l1 ->
              Forall (fun y => key y <= key z) l1 ->
              StronglySorted (fun a b => key a <= key b) (l1 ++ [z])).
    { induction 1 as [|y l1 Hs1 IH1 Hall1]; intros Hle; simpl.
      - repeat constructor.
      - inversion Hle; subst. constructor; auto.
        apply Forall_app. split; auto. }
    apply Happ; auto.
    rewrite Forall_forall in *. intros y Hy. apply in_rev in Hy. auto.
Qed.

End SortDesc.


(** ** Channels of a user *)

Lemma isChannelMember_iff d c u :
  Db.isChannelMember d c u = true
  <-> exists m, In m (Db.channelMembers d)
                /\ member_channelId m = c /\ member_userId m = u.
Proof.
  unfold Db.isChannelMember. split.
  - destruct (filter _ _) as [|m l] eqn:E; [discriminate|]. intros _.
    assert (Hin : In m (m :: l)) by now left.
    rewrite <- E in Hin. apply filter_In in Hin. destruct Hin as [Hin Hm].
    apply andb_true_iff in Hm. destruct Hm as [Hc Hu].
    apply String.eqb_eq in Hc, Hu. eauto.
  - intros (m & Hin & Hc & Hu).
    assert (Hf : In m (filter (fun m => String.eqb (member_channelId m) c
                                        && String.eqb (member_userId m) u)
                         (Db.channelMembers d))).
    { apply filter_In. split; auto.
      now rewrite Hc, Hu, !String.eqb_refl. }
    destruct (filter _ _); [contradiction | reflexivity].
Qed.

Lemma getChannel_Some d id ch :
  Db.getChannel d id = Some ch -> In ch (Db.channels d) /\ channel_id ch = id.
Proof.
  unfold Db.getChannel. intros Hf. apply find_some in Hf.
  destruct Hf as [Hin He]. apply String.eqb_eq in He. auto.
Qed.

Lemma getChannel_known d id :
  Db.getChannel d id <> None
  <-> exists ch, In ch (Db.channels d) /\ channel_id ch = id.
Proof.
  unfold Db.getChannel. split.
  - destruct (find _ _) as [ch|] eqn:E; [|congruence]. intros _.
    apply find_some in E. destruct E as [Hin He].
    apply String.eqb_eq in He. eauto.
  - intros (ch & Hin & He) Hnone.
    apply (find_none _ _ Hnone) in Hin. rewrite He, String.eqb_refl in Hin.
    discriminate.
Qed.

Lemma in_getUserChannels d u c :
  In c (map (fun x => channel_id (cwm_channel x)) (Db.getUserChannels d u))
  <-> (exists m, In m (Db.channelMembers d)
                 /\ member_channelId m = c /\ member_userId m = u)
      /\ (exists ch, In ch (Db.channels d) /\ channel_id ch = c).
Proof.
  unfold Db.getUserChannels.
  set (records := filter (fun m => String.eqb (member_userId m) u)
                    (Db.channelMembers d)).
  assert (Hids : forall c0, In c0 (map member_channelId records)
                 <-> exists m, In m (Db.channelMembers d)
                               /\ member_channelId m = c0
                               /\ member_userId m = u).
  { intros c0. rewrite in_map_iff. split.
    - intros (m & Hc & Hin). apply filter_In in Hin.
      destruct Hin as [Hin Hu]. apply String.eqb_eq in Hu. eauto.
    - intros (m & Hin & Hc & Hu). exists m. split; auto.
      apply filter_In. split; auto. now rewrite Hu, String.eqb_refl. }
  remember (map member_channelId records) as ids eqn:E.
  destruct ids as [|c1 ids].
  - simpl. split; [contradiction|].
    intros [Hm _]. apply Hids in Hm. contradiction.
  - rewrite in_map_iff. split.
    + intros (x & Hc & Hin). apply in_sort_desc in Hin.
      apply in_map_iff in Hin. destruct Hin as (ch & <- & Hin).
      simpl in Hc. apply filter_In in Hin. destruct Hin as [Hin Hex].
      apply existsb_exists in Hex. destruct Hex as (c0 & Hc0 & He).
      apply String.eqb_eq in He. subst c0. rewrite Hc in Hc0.
      split; [now apply Hids | eauto].
    + intros [Hm (ch & Hin & Hc)].
      exists {| cwm_channel := ch;
                cwm_members := Db.getChannelMembers d (channel_id ch);
                cwm_lastMessage :=
                  hd_error (Db.getChannelMessages d (channel_id ch) 1) |}.
      split; [exact Hc|]. apply in_sort_desc.
      apply in_map_iff. exists ch. split; auto.
      apply filter_In. split; auto.
      apply existsb_exists. exists c. split.
      * now apply Hids.
      * rewrite Hc. apply String.eqb_refl.
Qed.

(** X10.  The channels [getUserChannels] returns for a user are the channels
    the user has a membership row for, as far as they exist in the
    [channels] table: exactly those for which [isChannelMember] answers
    [true]. The routing index filled at ["auth"] and the authorization check
    of [send_message] therefore agree on a database that does not change in
    between. *)
Theorem user_channels_are_the_memberships d u c :
  In c (map (fun x => channel_id (cwm_channel x)) (Db.getUserChannels d u))
  <-> Db.isChannelMember d c u = true /\ Db.getChannel d c <> None.
Proof.
  rewrite isChannelMember_iff, getChannel_known. apply in_getUserChannels.
Qed.

(** X11.  [getUserChannels] returns the channels with the most recently used
    one first: in descending order of the creation time of their last
    message, a channel without messages counting as time 0. *)
Theorem user_channels_most_recent_first d u :
  descending Db.lastMessageTime (Db.getUserChannels d u).
Proof.
  unfold Db.getUserChannels.
  destruct (map member_channelId _); [constructor|].
  apply descending_sort_desc.
Qed.


(** ** Messages of a channel *)

(** Rows joined with a row of another table, the rows without a partner
    left out: the loops of [getChannelMessages], [getChannelMembers] and
    [getMessageReactions]. *)
Section Joined.
Context {A B C : Type} (partner : A -> option B) (pair : A -> B -> C).

Let joined (l : list A) : list C :=
  flat_map (fun a => match partner a with
                     | Some b => [pair a b]
                     | None => []
                     end) l.

Lemma in_joined l x :
  In x (joined l) <-> exists a b, In a l /\ partner a = Some b /\ x = pair a b.
Proof.
  unfold joined. rewrite in_flat_map. split.
  - intros (a & Hin & Hx). destruct (partner a) as [b|] eqn:E; [|contradiction].
    destruct Hx as [<-|[]]. eauto.
  - intros (a & b & Hin & Hp & ->). exists a. split; auto.
    rewrite Hp. now left.
Qed.

Lemma length_joined l : length (joined l) <= length l.
Proof.
  unfold joined. induction l as [|a l IH]; simpl; auto.
  destruct (partner a); simpl; lia.
Qed.

Lemma sorted_joined (R : A -> A -> Prop) (R' : C -> C -> Prop) l :
  (forall a a' b b', R a a' -> R' (pair a b) (pair a' b')) ->
  StronglySorted R l -> StronglySorted R' (joined l).
Proof.
  intros HR. induction 1 as [|a l Hs IH Hall]; simpl; [constructor|].
  destruct (partner a) as [b|]; simpl; auto.
  constructor; auto.
  apply Forall_forall. intros x Hx. apply in_joined in Hx.
  destruct Hx as (a' & b' & Hin & _ & ->).
  rewrite Forall_forall in Hall. auto.
Qed.

End Joined.

Lemma getChannelMessages_joined d c limit :
  Db.getChannelMessages d c limit
  = flat_map
      (fun message =>
         match Db.getUser d (Some (message_senderId message)) with
         | Some sender => [with_sender d message sender]
         | None => []
         end)
      (rev (firstn limit
              (Db.sort_desc message_createdAt
                 (filter (fun m => String.eqb (message_channelId m) c)
                    (Db.messages d))))).
Proof. reflexivity. Qed.

Lemma in_sorted_messages d c x :
  In x (Db.sort_desc message_createdAt
          (filter (fun m => String.eqb (message_channelId m) c)
             (Db.messages d)))
  <-> In x (Db.messages d) /\ message_channelId x = c.
Proof. now rewrite in_sort_desc, filter_In, String.eqb_eq. Qed.

(** X12.  [getChannelMessages] returns at most [limit] messages, oldest
    first; each is a row of the channel together with the user row of its
    sender and its reactions; and they are the latest ones: a message of the
    channel that is newer than one of those returned is returned as well (if
    its sender has a user row). *)
Theorem channel_messages_are_the_latest d c limit :
  let l := Db.getChannelMessages d c limit in
  length l <= limit
  /\ ascending (fun m => message_createdAt (mws_message m)) l
  /\ (forall m, In m l ->
        In (mws_message m) (Db.messages d)
        /\ message_channelId (mws_message m) = c
        /\ Db.getUser d (Some (message_senderId (mws_message m)))
           = Some (mws_sender m)
        /\ mws_reactions m
           = Db.getMessageReactions d (message_id (mws_message m)))
  /\ (forall m x sender,
        In m l ->
        In x (Db.messages d) -> message_channelId x = c ->
        message_createdAt (mws_message m) < message_createdAt x ->
        Db.getUser d (Some (message_senderId x)) = Some sender ->
        In (with_sender d x sender) l).
Proof.
  cbv zeta. rewrite getChannelMessages_joined.
  set (sorted := Db.sort_desc message_createdAt
                   (filter (fun m => String.eqb (message_channelId m) c)
                      (Db.messages d))).
  pose proof (in_sorted_messages d c) as Hsorted. fold sorted in Hsorted.
  pose proof (descending_sort_desc message_createdAt
                (filter (fun m => String.eqb (message_channelId m) c)
                   (Db.messages d))) as Hdesc.
  fold sorted in Hdesc.
  split; [|split; [|split]].
  - etransitivity; [apply length_joined|].
    rewrite length_rev. apply firstn_le_length.
  - unfold ascending.
    apply sorted_joined
      with (R := fun a b => message_createdAt a <= message_createdAt b).
    + intros a a' b b' Hle. exact Hle.
    + apply ascending_rev. now apply descending_firstn.
  - intros m Hm. apply in_joined in Hm.
    destruct Hm as (a & b & Hin & Hp & ->). simpl.
    apply in_rev, in_firstn, Hsorted in Hin. destruct Hin as [Hin Hc].
    repeat split; auto.
  - intros m x sender Hm Hx Hc Hlt Hsender. apply in_joined in Hm.
    destruct Hm as (a & b & Hin & Hp & ->). simpl in Hlt.
    apply in_joined. exists x, sender. repeat split; auto.
    apply -> in_rev. apply in_rev in Hin.
    apply (@firstn_descending _ message_createdAt limit sorted a x); auto.
    apply Hsorted. auto.
Qed.


(** ** A channel with its members *)

Lemma in_getChannelMembers d c member user :
  In (member, user) (Db.getChannelMembers d c)
  <-> In member (Db.channelMembers d)
      /\ member_channelId member = c
      /\ Db.getUser d (Some (member_userId member)) = Some user.
Proof.
  unfold Db.getChannelMembers.
  rewrite (in_joined (fun member => Db.getUser d (Some (member_userId member)))
             (fun member user => (member, user))).
  split.
  - intros (a & b & Hin & Hp & [= -> ->]). apply filter_In in Hin.
    destruct Hin as [Hin Hc]. apply String.eqb_eq in Hc. auto.
  - intros (Hin & Hc & Hp). exists member, user. repeat split; auto.
    apply filter_In. split; auto. now apply String.eqb_eq.
Qed.

Lemma getUser_Some d id user :
  Db.getUser d (Some id) = Some user ->
  In user (Db.users d) /\ user_id user = id.
Proof.
  simpl. intros Hf. apply find_some in Hf. destruct Hf as [Hin He].
  apply String.eqb_eq in He. auto.
Qed.

(** X13.  What [getChannelWithMembers] returns for a channel id it knows:
    the channel row of that id; as members, the membership rows of the
    channel, each with the user row of its user; and as [lastMessage] a
    message of the channel than which no message of the channel is newer. *)
Theorem channel_with_members_and_latest_message d id r :
  Db.getChannelWithMembers d id = Some r ->
  channel_id (cwm_channel r) = id
  /\ In (cwm_channel r) (Db.channels d)
  /\ (forall member user,
        In (member, user) (cwm_members r)
        <-> In member (Db.channelMembers d)
            /\ member_channelId member = id
            /\ Db.getUser d (Some (member_userId member)) = Some user)
  /\ (forall m,
        cwm_lastMessage r = Some m ->
        In (mws_message m) (Db.messages d)
        /\ message_channelId (mws_message m) = id
        /\ forall x, In x (Db.messages d) -> message_channelId x = id ->
                     message_createdAt x <= message_createdAt (mws_message m)).
Proof.
  unfold Db.getChannelWithMembers.
  destruct (Db.getChannel d id) as [channel|] eqn:Ech; [|discriminate].
  intros [= <-]. simpl. apply getChannel_Some in Ech. destruct Ech as [Hin Hid].
  split; [exact Hid|]. split; [exact Hin|].
  split; [intros member user; apply in_getChannelMembers|].
  intros m. unfold Db.getChannelMessages.
  set (sorted := Db.sort_desc message_createdAt
                   (filter (fun m => String.eqb (message_channelId m) id)
                      (Db.messages d))).
  assert (Hsorted : forall x, In x sorted
                    <-> In x (Db.messages d) /\ message_channelId x = id).
  { intros x. unfold sorted. rewrite in_sort_desc, filter_In.
    now rewrite String.eqb_eq. }
  pose proof (descending_sort_desc message_createdAt
                (filter (fun m => String.eqb (message_channelId m) id)
                   (Db.messages d))) as Hdesc.
  fold sorted in Hdesc.
  clearbody sorted.
  destruct sorted as [|a rest]; cbn [firstn rev app flat_map hd_error];
    [discriminate|].
  destruct (Db.getUser d (Some (message_senderId a))) as [sender|];
    cbn [app hd_error]; [|discriminate].
  intros [= <-]. cbn [mws_message].
  destruct (proj1 (Hsorted a) (or_introl eq_refl)) as [Ha Hc].
  repeat split; auto.
  intros x Hx Hxc.
  destruct (proj2 (Hsorted x) (conj Hx Hxc)) as [->|Hrest]; [lia|].
  inversion Hdesc as [|? ? _ Hall]; subst.
  rewrite Forall_forall in Hall. auto.
Qed.

(** "general" after alice's "hi": its two members, and "hi" as the last
    message. *)
Lemma channel_with_members_and_latest_message_witness :
  let d := snd (Db.createMessage Example.db0
                  {| im_channelId := "general"; im_senderId := Some "alice";
                     im_content := Some "hi"; im_replyToId := None |}) in
  exists r,
    Db.getChannelWithMembers d "general" = Some r
    /\ channel_id (cwm_channel r) = "general"
    /\ cwm_lastMessage r = Some Example.hi.
Proof.
  intros d. eexists. split; [vm_compute; reflexivity|].
  split; [|reflexivity].
  eapply (channel_with_members_and_latest_message d "general").
  vm_compute. reflexivity.
Defined.


(** ** Reactions *)

Lemma same_reaction_iff mid u e r :
  Db.same_reaction mid u e r = true
  <-> reaction_messageId r = mid
      /\ Some (reaction_userId r) = u
      /\ Some (reaction_emoji r) = e.
Proof.
  unfold Db.same_reaction.
  rewrite !andb_true_iff, String.eqb_eq, !strict_eq_true. tauto.
Qed.

Lemma find_app_None {A} (f : A -> bool) l x :
  find f l = None -> find f (l ++ [x]) = if f x then Some x else None.
Proof.
  induction l as [|y l IH]; simpl; auto.
  destruct (f y); [discriminate | exact IH].
Qed.

Lemma find_app_Some {A} (f : A -> bool) l l' y :
  find f l = Some y -> find f (l ++ l') = Some y.
Proof.
  induction l as [|z l IH]; simpl; [discriminate|].
  destruct (f z); auto.
Qed.

Lemma filter_all {A} (f : A -> bool) l :
  (forall x, In x l -> f x = true) -> filter f l = l.
Proof.
  induction l as [|y l IH]; simpl; intros Hall; auto.
  rewrite (Hall y) by now left. f_equal. apply IH. auto.
Qed.

Lemma NoDup_snoc {A} (l : list A) a :
  NoDup l -> ~ In a l -> NoDup (l ++ [a]).
Proof.
  induction 1 as [|y l Hy Hnd IH]; simpl; intros Ha.
  - repeat constructor. auto.
  - constructor.
    + rewrite in_app_iff. simpl. intuition.
    + apply IH. intuition.
Qed.

Lemma insert_reaction_Ok d r x d1 :
  Db.insert_reaction d r = (Ok x, d1) ->
  Db.reactions d1 = Db.reactions d ++ [x]
  /\ reaction_messageId x = ir_messageId r
  /\ Some (reaction_userId x) = ir_userId r
  /\ Some (reaction_emoji x) = ir_emoji r.
Proof.
  unfold Db.insert_reaction.
  destruct (ir_userId r) as [u|]; [|discriminate].
  destruct (ir_emoji r) as [e|]; [|discriminate].
  destruct (negb (existsb _ _)); [discriminate|].
  destruct (negb (Db.user_exists d u)); [discriminate|].
  destruct (Nat.ltb 10 (String.length e)); [discriminate|].
  intros [= <- <-]. simpl. auto.
Qed.

(** The [INSERT] of [addReaction] does not look for the row itself: once
    it has been accepted, the same [INSERT] is accepted again. *)
Lemma insert_reaction_again d r x d1 :
  Db.insert_reaction d r = (Ok x, d1) ->
  exists x2 d2,
    Db.insert_reaction d1 r = (Ok x2, d2)
    /\ Db.reactions d2 = Db.reactions d ++ [x; x2]
    /\ reaction_key x2 = reaction_key x.
Proof.
  unfold Db.insert_reaction.
  destruct (ir_userId r) as [u|]; [|discriminate].
  destruct (ir_emoji r) as [e|]; [|discriminate].
  destruct (negb (existsb _ (Db.messages d))) eqn:Em; [discriminate|].
  destruct (negb (Db.user_exists d u)) eqn:Eu; [discriminate|].
  destruct (Nat.ltb 10 (String.length e)); [discriminate|].
  intros [= <- <-]. unfold Db.user_exists in *. cbn [Db.messages Db.users].
  rewrite Em, Eu. eexists. eexists. split; [reflexivity|].
  cbn [Db.reactions]. rewrite <- app_assoc. auto.
Qed.

(** X14.  [addReaction], each call run to its end before the next one
    starts, is idempotent: once it has returned a reaction, the same call
    returns that reaction again and changes nothing.  The reaction it
    returns has the message, user and emoji asked for, and a table that
    holds no two reactions with the same message, user and emoji still
    holds none afterwards.  This rests on the [SELECT] alone, the table
    has no unique constraint: when the call has inserted a row, the
    [INSERT] of a second call that read the table before is accepted as
    well and leaves two rows with the same message, user and emoji. *)
Theorem addReaction_is_idempotent d r x d1 :
  Db.addReaction d r = (Ok x, d1) ->
  Db.addReaction d1 r = (Ok x, d1)
  /\ reaction_messageId x = ir_messageId r
  /\ Some (reaction_userId x) = ir_userId r
  /\ Some (reaction_emoji x) = ir_emoji r
  /\ (NoDup (map reaction_key (Db.reactions d)) ->
      NoDup (map reaction_key (Db.reactions d1)))
  /\ (find (Db.same_reaction (ir_messageId r) (ir_userId r) (ir_emoji r))
           (Db.reactions d) = None ->
      exists x2 d2,
        Db.insert_reaction d1 r = (Ok x2, d2)
        /\ Db.reactions d2 = Db.reactions d ++ [x; x2]
        /\ reaction_key x2 = reaction_key x
        /\ ~ NoDup (map reaction_key (Db.reactions d2))).
Proof.
  unfold Db.addReaction.
  destruct (find _ (Db.reactions d)) as [existing|] eqn:Ef.
  - intros [= <- <-]. rewrite Ef.
    apply find_some in Ef. destruct Ef as [_ Hsame].
    apply same_reaction_iff in Hsame. destruct Hsame as (Hm & Hu & He).
    repeat split; auto. discriminate.
  - intros Hins. destruct (insert_reaction_Ok _ _ Hins) as (Hr & Hm & Hu & He).
    rewrite Hr, (find_app_None _ _ x Ef).
    assert (Hsame : Db.same_reaction (ir_messageId r) (ir_userId r)
                      (ir_emoji r) x = true)
      by now apply same_reaction_iff.
    rewrite Hsame. repeat split; auto.
    + intros Hnd. rewrite map_app. simpl. apply NoDup_snoc; auto.
      intros Hin. apply in_map_iff in Hin. destruct Hin as (y & Hk & Hy).
      apply (find_none _ _ Ef) in Hy.
      assert (Hy' : Db.same_reaction (ir_messageId r) (ir_userId r)
                      (ir_emoji r) y = true).
      { apply same_reaction_iff. unfold reaction_key in Hk.
        injection Hk as Hk1 Hk2 Hk3. rewrite Hk1, Hk2, Hk3. auto. }
      congruence.
    + intros _. destruct (insert_reaction_again _ _ Hins) as (x2 & d2 & H2 & Hr2 & Hk).
      exists x2, d2. repeat split; auto.
      rewrite Hr2, map_app. cbn [map]. rewrite Hk. intros Hnd.
      apply NoDup_remove_2 in Hnd. apply Hnd.
      apply in_or_app. right. now left.
Qed.

(** alice reacts to her "hi" with "+1", twice: one row.  Had the second
    call read the table before the first one wrote, its [INSERT] would have
    stored the row a second time. *)
Lemma addReaction_is_idempotent_witness :
  let d := snd (Db.createMessage Example.db0
                  {| im_channelId := "general"; im_senderId := Some "alice";
                     im_content := Some "hi"; im_replyToId := None |}) in
  let r := {| ir_messageId := "uuid-0"; ir_userId := Some "alice";
              ir_emoji := Some "+1" |} in
  exists x d1,
    Db.addReaction d r = (Ok x, d1)
    /\ Db.addReaction d1 r = (Ok x, d1)
    /\ length (Db.reactions d1) = 1
    /\ length (Db.reactions (snd (Db.insert_reaction d1 r))) = 2.
Proof.
  intros d r. eexists. eexists.
  split; [vm_compute; reflexivity|].
  split; [|split; reflexivity].
  eapply (@addReaction_is_idempotent d r). vm_compute. reflexivity.
Defined.

(** X15.  [removeReaction] always answers [true], whether or not a reaction
    was there. It deletes the reactions with the given message, user and
    emoji and no other row, and a second call changes nothing. *)
Theorem removeReaction_removes_only_the_match d mid u e :
  let d' := snd (Db.removeReaction d mid u e) in
  fst (Db.removeReaction d mid u e) = Ok true
  /\ (forall r, In r (Db.reactions d')
                <-> In r (Db.reactions d)
                    /\ ~ (reaction_messageId r = mid
                          /\ Some (reaction_userId r) = u
                          /\ Some (reaction_emoji r) = e))
  /\ Db.removeReaction d' mid u e = (Ok true, d')
  /\ Db.messages d' = Db.messages d
  /\ Db.users d' = Db.users d
  /\ Db.channelMembers d' = Db.channelMembers d.
Proof.
  cbv zeta. unfold Db.removeReaction. simpl.
  split; [reflexivity|]. split; [|split; auto].
  - intros r. rewrite filter_In, negb_true_iff, <- same_reaction_iff.
    destruct (Db.same_reaction mid u e r); intuition congruence.
  - f_equal. f_equal. apply filter_all. intros r Hin.
    apply filter_In in Hin. tauto.
Qed.

(** X16.  Adding a reaction that is not there and removing it again leaves
    the reactions table as it was. *)
Theorem removeReaction_undoes_addReaction d r x d1 :
  find (Db.same_reaction (ir_messageId r) (ir_userId r) (ir_emoji r))
    (Db.reactions d) = None ->
  Db.addReaction d r = (Ok x, d1) ->
  Db.reactions
    (snd (Db.removeReaction d1 (ir_messageId r) (ir_userId r) (ir_emoji r)))
  = Db.reactions d.
Proof.
  intros Ef. unfold Db.addReaction. rewrite Ef. intros Hins.
  destruct (insert_reaction_Ok _ _ Hins) as (Hr & Hm & Hu & He).
  simpl. rewrite Hr, filter_app. simpl.
  assert (Hsame : Db.same_reaction (ir_messageId r) (ir_userId r)
                    (ir_emoji r) x = true)
    by now apply same_reaction_iff.
  rewrite Hsame. simpl. rewrite app_nil_r.
  apply filter_all. intros y Hy. apply (find_none _ _ Ef) in Hy.
  now rewrite Hy.
Qed.

(** mallory reacts to alice's "hi" and takes the reaction back. *)
Lemma removeReaction_undoes_addReaction_witness :
  let d := snd (Db.createMessage Example.db0
                  {| im_channelId := "general"; im_senderId := Some "alice";
                     im_content := Some "hi"; im_replyToId := None |}) in
  let r := {| ir_messageId := "uuid-0"; ir_userId := Some "mallory";
              ir_emoji := Some "+1" |} in
  exists x d1,
    Db.addReaction d r = (Ok x, d1)
    /\ length (Db.reactions d1) = 1
    /\ Db.reactions
         (snd (Db.removeReaction d1 "uuid-0" (Some "mallory") (Some "+1")))
       = Db.reactions d.
Proof.
  intros d r. eexists. eexists.
  split; [vm_compute; reflexivity|].
  split; [reflexivity|].
  eapply (@removeReaction_undoes_addReaction d r); vm_compute; reflexivity.
Defined.


(** ** Creating a message *)

Lemma insert_message_Ok d messageData message d1 :
  Db.insert_message d messageData = (Ok message, d1) ->
  message_id message = Db.gen_random_uuid d
  /\ message_channelId message = im_channelId messageData
  /\ Some (message_senderId message) = im_senderId messageData
  /\ message_content message = im_content messageData
  /\ message_replyToId message = im_replyToId messageData
  /\ message_isEdited message = false
  /\ message_createdAt message = Db.now d
  /\ Db.messages d1 = Db.messages d ++ [message]
  /\ Db.users d1 = Db.users d
  /\ Db.reactions d1 = Db.reactions d
  /\ Db.channels d1 = Db.channels d
  /\ Db.channelMembers d1 = Db.channelMembers d.
Proof.
  unfold Db.insert_message.
  destruct (im_senderId messageData) as [senderId|]; [|discriminate].
  destruct (negb (existsb _ _)); [discriminate|].
  destruct (negb (Db.user_exists d senderId)); [discriminate|].
  intros [= <- <-]. simpl. repeat split; reflexivity.
Qed.

Lemma insert_message_Err d messageData e d1 :
  Db.insert_message d messageData = (Err e, d1) ->
  d1 = d /\ e <> StorageError "Sender not found".
Proof.
  unfold Db.insert_message.
  destruct (im_senderId messageData) as [senderId|].
  - destruct (negb (existsb _ _)).
    + intros [= <- <-]. split; [reflexivity | discriminate].
    + destruct (negb (Db.user_exists d senderId)).
      * intros [= <- <-]. split; [reflexivity | discriminate].
      * discriminate.
  - intros [= <- <-]. split; [reflexivity | discriminate].
Qed.

Lemma user_exists_getUser d id :
  Db.user_exists d id = true -> exists user, Db.getUser d (Some id) = Some user.
Proof.
  unfold Db.user_exists. simpl. intros Hex.
  apply existsb_exists in Hex. destruct Hex as (u & Hin & He).
  destruct (find _ (Db.users d)) as [user|] eqn:Ef; [eauto|].
  apply (find_none _ _ Ef) in Hin. congruence.
Qed.

(** X17.  A message that [createMessage] has returned can be read back.
    Given that the id the database hands out is not taken and that every
    reaction refers to a stored message, [getMessage] and
    [getMessageWithSender] return, for the id of the new message, the very
    record [createMessage] returned: the fields of the request with the id
    and the timestamp of the database, not edited, with the user row of the
    sender and no reactions. Every message stored before can still be read. *)
Theorem created_message_can_be_read_back d messageData r d' :
  Db.getMessage d (Db.gen_random_uuid d) = None ->
  (forall x, In x (Db.reactions d) ->
             Db.getMessage d (reaction_messageId x) <> None) ->
  Db.createMessage d messageData = (Ok r, d') ->
  Db.getMessage d' (message_id (mws_message r)) = Some (mws_message r)
  /\ Db.getMessageWithSender d' (message_id (mws_message r)) = Some r
  /\ (forall id x, Db.getMessage d id = Some x -> Db.getMessage d' id = Some x)
  /\ message_channelId (mws_message r) = im_channelId messageData
  /\ Some (message_senderId (mws_message r)) = im_senderId messageData
  /\ message_content (mws_message r) = im_content messageData
  /\ message_replyToId (mws_message r) = im_replyToId messageData
  /\ message_isEdited (mws_message r) = false
  /\ message_createdAt (mws_message r) = Db.now d.
Proof.
  intros Hfresh Hrefs. unfold Db.createMessage.
  destruct (Db.insert_message d messageData) as [[message|e] d1] eqn:Ei;
    [|discriminate].
  destruct (insert_message_Ok _ _ Ei)
    as (Hid & Hc & Hs & Hco & Hre & Hed & Hat & Hm & Hu & Hr & _).
  destruct (Db.getUser d1 (Some (message_senderId message)))
    as [sender|] eqn:Es; [|discriminate].
  intros [= <- <-]. simpl.
  assert (Hget : Db.getMessage d1 (message_id message) = Some message).
  { unfold Db.getMessage in *. rewrite Hm, Hid.
    rewrite (find_app_None _ _ message Hfresh).
    now rewrite <- Hid, String.eqb_refl. }
  split; [exact Hget|]. split.
  - unfold Db.getMessageWithSender. rewrite Hget, Es. do 2 f_equal.
    unfold Db.getMessageReactions. rewrite Hr.
    assert (Hnone : filter (fun x => String.eqb (reaction_messageId x)
                                       (message_id message))
                      (Db.reactions d) = []).
    { destruct (filter _ _) as [|x l] eqn:Ef; auto.
      assert (Hin : In x (x :: l)) by now left.
      rewrite <- Ef in Hin. apply filter_In in Hin. destruct Hin as [Hin He].
      apply String.eqb_eq in He. specialize (Hrefs x Hin).
      rewrite He, Hid in Hrefs. contradiction. }
    now rewrite Hnone.
  - split.
    + intros id x Hx. unfold Db.getMessage in *. rewrite Hm.
      now apply find_app_Some.
    + repeat split; auto.
Qed.

(** alice's "hi" in the example database. *)
Lemma created_message_can_be_read_back_witness :
  let m := {| im_channelId := "general"; im_senderId := Some "alice";
              im_content := Some "hi"; im_replyToId := None |} in
  let d' := snd (Db.createMessage Example.db0 m) in
  Db.createMessage Example.db0 m = (Ok Example.hi, d')
  /\ Db.getMessageWithSender d' "uuid-0" = Some Example.hi.
Proof.
  intros m d'.
  assert (Hc : Db.createMessage Example.db0 m = (Ok Example.hi, d'))
    by (vm_compute; reflexivity).
  split; [exact Hc|].
  refine (proj1 (proj2 (@created_message_can_be_read_back Example.db0 m
                          Example.hi d' _ _ Hc))).
  - vm_compute. reflexivity.
  - intros x [].
Defined.

(** X18.  When [createMessage] fails, the database is as it was: no row has
    been stored. In particular its own error "Sender not found" never
    occurs, because the insert that precedes the lookup of the sender is
    refused unless [sender_id] references a user. *)
Theorem failed_createMessage_stores_nothing d messageData e d' :
  Db.createMessage d messageData = (Err e, d') ->
  d' = d /\ e <> StorageError "Sender not found".
Proof.
  unfold Db.createMessage.
  destruct (Db.insert_message d messageData) as [[message|e0] d1] eqn:Ei.
  - destruct (insert_message_Ok _ _ Ei)
      as (_ & _ & Hs & _ & _ & _ & _ & _ & Hu & _).
    assert (Hex : Db.user_exists d (message_senderId message) = true).
    { unfold Db.insert_message in Ei. rewrite <- Hs in Ei.
      destruct (negb (existsb _ _)); [discriminate|].
      destruct (Db.user_exists d (message_senderId message)); auto.
      discriminate. }
    apply user_exists_getUser in Hex. destruct Hex as (user & Hg).
    simpl in Hg. simpl. rewrite Hu, Hg. discriminate.
  - intros [= <- <-]. now apply insert_message_Err in Ei.
Qed.

(** mallory's socket posts into a channel id that does not exist. *)
Lemma failed_createMessage_stores_nothing_witness :
  let m := {| im_channelId := "lounge"; im_senderId := Some "mallory";
              im_content := Some "hi"; im_replyToId := None |} in
  snd (Db.createMessage Example.db0 m) = Example.db0.
Proof.
  intros m.
  refine (proj1 (@failed_createMessage_stores_nothing Example.db0 m
                   (StorageError "foreign key violation: channel_id")
                   (snd (Db.createMessage Example.db0 m)) _)).
  vm_compute. reflexivity.
Defined.


(** ** Memberships *)

Lemma addChannelMember_Ok d member record d1 :
  Db.addChannelMember d member = (Ok record, d1) ->
  Db.channelMembers d1 = Db.channelMembers d ++ [record]
  /\ member_channelId record = icm_channelId member
  /\ member_userId record = icm_userId member
  /\ Db.channels d1 = Db.channels d
  /\ Db.getChannel d (icm_channelId member) <> None.
Proof.
  unfold Db.addChannelMember.
  destruct (negb (existsb _ (Db.channels d))) eqn:Ec; [discriminate|].
  destruct (negb (Db.user_exists d (icm_userId member))); [discriminate|].
  destruct (Nat.ltb 20 _); [discriminate|].
  intros [= <- <-]. simpl. repeat split; auto.
  apply negb_false_iff, existsb_exists in Ec.
  destruct Ec as (ch & Hin & He). apply String.eqb_eq in He.
  apply getChannel_known. eauto.
Qed.

(** X19.  Adding and removing a member, as [isChannelMember] and
    [getUserChannels] see it. After [addChannelMember] has succeeded the
    user is a member of the channel and the channel is among the user's
    channels; after [removeChannelMember] the user is no longer a member;
    and neither call changes whether any other user is a member of any
    channel, or this user of another channel. *)
Theorem membership_follows_add_and_remove d member record d1 :
  Db.addChannelMember d member = (Ok record, d1) ->
  let c := icm_channelId member in
  let u := icm_userId member in
  let d2 := snd (Db.removeChannelMember d1 c u) in
  Db.isChannelMember d1 c u = true
  /\ In c (map (fun x => channel_id (cwm_channel x)) (Db.getUserChannels d1 u))
  /\ Db.isChannelMember d2 c u = false
  /\ (forall c' u', (c', u') <> (c, u) ->
        Db.isChannelMember d1 c' u' = Db.isChannelMember d c' u'
        /\ Db.isChannelMember d2 c' u' = Db.isChannelMember d c' u').
Proof.
  intros Hadd c u d2.
  destruct (addChannelMember_Ok _ _ Hadd) as (Hm & Hc & Hu & Hch & Hknown).
  fold c in Hc, Hknown. fold u in Hu.
  assert (Hiff1 : forall c' u',
            Db.isChannelMember d1 c' u' = true
            <-> Db.isChannelMember d c' u' = true \/ (c' = c /\ u' = u)).
  { intros c' u'. rewrite !isChannelMember_iff, Hm. split.
    - intros (m & Hin & Hc' & Hu'). apply in_app_or in Hin.
      destruct Hin as [Hin|[<-|[]]]; [left; eauto|].
      right. split; congruence.
    - intros [(m & Hin & Hc' & Hu')|[-> ->]].
      + exists m. rewrite in_app_iff. auto.
      + exists record. rewrite in_app_iff. simpl. auto. }
  assert (Hiff2 : forall c' u',
            Db.isChannelMember d2 c' u' = true
            <-> Db.isChannelMember d1 c' u' = true /\ ~ (c' = c /\ u' = u)).
  { intros c' u'. rewrite !isChannelMember_iff. subst d2. simpl. split.
    - intros (m & Hin & Hc' & Hu'). apply filter_In in Hin.
      destruct Hin as [Hin Hf]. split; [eauto|].
      intros [-> ->]. rewrite Hc', Hu', !String.eqb_refl in Hf. discriminate.
    - intros [(m & Hin & Hc' & Hu') Hne]. exists m. repeat split; auto.
      apply filter_In. split; auto.
      apply negb_true_iff, andb_false_iff.
      destruct (String.eqb_spec (member_channelId m) c);
        destruct (String.eqb_spec (member_userId m) u); auto.
      exfalso. apply Hne. split; congruence. }
  assert (Hbool : forall a b : bool, (a = true <-> b = true) -> a = b).
  { intros [|] [|] Hab; auto; [symmetry|]; apply Hab; auto. }
  split; [apply Hiff1; auto|]. split.
  - apply in_getUserChannels. split.
    + apply isChannelMember_iff, Hiff1. auto.
    + apply getChannel_known in Hknown. now rewrite Hch.
  - split.
    + destruct (Db.isChannelMember d2 c u) eqn:E; auto.
      apply Hiff2 in E. destruct E as [_ E]. exfalso. auto.
    + intros c' u' Hne.
      assert (Hne' : ~ (c' = c /\ u' = u)) by (intros [-> ->]; auto).
      split; apply Hbool.
      * rewrite Hiff1. tauto.
      * rewrite Hiff2, Hiff1. tauto.
Qed.

(** mallory joins "general" and leaves again. *)
Lemma membership_follows_add_and_remove_witness :
  let member := {| icm_channelId := "general"; icm_userId := "mallory";
                   icm_role := None |} in
  let d1 := snd (Db.addChannelMember Example.db0 member) in
  Db.isChannelMember Example.db0 "general" "mallory" = false
  /\ Db.isChannelMember d1 "general" "mallory" = true
  /\ Db.isChannelMember (snd (Db.removeChannelMember d1 "general" "mallory"))
       "general" "mallory" = false.
Proof.
  intros member d1.
  assert (Hadd : Db.addChannelMember Example.db0 member
                 = (Ok {| member_id := "uuid-0"; member_channelId := "general";
                          member_userId := "mallory";
                          member_role := "member" |}, d1))
    by (vm_compute; reflexivity).
  pose proof (membership_follows_add_and_remove _ _ Hadd) as Hm.
  cbv zeta in Hm. destruct Hm as (H1 & _ & H2 & _).
  split; [reflexivity|]. split; assumption.
Defined.

(** ** Direct channels *)

Lemma findDirectChannel_from_Some d u2 l ch :
  Db.findDirectChannel_from d u2 l = Some ch ->
  exists membership,
    In membership l
    /\ Db.getChannel d (member_channelId membership) = Some ch
    /\ channel_type ch = "direct"
    /\ length (Db.getChannelMembers d (member_channelId membership)) = 2
    /\ existsb (fun m => String.eqb (member_userId (fst m)) u2)
         (Db.getChannelMembers d (member_channelId membership)) = true.
Proof.
  induction l as [|membership l IH]; simpl; [discriminate|].
  destruct (Db.getChannel d (member_channelId membership)) as [channel|] eqn:Eg.
  - destruct (String.eqb_spec (channel_type channel) "direct") as [Ht|Ht];
      simpl.
    + destruct (Nat.eqb_spec
                  (length (Db.getChannelMembers d
                             (member_channelId membership)))
                  2) as [Hl|Hl]; simpl.
      * destruct (existsb _ _) eqn:Ex.
        -- intros [= <-]. exists membership. rewrite Eg. auto 10.
        -- intros Hf. destruct (IH Hf) as (m & Hin & Hrest). eauto.
      * intros Hf. destruct (IH Hf) as (m & Hin & Hrest). eauto.
    + intros Hf. destruct (IH Hf) as (m & Hin & Hrest). eauto.
  - intros Hf. destruct (IH Hf) as (m & Hin & Hrest). eauto.
Qed.

Lemma findDirectChannel_from_None d u2 l membership ch :
  Db.findDirectChannel_from d u2 l = None ->
  In membership l ->
  Db.getChannel d (member_channelId membership) = Some ch ->
  channel_type ch = "direct" ->
  length (Db.getChannelMembers d (member_channelId membership)) = 2 ->
  existsb (fun m => String.eqb (member_userId (fst m)) u2)
    (Db.getChannelMembers d (member_channelId membership)) = true ->
  False.
Proof.
  induction l as [|m0 l IH]; simpl; [contradiction|].
  intros Hf [->|Hin] Hg Ht Hl Hex.
  - rewrite Hg, Ht, Hl, Hex in Hf. simpl in Hf. discriminate.
  - apply IH; auto.
    destruct (Db.getChannel d (member_channelId m0)) as [c0|]; auto.
    destruct (negb (String.eqb (channel_type c0) "direct")); auto.
    destruct (Nat.eqb _ 2 && existsb _ _); [discriminate | auto].
Qed.

(** X20.  What [findDirectChannel] finds is a direct channel with exactly
    two member rows (with a user), in which both users are members. And the
    lookup does not depend on which of the two users asks: if it finds a
    channel for [userId1] and [userId2], and [userId1] has a user row, it
    finds one for [userId2] and [userId1]. *)
Theorem findDirectChannel_is_sound_and_symmetric d userId1 userId2 ch :
  Db.findDirectChannel d userId1 userId2 = Some ch ->
  channel_type ch = "direct"
  /\ Db.getChannel d (channel_id ch) = Some ch
  /\ length (Db.getChannelMembers d (channel_id ch)) = 2
  /\ Db.isChannelMember d (channel_id ch) userId1 = true
  /\ Db.isChannelMember d (channel_id ch) userId2 = true
  /\ (Db.user_exists d userId1 = true ->
      Db.findDirectChannel d userId2 userId1 <> None).
Proof.
  unfold Db.findDirectChannel. intros Hf.
  apply findDirectChannel_from_Some in Hf.
  destruct Hf as (m1 & Hin & Hg & Ht & Hl & Hex).
  apply filter_In in Hin. destruct Hin as [Hin Hu1].
  apply String.eqb_eq in Hu1.
  destruct (getChannel_Some _ _ Hg) as [Hch Hid]. rewrite Hid.
  apply existsb_exists in Hex. destruct Hex as ([m2 user2] & Hin2 & Hu2).
  simpl in Hu2. apply String.eqb_eq in Hu2.
  pose proof Hin2 as Hin2'. apply in_getChannelMembers in Hin2'.
  destruct Hin2' as (Hm2 & Hc2 & Hp2).
  split; [exact Ht|]. split; [exact Hg|]. split; [exact Hl|].
  split; [apply isChannelMember_iff; eauto|].
  split; [apply isChannelMember_iff; eauto|].
  intros Hex1 Hnone.
  apply user_exists_getUser in Hex1. destruct Hex1 as (user1 & Hp1).
  apply (@findDirectChannel_from_None d userId1 _ m2 ch Hnone).
  - apply filter_In. split; auto. now apply String.eqb_eq.
  - now rewrite Hc2.
  - exact Ht.
  - now rewrite Hc2.
  - rewrite Hc2. apply existsb_exists. exists (m1, user1). split.
    + apply in_getChannelMembers. rewrite Hu1. auto.
    + simpl. now apply String.eqb_eq.
Qed.

(** alice and bob share the direct channel "dm-1": it is found from either
    side. *)
Lemma findDirectChannel_is_sound_and_symmetric_witness :
  let dm := {| channel_id := "dm-1"; channel_name := "Direct Message";
               channel_type := "direct" |} in
  Db.findDirectChannel Circle.db1 "alice" "bob" = Some dm
  /\ Db.isChannelMember Circle.db1 "dm-1" "bob" = true
  /\ Db.findDirectChannel Circle.db1 "bob" "alice" <> None.
Proof.
  intros dm.
  assert (Hf : Db.findDirectChannel Circle.db1 "alice" "bob" = Some dm)
    by (vm_compute; reflexivity).
  destruct (findDirectChannel_is_sound_and_symmetric _ _ _ Hf)
    as (_ & _ & _ & _ & Hbob & Hsym).
  split; [exact Hf|]. split; [exact Hbob|].
  apply Hsym. vm_compute. reflexivity.
Defined.


(* ================================================================== *)
(** * Properties of the HTTP routes *)

(** ** Posting a message *)

(** X21.  The route that posts a message refuses a user who is not a member
    of the channel with status 403: the membership check is its only storage
    call, [createMessage] is not invoked, nothing is broadcast and the hub
    is unchanged. *)
Theorem http_post_by_non_member_is_refused {DB} `{IStorage DB}
    (w : World DB) U C content replyToId d' :
  storage (isChannelMember C U) (db w) = (Ok false, d') ->
  run (Http.post_channel_messages U C content replyToId) w
  = (Ok (res_error 403 "Not a member of this channel"),
     {| hub := hub w; db := d' |},
     [Call (isChannelMember C U)]).
Proof.
  intros Hst. unfold Http.post_channel_messages. simpl.
  rewrite Hst. reflexivity.
Qed.

(** mallory, who is not a member of "general", posts over HTTP. *)
Lemma http_post_by_non_member_is_refused_witness :
  let w := world Example.everyone_online in
  run (Http.post_channel_messages "mallory" "general" (Some "hi") None) w
  = (Ok (res_error 403 "Not a member of this channel"), w,
     [Call (isChannelMember "general" "mallory")]).
Proof.
  intros w.
  rewrite (@http_post_by_non_member_is_refused _ _ w "mallory" "general"
             (Some "hi") None (db w)).
  - now rewrite world_eta.
  - vm_compute. reflexivity.
Defined.

(** X22.  A message posted over HTTP and the same message sent as a
    [send_message] frame by a connection bound to the same user do the same
    thing: the same storage calls in the same order, the same frames to the
    same sockets, the same database and hub afterwards, whatever the storage
    layer answers. The two paths differ in what they log and in that only
    the route answers its caller. *)
Theorem http_and_socket_posts_agree {DB} `{IStorage DB}
    (w : World DB) ws U C p :
  bound_to w ws U -> p_channelId p = Some C -> C <> "" ->
  let r1 := run (on_message ws (Json (Some "send_message") (Some p))) w in
  let r2 := run (Http.post_channel_messages U C (p_content p) (p_replyToId p))
              w in
  snd (fst r1) = snd (fst r2)
  /\ unlogged (snd r1) = unlogged (snd r2).
Proof.
  intros [HU HUne] HC HCne. cbv zeta.
  unfold on_message, handle_message, case_send_message,
    Http.post_channel_messages. simpl.
  rewrite HU, (truthy_Some HUne). simpl.
  rewrite HC, (truthy_Some HCne). simpl.
  destruct (storage (isChannelMember C U) (db w)) as [[[|]|e] d1]; simpl;
    auto.
  rewrite HU.
  destruct (storage (createMessage _) d1) as [[newMessage|e] d2]; simpl; auto.
Qed.

(** alice posts "hi" into "general" from socket 1 and over HTTP. *)
Lemma http_and_socket_posts_agree_witness :
  let w := world Example.everyone_online in
  let r1 := run (on_message 1 (Json (Some "send_message")
                                 (Some (Example.say "general" "hi")))) w in
  let r2 := run (Http.post_channel_messages "alice" "general" (Some "hi") None)
              w in
  snd (fst r1) = snd (fst r2)
  /\ unlogged (snd r1) = unlogged (snd r2)
  /\ deliveries (snd r2)
     = [Send 1 (new_message Example.hi); Send 2 (new_message Example.hi)].
Proof.
  intros w r1 r2.
  assert (Hb : bound_to w 1 "alice")
    by (split; [vm_compute; reflexivity | discriminate]).
  assert (HC : "general" <> "") by discriminate.
  destruct (@http_and_socket_posts_agree _ _ w 1 "alice" "general"
              (Example.say "general" "hi") Hb eq_refl HC) as [Hw Ho].
  split; [exact Hw|]. split; [exact Ho|].
  vm_compute. reflexivity.
Defined.


(** ** Reactions over HTTP *)

(** X23.  The route that adds a reaction answers 404 for a message the
    storage layer does not know and 403 for a user who is not a member of
    the channel of the message; in both cases [addReaction] is not called
    and nothing is broadcast. The [add_reaction] frame of a socket bound to
    the same non-member, in the same world, does call [addReaction]. *)
Theorem http_reaction_is_checked {DB} `{IStorage DB}
    (w : World DB) ws U mid p :
  bound_to w ws U -> p_messageId p = Some mid -> mid <> "" ->
  let route := Http.post_message_reactions U mid (p_emoji p) in
  let frame := on_message ws (Json (Some "add_reaction") (Some p)) in
  let reaction := {| ir_messageId := mid; ir_userId := Some U;
                     ir_emoji := p_emoji p |} in
  (forall d1,
     storage (getMessage mid) (db w) = (Ok None, d1) ->
     run route w
     = (Ok (res_error 404 "Message not found"),
        {| hub := hub w; db := d1 |},
        [Call (getMessage mid)]))
  /\ (forall m d1 d2,
        storage (getMessage mid) (db w) = (Ok (Some m), d1) ->
        storage (isChannelMember (message_channelId m) U) d1
        = (Ok false, d2) ->
        run route w
        = (Ok (res_error 403 "Not a member of this channel"),
           {| hub := hub w; db := d2 |},
           [Call (getMessage mid);
            Call (isChannelMember (message_channelId m) U)])
        /\ In (Call (addReaction reaction)) (snd (run frame w))).
Proof.
  intros [HU HUne] Hm Hmne. cbv zeta. split.
  - intros d1 Hget. unfold Http.post_message_reactions. simpl.
    rewrite Hget. reflexivity.
  - intros m d1 d2 Hget Hmem. split.
    + unfold Http.post_message_reactions. simpl.
      rewrite Hget. simpl. rewrite Hmem. reflexivity.
    + unfold on_message, handle_message, case_add_reaction. simpl.
      rewrite HU, (truthy_Some HUne). simpl.
      rewrite Hm, (truthy_Some Hmne). simpl.
      rewrite Hget. simpl. rewrite HU.
      destruct (storage (addReaction _) d1) as [[reaction|e] d3]; simpl;
        auto.
Qed.

(** mallory, not a member of "general", reacts to alice's "hi": refused
    over HTTP, stored when sent over her socket. *)
Lemma http_reaction_is_checked_witness :
  let w := snd (fst (run (on_message 1
                            (Json (Some "send_message")
                               (Some (Example.say "general" "hi"))))
                       (world Example.everyone_online))) in
  fst (fst (run (Http.post_message_reactions "mallory" "uuid-0" (Some "+1")) w))
  = Ok (res_error 403 "Not a member of this channel")
  /\ In (Call (addReaction {| ir_messageId := "uuid-0";
                             ir_userId := Some "mallory";
                             ir_emoji := Some "+1" |}))
        (snd (run (on_message 3 (Json (Some "add_reaction")
                                   (Some (Example.react "uuid-0" "+1")))) w)).
Proof.
  intros w.
  assert (Hb : bound_to w 3 "mallory")
    by (split; [vm_compute; reflexivity | discriminate]).
  assert (Hne : "uuid-0" <> "") by discriminate.
  assert (Hget : storage (getMessage "uuid-0") (db w)
                 = (Ok (Some (mws_message Example.hi)), db w))
    by (vm_compute; reflexivity).
  assert (Hmem : storage (isChannelMember
                            (message_channelId (mws_message Example.hi))
                            "mallory") (db w)
                 = (Ok false, db w))
    by (vm_compute; reflexivity).
  destruct (@http_reaction_is_checked _ _ w 3 "mallory" "uuid-0"
              (Example.react "uuid-0" "+1") Hb eq_refl Hne) as [_ Hchecked].
  destruct (Hchecked _ _ _ Hget Hmem) as [Hroute Hframe].
  split; [|exact Hframe].
  change (Example.react "uuid-0" "+1") with
    {| p_userId := None; p_channelId := None; p_content := None;
       p_replyToId := None; p_messageId := Some "uuid-0";
       p_emoji := Some "+1" |} in Hroute.
  cbn [p_emoji] in Hroute. rewrite Hroute. reflexivity.
Defined.

Lemma no_call_broadcastToChannel h c message excludeUserId r :
  ~ In (Call r) (broadcastToChannel h c message excludeUserId).
Proof.
  unfold broadcastToChannel. rewrite in_flat_map.
  intros (u & _ & He). apply in_deliver in He.
  destruct He as (client & _ & _ & _ & E). discriminate.
Qed.

Lemma no_log_broadcastToChannel h c message excludeUserId msg e :
  ~ In (LogError msg e) (broadcastToChannel h c message excludeUserId).
Proof.
  unfold broadcastToChannel. rewrite in_flat_map.
  intros (u & _ & He). apply in_deliver in He.
  destruct He as (client & _ & _ & _ & E). discriminate.
Qed.

(** X24.  The route that removes a reaction makes no membership check: when
    the message exists it calls [removeReaction] and broadcasts
    [message_reaction] to the channel of the message, member or not. What it
    can remove is a reaction of the caller only: every [removeReaction] call
    it makes carries the caller's user id. *)
Theorem http_reaction_removal_is_unchecked {DB} `{IStorage DB}
    (w : World DB) U mid emoji :
  let route := Http.delete_message_reaction U mid emoji in
  Forall not_membership_check (snd (run route w))
  /\ (forall mid' u e,
        In (Call (removeReaction mid' u e)) (snd (run route w)) ->
        mid' = mid /\ u = Some U /\ e = Some emoji)
  /\ (forall m d1 removed d2,
        storage (getMessage mid) (db w) = (Ok (Some m), d1) ->
        storage (removeReaction mid (Some U) (Some emoji)) d1
        = (Ok removed, d2) ->
        run route w
        = (Ok (res_json json_success),
           {| hub := hub w; db := d2 |},
           Call (getMessage mid)
           :: Call (removeReaction mid (Some U) (Some emoji))
           :: broadcastToChannel (hub w) (Some (message_channelId m))
                (message_reaction (Some mid) (Some emoji) (Some U) "remove")
                None)).
Proof.
  cbv zeta. split; [|split].
  - apply run_unchecked. unfold Http.delete_message_reaction.
    repeat steps_step.
  - intros mid' u e. unfold Http.delete_message_reaction. simpl.
    destruct (storage (getMessage mid) (db w)) as [[[m|]|err] d1]; simpl.
    + destruct (storage (removeReaction _ _ _) d1) as [[removed|err] d2];
        simpl.
      * intros [E|[E|Hin]]; try discriminate.
        -- injection E as <- <- <-. auto.
        -- rewrite app_nil_r in Hin.
           now apply no_call_broadcastToChannel in Hin.
      * intros [E|[E|[E|[]]]]; try discriminate.
        injection E as <- <- <-. auto.
    + intros [E|[]]. discriminate.
    + intros [E|[E|[]]]; discriminate.
  - intros m d1 removed d2 Hget Hrem.
    unfold Http.delete_message_reaction. simpl.
    rewrite Hget. simpl. rewrite Hrem. simpl. now rewrite app_nil_r.
Qed.

(** ** Every request is answered *)

(** X25.  Each of the three routes answers every request, whatever the
    storage layer does: with 200, 403, 404 or 500; nothing is broadcast
    unless the answer is 200; the answer is 500 exactly when an error was
    logged (a storage call was rejected); and the hub is never changed. *)
Theorem http_routes_always_answer {DB} `{IStorage DB}
    (w : World DB) (r : Http.Route) :
  exists response w' o,
    run (Http.handler r) w = (Ok response, w', o)
    /\ hub w' = hub w
    /\ In (res_status response) [200; 403; 404; 500]
    /\ (res_status response <> 200 -> deliveries o = [])
    /\ (res_status response = 500 <-> exists msg e, In (LogError msg e) o).
Proof.
  assert (Hno : forall msg e (o : list Effect),
            (forall x, In x o -> x <> LogError msg e) ->
            ~ In (LogError msg e) o).
  { intros msg e o Ho Hin. now apply (Ho _ Hin). }
  destruct r as [U C content replyToId | U mid emoji | U mid emoji];
    unfold Http.handler, Http.post_channel_messages,
      Http.post_message_reactions, Http.delete_message_reaction; simpl;
    repeat match goal with
           | |- context [storage ?r ?d] =>
               destruct (storage r d) as [[?|?] ?]; simpl
           | |- context [match ?m with Some _ => _ | None => _ end] =>
               destruct m; simpl
           | |- context [if negb ?b then _ else _] => destruct b; simpl
           end;
    do 3 eexists; (split; [reflexivity|]); simpl;
    (split; [reflexivity|]);
    (split; [tauto|]);
    (split; [try discriminate; try congruence |]);
    (split;
     [ try discriminate; intros _; do 2 eexists; simpl; tauto
     | try reflexivity; intros (msg & e & Hin); exfalso;
       simpl in Hin; rewrite ?app_nil_r in Hin;
       repeat (destruct Hin as [Hin|Hin]; [discriminate|]);
       try contradiction;
       now apply no_log_broadcastToChannel in Hin ]).
Qed.


(* ================================================================== *)
(** * Properties of the friendship operations *)

Lemma between_iff u1 u2 f :
  Friends.between u1 u2 f = true
  <-> (Some (friendship_requesterId f) = u1
       /\ Some (friendship_addresseeId f) = u2)
      \/ (Some (friendship_requesterId f) = u2
          /\ Some (friendship_addresseeId f) = u1).
Proof.
  unfold Friends.between.
  rewrite orb_true_iff, !andb_true_iff, !strict_eq_true. reflexivity.
Qed.

Lemma between_comm u1 u2 f : Friends.between u1 u2 f = Friends.between u2 u1 f.
Proof. unfold Friends.between. apply orb_comm. Qed.

Lemma find_ext {A} (f g : A -> bool) l :
  (forall x, f x = g x) -> find f l = find g l.
Proof.
  intros Hfg. induction l as [|x l IH]; simpl; auto.
  now rewrite Hfg, IH.
Qed.

Lemma getFriendship_comm d u1 u2 :
  Friends.getFriendship d u1 u2 = Friends.getFriendship d u2 u1.
Proof.
  unfold Friends.getFriendship. apply find_ext. intros f. apply between_comm.
Qed.

(** X26.  [getFriendship] does not depend on the order of the two users.
    What it returns is a row that joins them, in one direction or the other,
    and it returns nothing only if no row does. *)
Theorem getFriendship_is_symmetric d u1 u2 :
  Friends.getFriendship d u1 u2 = Friends.getFriendship d u2 u1
  /\ (forall f,
        Friends.getFriendship d u1 u2 = Some f ->
        In f (Friends.friendships d)
        /\ ((Some (friendship_requesterId f) = u1
             /\ Some (friendship_addresseeId f) = u2)
            \/ (Some (friendship_requesterId f) = u2
                /\ Some (friendship_addresseeId f) = u1)))
  /\ (Friends.getFriendship d u1 u2 = None ->
      forall f, In f (Friends.friendships d) ->
                ~ (Some (friendship_requesterId f) = u1
                   /\ Some (friendship_addresseeId f) = u2)
                /\ ~ (Some (friendship_requesterId f) = u2
                      /\ Some (friendship_addresseeId f) = u1)).
Proof.
  split; [apply getFriendship_comm|]. unfold Friends.getFriendship. split.
  - intros f Hf. apply find_some in Hf. destruct Hf as [Hin Hb].
    apply between_iff in Hb. auto.
  - intros Hnone f Hin. apply (find_none _ _ Hnone) in Hin.
    split; intros Hj;
      assert (Hb : Friends.between u1 u2 f = true)
        by (apply between_iff; auto);
      congruence.
Qed.

(** ** Sending a friend request *)

Lemma createFriendship_Ok d data f d' :
  Friends.createFriendship d data = (Ok f, d') ->
  friendship_requesterId f = if_requesterId data
  /\ Some (friendship_addresseeId f) = if_addresseeId data
  /\ friendship_status f
     = match if_status data with Some s => s | None => "pending" end
  /\ Friends.friendships d' = Friends.friendships d ++ [f]
  /\ Db.users (Friends.tables d') = Db.users (Friends.tables d)
  /\ Db.user_exists (Friends.tables d) (if_requesterId data) = true
  /\ Db.user_exists (Friends.tables d) (friendship_addresseeId f) = true.
Proof.
  unfold Friends.createFriendship.
  destruct (if_addresseeId data) as [a|]; [|discriminate].
  destruct (Db.user_exists (Friends.tables d) (if_requesterId data)) eqn:E1;
    [|discriminate].
  destruct (Db.user_exists (Friends.tables d) a) eqn:E2; [|discriminate].
  simpl. destruct (Nat.ltb 20 _); [discriminate|].
  intros [= <- <-]. simpl. auto 10.
Qed.

Lemma createFriendship_Err d data e d' :
  Friends.createFriendship d data = (Err e, d') -> d' = d.
Proof.
  unfold Friends.createFriendship.
  destruct (if_addresseeId data) as [a|]; [|now intros [= _ <-]].
  destruct (negb (Db.user_exists (Friends.tables d) (if_requesterId data)));
    [now intros [= _ <-]|].
  destruct (negb (Db.user_exists (Friends.tables d) a)); [now intros [= _ <-]|].
  destruct (Nat.ltb 20 _); [now intros [= _ <-] | discriminate].
Qed.

Lemma exclusive_snoc l f :
  exclusive l ->
  friendship_requesterId f <> friendship_addresseeId f ->
  (forall g, In g l ->
     Friends.between (Some (friendship_requesterId f))
       (Some (friendship_addresseeId f)) g = false) ->
  exclusive (l ++ [f]).
Proof.
  intros Hex Hself Hnew. induction l as [|g l IH]; simpl.
  - repeat split; auto; contradiction.
  - destruct Hex as (Hg & Hrest & Hex). repeat split; auto.
    + intros g' Hin. apply in_app_or in Hin.
      destruct Hin as [Hin|[<-|[]]]; auto.
      specialize (Hnew g (or_introl eq_refl)).
      destruct (Friends.between _ _ f) eqn:Eb; auto.
      apply between_iff in Eb.
      assert (Hb : Friends.between (Some (friendship_requesterId f))
                     (Some (friendship_addresseeId f)) g = true).
      { apply between_iff.
        destruct Eb as [[[= E1] [= E2]]|[[= E1] [= E2]]];
          rewrite E1, E2; auto. }
      congruence.
    + apply IH; auto. intros g' Hin. apply Hnew. now right.
Qed.

(** X27.  A friend request, the route run with no other request in between.
    A request to oneself is refused (400) and so is a request between two
    users that a row already joins, in either direction; neither touches the
    database. A request that is accepted stores one new row, pending, from
    the caller to the addressee; the addressee then finds it among the
    pending requests, and a second request between the two, from either
    side, is refused. So the route keeps the table [exclusive]. *)
Theorem friend_requests_are_not_duplicated d U addresseeId :
  let r := Friends.post_friends d U addresseeId in
  let d' := snd (fst r) in
  (addresseeId = Some U ->
   r = (res_error 400 "Cannot send friend request to yourself", d, []))
  /\ (Friends.getFriendship d (Some U) addresseeId <> None ->
      res_status (fst (fst r)) = 400 /\ d' = d)
  /\ (forall f,
        fst (fst r) = res_json (json_friendship f) ->
        friendship_requesterId f = U
        /\ Some (friendship_addresseeId f) = addresseeId
        /\ friendship_status f = "pending"
        /\ Friends.friendships d' = Friends.friendships d ++ [f]
        /\ (exists requester,
              In (f, requester)
                 (Friends.getPendingFriendRequests d'
                    (friendship_addresseeId f)))
        /\ Friends.post_friends d' U addresseeId
           = (res_error 400 "Friend request already exists", d', [])
        /\ Friends.post_friends d' (friendship_addresseeId f) (Some U)
           = (res_error 400 "Friend request already exists", d', []))
  /\ (exclusive (Friends.friendships d) ->
      exclusive (Friends.friendships d')).
Proof.
  cbv zeta. unfold Friends.post_friends.
  destruct (strict_eq (Some U) addresseeId) eqn:Eself.
  { apply strict_eq_true in Eself. subst addresseeId. simpl.
    split; [auto|]. split; [auto|]. split; [|auto]. intros f [=]. }
  assert (Hne : addresseeId <> Some U).
  { intros ->. simpl in Eself. now rewrite String.eqb_refl in Eself. }
  destruct (Friends.getFriendship d (Some U) addresseeId) as [existing|] eqn:Eg.
  { simpl. split; [contradiction|]. split; [auto|]. split; [|auto].
    intros f [=]. }
  destruct (Friends.createFriendship d _) as [[f|e] d1] eqn:Ec; simpl.
  2:{ apply createFriendship_Err in Ec. subst d1.
      split; [contradiction|]. split; [congruence|]. split; [|auto].
      intros f [=]. }
  destruct (createFriendship_Ok _ _ Ec)
    as (Hr & Ha & Hs & Hf & Hu & Hex1 & Hex2).
  simpl in Hr, Ha, Hs.
  assert (Hb : Friends.between (Some U) addresseeId f = true)
    by (apply between_iff; left; rewrite Hr; auto).
  assert (Hfind : Friends.getFriendship d1 (Some U) addresseeId = Some f).
  { unfold Friends.getFriendship in *. rewrite Hf.
    rewrite (find_app_None _ _ f Eg). now rewrite Hb. }
  split; [contradiction|]. split; [congruence|]. split.
  - intros f0 [= <-]. repeat split; auto.
    + apply user_exists_getUser in Hex1. destruct Hex1 as (requester & Hg).
      exists requester. unfold Friends.getPendingFriendRequests.
      apply (in_joined
               (fun request => Db.getUser (Friends.tables d1)
                                 (Some (friendship_requesterId request)))
               (fun request requester => (request, requester))).
      exists f, requester. repeat split.
      * apply filter_In. split; [rewrite Hf; apply in_or_app; right; now left|].
        now rewrite Hs, !String.eqb_refl.
      * rewrite Hr. simpl in *. now rewrite Hu.
    + now rewrite Hfind.
    + rewrite <- Ha in Hne.
      assert (Hne' : friendship_addresseeId f <> U) by congruence.
      destruct (String.eqb_spec (friendship_addresseeId f) U) as [E|_];
        [contradiction|].
      rewrite getFriendship_comm, Ha, Hfind. reflexivity.
  - intros Hexcl. rewrite Hf. apply exclusive_snoc; auto.
    + rewrite Hr. intros E. apply Hne. now rewrite <- Ha, <- E.
    + intros g Hin. unfold Friends.getFriendship in Eg.
      apply (find_none _ _ Eg) in Hin. now rewrite Hr, Ha.
Qed.


(** ** Friends *)

Lemma in_getUserFriends d userId f friend :
  In (f, friend) (Friends.getUserFriends d userId)
  <-> In f (Friends.friendships d)
      /\ (friendship_requesterId f = userId
          \/ friendship_addresseeId f = userId)
      /\ friendship_status f = "accepted"
      /\ Db.getUser (Friends.tables d)
           (Some (if String.eqb (friendship_requesterId f) userId
                  then friendship_addresseeId f
                  else friendship_requesterId f))
         = Some friend.
Proof.
  unfold Friends.getUserFriends.
  rewrite (in_joined
             (fun record =>
                Db.getUser (Friends.tables d)
                  (Some (if String.eqb (friendship_requesterId record) userId
                         then friendship_addresseeId record
                         else friendship_requesterId record)))
             (fun record friend => (record, friend))).
  split.
  - intros (a & b & Hin & Hp & [= -> ->]). apply filter_In in Hin.
    destruct Hin as [Hin Hf]. apply andb_true_iff in Hf.
    destruct Hf as [Hu Hs]. apply orb_true_iff in Hu.
    rewrite !String.eqb_eq in Hu. apply String.eqb_eq in Hs. auto.
  - intros (Hin & Hu & Hs & Hp). exists f, friend. repeat split; auto.
    apply filter_In. split; auto. apply andb_true_iff. split.
    + apply orb_true_iff. now rewrite !String.eqb_eq.
    + now apply String.eqb_eq.
Qed.

(** X28.  Friendship is mutual: when [getUserFriends] lists a user [B] as a
    friend of [A] through some row, it lists [A] as a friend of [B] through
    the same row (given that [A] has a user row), whoever of the two sent
    the request. *)
Theorem friends_are_mutual d A userA f userB :
  Db.getUser (Friends.tables d) (Some A) = Some userA ->
  In (f, userB) (Friends.getUserFriends d A) ->
  In (f, userA) (Friends.getUserFriends d (user_id userB)).
Proof.
  intros HA Hin. apply in_getUserFriends in Hin.
  destruct Hin as (Hin & Hu & Hs & Hp).
  apply getUser_Some in Hp. destruct Hp as [_ HB].
  apply in_getUserFriends. rewrite HB.
  destruct (String.eqb_spec (friendship_requesterId f) A) as [Hr|Hr].
  - split; auto. split; [now right|]. split; auto.
    destruct (String.eqb_spec (friendship_requesterId f)
                (friendship_addresseeId f)) as [E|E].
    + now rewrite <- E, Hr.
    + now rewrite Hr.
  - destruct Hu as [Hu|Hu]; [contradiction|].
    split; auto. split; [now left|]. split; auto.
    rewrite String.eqb_refl. now rewrite Hu.
Qed.

Lemma map_with_status_other d status id l g :
  In g l -> friendship_id g <> id ->
  In g (map (fun f => if String.eqb (friendship_id f) id
                      then Friends.with_status d status f else f) l).
Proof.
  intros Hin Hne. apply in_map_iff. exists g. split; auto.
  destruct (String.eqb_spec (friendship_id g) id);
    [contradiction | reflexivity].
Qed.

(** X29.  Answering a friend request. [updateFriendshipStatus] on an id that
    no row has returns nothing and changes nothing. On the id of a row it
    returns that row with the new status; once the status is ["accepted"],
    each of the two users finds the other among their friends (given that
    both have a user row), and the request is no longer pending for the
    addressee. Rows with another id are not touched. (The status fits
    [varchar(20)], and ids are unique as the primary key makes them.) *)
Theorem accepting_a_request_makes_friends d f status userA userB :
  String.length status <= 20 ->
  In f (Friends.friendships d) ->
  (forall g, In g (Friends.friendships d) ->
             friendship_id g = friendship_id f -> g = f) ->
  Db.getUser (Friends.tables d) (Some (friendship_requesterId f))
  = Some userA ->
  Db.getUser (Friends.tables d) (Some (friendship_addresseeId f))
  = Some userB ->
  let f' := Friends.with_status d status f in
  let r := Friends.updateFriendshipStatus d (friendship_id f) status in
  let d' := snd r in
  fst r = Ok (Some f')
  /\ Friends.patch_friends d (friendship_id f) status
     = (res_json (json_friendship f'), d', [])
  /\ (forall g, In g (Friends.friendships d) ->
                friendship_id g <> friendship_id f ->
                In g (Friends.friendships d'))
  /\ (forall g, In g (Friends.friendships d') ->
                g = f' \/ In g (Friends.friendships d))
  /\ (status = "accepted" ->
      In (f', userB) (Friends.getUserFriends d' (friendship_requesterId f))
      /\ In (f', userA) (Friends.getUserFriends d' (friendship_addresseeId f))
      /\ forall requester,
           ~ In (f', requester)
                (Friends.getPendingFriendRequests d'
                   (friendship_addresseeId f)))
  /\ (forall id,
        (forall g, In g (Friends.friendships d) -> friendship_id g <> id) ->
        Friends.updateFriendshipStatus d id status = (Ok None, d)).
Proof.
  intros Hlen Hin Hpk HA HB f' r d'.
  assert (Hlt : Nat.ltb 20 (String.length status) = false)
    by (apply Nat.ltb_ge; exact Hlen).
  assert (Hhit : filter (fun g => String.eqb (friendship_id g)
                                    (friendship_id f))
                   (Friends.friendships d) <> []).
  { intros Hnil.
    assert (Hf : In f (filter (fun g => String.eqb (friendship_id g)
                                          (friendship_id f))
                         (Friends.friendships d))).
    { apply filter_In. split; auto. apply String.eqb_refl. }
    now rewrite Hnil in Hf. }
  assert (Hfirst : hd_error (map (Friends.with_status d status)
                               (filter (fun g => String.eqb (friendship_id g)
                                                   (friendship_id f))
                                  (Friends.friendships d)))
                   = Some f').
  { destruct (filter _ _) as [|g l] eqn:Ef; [contradiction|]. simpl.
    assert (Hg : In g (g :: l)) by now left.
    rewrite <- Ef in Hg. apply filter_In in Hg. destruct Hg as [Hg He].
    apply String.eqb_eq in He. now rewrite (Hpk g Hg He). }
  assert (Hr : r = (Ok (Some f'),
                    {| Friends.tables := Friends.tables d;
                       Friends.friendships :=
                         map (fun g => if String.eqb (friendship_id g)
                                            (friendship_id f)
                                       then Friends.with_status d status g
                                       else g)
                             (Friends.friendships d) |})).
  { subst r. unfold Friends.updateFriendshipStatus. rewrite Hlt.
    now rewrite Hfirst. }
  assert (Hin' : In f' (Friends.friendships d')).
  { subst d'. rewrite Hr. simpl. apply in_map_iff. exists f. split; auto.
    now rewrite String.eqb_refl. }
  split; [now rewrite Hr|]. split.
  { unfold Friends.patch_friends. fold r. subst d'. now rewrite Hr. }
  split.
  { intros g Hg Hne. subst d'. rewrite Hr. simpl.
    now apply map_with_status_other. }
  split.
  { intros g Hg. subst d'. rewrite Hr in Hg. simpl in Hg.
    apply in_map_iff in Hg. destruct Hg as (g0 & Hg0 & Hin0).
    destruct (String.eqb_spec (friendship_id g0) (friendship_id f)) as [E|E].
    - left. rewrite <- Hg0. now rewrite (Hpk g0 Hin0 E).
    - right. now subst g0. }
  split.
  { intros ->.
    assert (Ht : Friends.tables d' = Friends.tables d)
      by (subst d'; now rewrite Hr).
    split; [|split].
    - apply in_getUserFriends. rewrite Ht. simpl.
      rewrite String.eqb_refl. auto.
    - apply in_getUserFriends. rewrite Ht. simpl.
      split; auto. split; auto. split; auto.
      destruct (String.eqb_spec (friendship_requesterId f)
                  (friendship_addresseeId f)) as [E|E]; auto.
      now rewrite <- E.
    - intros requester Hp. unfold Friends.getPendingFriendRequests in Hp.
      apply (in_joined
               (fun request => Db.getUser (Friends.tables d')
                                 (Some (friendship_requesterId request)))
               (fun request requester => (request, requester))) in Hp.
      destruct Hp as (a & b & Ha & _ & [= <- _]).
      apply filter_In in Ha. destruct Ha as [_ Hs].
      apply andb_true_iff in Hs. destruct Hs as [_ Hs]. discriminate. }
  intros id Hnone. unfold Friends.updateFriendshipStatus. rewrite Hlt.
  assert (Hnil : filter (fun g => String.eqb (friendship_id g) id)
                   (Friends.friendships d) = []).
  { destruct (filter (fun g => String.eqb (friendship_id g) id)
                (Friends.friendships d)) as [|g l] eqn:Ef; auto.
    assert (Hg : In g (g :: l)) by now left.
    rewrite <- Ef in Hg. apply filter_In in Hg. destruct Hg as [Hg He].
    apply String.eqb_eq in He. now apply Hnone in Hg. }
  rewrite Hnil. simpl. f_equal. destruct d as [t l]. simpl in *. f_equal.
  clear Hnil Hin Hpk Hhit Hfirst Hr Hin' HA HB.
  induction l as [|g l IH]; simpl; auto.
  destruct (String.eqb_spec (friendship_id g) id) as [E|E].
  - exfalso. apply (Hnone g); auto. now left.
  - f_equal. apply IH. intros g0 Hg0. apply Hnone. now right.
Qed.

(** bob accepts alice's request: each is now the other's friend, and bob
    has no pending request left. *)
Lemma accepting_a_request_makes_friends_witness :
  let f' := Friends.with_status Circle.requested "accepted" Circle.request in
  In Circle.request (Friends.friendships Circle.requested)
  /\ In (f', Example.user "bob" "Bob")
        (Friends.getUserFriends Circle.befriended "alice")
  /\ In (f', Example.user "alice" "Alice")
        (Friends.getUserFriends Circle.befriended "bob")
  /\ Friends.getPendingFriendRequests Circle.befriended "bob" = [].
Proof.
  intros f'.
  assert (Hlen : String.length "accepted" <= 20) by (simpl; lia).
  assert (Hin : In Circle.request (Friends.friendships Circle.requested))
    by (vm_compute; now left).
  assert (Hpk : forall g, In g (Friends.friendships Circle.requested) ->
                          friendship_id g = friendship_id Circle.request ->
                          g = Circle.request).
  { intros g Hg _. vm_compute in Hg. destruct Hg as [<-|[]]. reflexivity. }
  pose proof (@accepting_a_request_makes_friends Circle.requested
                Circle.request "accepted"
                (Example.user "alice" "Alice") (Example.user "bob" "Bob")
                Hlen Hin Hpk eq_refl eq_refl) as Ha.
  cbv zeta in Ha. destruct Ha as (_ & _ & _ & _ & Hfriends & _).
  destruct (Hfriends eq_refl) as (Hbob & Halice & _).
  split; [exact Hin|]. split; [exact Hbob|]. split; [exact Halice|].
  vm_compute. reflexivity.
Defined.

(** alice and bob after bob has accepted: bob is listed for alice, so
    alice is listed for bob. *)
Lemma friends_are_mutual_witness :
  let f' := Friends.with_status Circle.requested "accepted" Circle.request in
  In (f', Example.user "bob" "Bob")
     (Friends.getUserFriends Circle.befriended "alice")
  /\ In (f', Example.user "alice" "Alice")
        (Friends.getUserFriends Circle.befriended "bob").
Proof.
  intros f'.
  assert (Hbob : In (f', Example.user "bob" "Bob")
                    (Friends.getUserFriends Circle.befriended "alice"))
    by (vm_compute; now left).
  split; [exact Hbob|].
  exact (@friends_are_mutual Circle.befriended "alice"
           (Example.user "alice" "Alice") f' (Example.user "bob" "Bob")
           eq_refl Hbob).
Defined.


(** ** Ending a friendship *)

Lemma between_pair_sym f g :
  Friends.between (Some (friendship_requesterId f))
    (Some (friendship_addresseeId f)) g
  = Friends.between (Some (friendship_requesterId g))
      (Some (friendship_addresseeId g)) f.
Proof.
  destruct (Friends.between _ _ g) eqn:E1;
    destruct (Friends.between _ _ f) eqn:E2; auto.
  - apply between_iff in E1.
    assert (E : Friends.between (Some (friendship_requesterId g))
                  (Some (friendship_addresseeId g)) f = true).
    { apply between_iff.
      destruct E1 as [[[= E1] [= E3]]|[[= E1] [= E3]]]; rewrite E1, E3; auto. }
    congruence.
  - apply between_iff in E2.
    assert (E : Friends.between (Some (friendship_requesterId f))
                  (Some (friendship_addresseeId f)) g = true).
    { apply between_iff.
      destruct E2 as [[[= E2] [= E3]]|[[= E2] [= E3]]]; rewrite E2, E3; auto. }
    congruence.
Qed.

Lemma exclusive_apart l : forall f g,
  exclusive l -> In f l -> In g l -> f <> g ->
  Friends.between (Some (friendship_requesterId f))
    (Some (friendship_addresseeId f)) g = false.
Proof.
  induction l as [|x l IH]; simpl; [contradiction|].
  intros f g (Hx & Hrest & Hex) [->|Hf] [->|Hg] Hne.
  - contradiction.
  - auto.
  - rewrite between_pair_sym. auto.
  - auto.
Qed.

Lemma exclusive_In l f :
  exclusive l -> In f l -> friendship_requesterId f <> friendship_addresseeId f.
Proof.
  induction l as [|x l IH]; simpl; [contradiction|].
  intros (Hx & _ & Hex) [->|Hf]; auto.
Qed.

Lemma exclusive_filter (keep : Friendship -> bool) l :
  exclusive l -> exclusive (filter keep l).
Proof.
  induction l as [|x l IH]; simpl; auto.
  intros (Hx & Hrest & Hex). destruct (keep x); simpl; auto.
  repeat split; auto. intros g Hg. apply filter_In in Hg. apply Hrest. tauto.
Qed.

(** X30.  Ending a friendship and asking again. [deleteFriendship] answers
    [true] and removes the rows with the given id and no other. In a table
    that is [exclusive] (ids being unique), no row joins the two users of
    the deleted row any longer, the table is still [exclusive], and a new
    friend request between the two is accepted rather than refused as a
    duplicate. *)
Theorem deleting_a_friendship_allows_a_new_request d f :
  exclusive (Friends.friendships d) ->
  In f (Friends.friendships d) ->
  (forall g, In g (Friends.friendships d) ->
             friendship_id g = friendship_id f -> g = f) ->
  Db.user_exists (Friends.tables d) (friendship_requesterId f) = true ->
  Db.user_exists (Friends.tables d) (friendship_addresseeId f) = true ->
  let d' := snd (Friends.deleteFriendship d (friendship_id f)) in
  let r := Friends.post_friends d' (friendship_requesterId f)
             (Some (friendship_addresseeId f)) in
  fst (Friends.deleteFriendship d (friendship_id f)) = Ok true
  /\ (forall g, In g (Friends.friendships d')
                <-> In g (Friends.friendships d) /\ g <> f)
  /\ Friends.getFriendship d' (Some (friendship_requesterId f))
       (Some (friendship_addresseeId f)) = None
  /\ exclusive (Friends.friendships d')
  /\ res_status (fst (fst r)) = 200
  /\ exists f', Friends.friendships (snd (fst r))
                = Friends.friendships d' ++ [f']
                /\ friendship_status f' = "pending".
Proof.
  intros Hex Hin Hpk Hu1 Hu2 d' r.
  assert (Hrows : forall g, In g (Friends.friendships d')
                            <-> In g (Friends.friendships d) /\ g <> f).
  { intros g. subst d'. simpl. rewrite filter_In, negb_true_iff. split.
    - intros [Hg Hid]. split; auto. intros ->.
      now rewrite String.eqb_refl in Hid.
    - intros [Hg Hne]. split; auto.
      destruct (String.eqb_spec (friendship_id g) (friendship_id f)); auto.
      exfalso. auto. }
  assert (Hnone : Friends.getFriendship d' (Some (friendship_requesterId f))
                    (Some (friendship_addresseeId f)) = None).
  { unfold Friends.getFriendship.
    destruct (find _ _) as [g|] eqn:Ef; auto.
    apply find_some in Ef. destruct Ef as [Hg Hb].
    apply Hrows in Hg. destruct Hg as [Hg Hne].
    rewrite (@exclusive_apart _ f g Hex Hin Hg) in Hb by auto. discriminate. }
  split; [reflexivity|]. split; [exact Hrows|]. split; [exact Hnone|].
  split; [subst d'; simpl; now apply exclusive_filter|].
  subst r. unfold Friends.post_friends. rewrite Hnone.
  pose proof (@exclusive_In _ f Hex Hin) as Hself.
  rewrite strict_eq_false by congruence.
  unfold Friends.createFriendship.
  cbn [if_addresseeId if_requesterId if_status].
  change (Friends.tables d') with (Friends.tables d).
  rewrite Hu1, Hu2. simpl. split; [reflexivity|].
  eexists. split; reflexivity.
Qed.

(** alice and bob are friends; the friendship is deleted; alice's new
    request to bob is accepted. *)
Lemma deleting_a_friendship_allows_a_new_request_witness :
  let f := Friends.with_status Circle.requested "accepted" Circle.request in
  let d' := snd (Friends.deleteFriendship Circle.befriended "uuid-0") in
  In f (Friends.friendships Circle.befriended)
  /\ Friends.friendships d' = []
  /\ res_status (fst (fst (Friends.post_friends d' "alice" (Some "bob"))))
     = 200.
Proof.
  intros f d'.
  assert (Hin : In f (Friends.friendships Circle.befriended))
    by (vm_compute; now left).
  assert (Hex : exclusive (Friends.friendships Circle.befriended)).
  { vm_compute. repeat split; try discriminate. contradiction. }
  assert (Hpk : forall g, In g (Friends.friendships Circle.befriended) ->
                          friendship_id g = friendship_id f -> g = f).
  { intros g Hg _. vm_compute in Hg. destruct Hg as [<-|[]]. reflexivity. }
  pose proof (@deleting_a_friendship_allows_a_new_request Circle.befriended f
                Hex Hin Hpk eq_refl eq_refl) as Hd.
  cbv zeta in Hd. destruct Hd as (_ & _ & _ & _ & Hok & _).
  split; [exact Hin|]. split; [vm_compute; reflexivity|]. exact Hok.
Defined.
